(** * CoDATS: models and dataset loading

  A shallow embedding of [models.py] and [load_datasets.py]: the
  gradient-reversal layer, the architecture catalog, the domain-adaptation
  and CycleGAN wrappers, the loss factories, and the tfrecord loader with
  its trimming, label lookup and domain loading.

  The deep-learning framework itself (layer execution, cross-entropy,
  record parsing, the argument checks of [tf.data], float32 arithmetic)
  and numpy are not part of the repository; they enter through the
  interfaces [Float32], [Numpy], [Losses], [KerasRuntime] and [TfIO]
  below. *)

From Stdlib Require Import ZArith Ascii String List Lia.
From Stdlib Require Import Floats.PrimFloat Floats.SpecFloat Floats.FloatOps.
From stdpp Require Import base option list strings pretty gmap.

Set Warnings "-inexact-float,-register-all".

Local Open Scope string_scope.
Local Open Scope list_scope.
Local Open Scope Z_scope.

(** ** Python results and exceptions *)

Module Py.

(** The exceptions the two source files can raise, by class. *)
Inductive exn : Type :=
| AssertionError (msg : string)
| NotImplementedError (msg : string)
| TypeError (msg : string)
| ValueError (msg : string)
| IndexError (msg : string)
| KeyError (msg : string)
| InvalidArgumentError (msg : string)
| OverflowError (msg : string).

Inductive result (A : Type) : Type :=
| Ok (a : A)
| Raise (e : exn).
Global Arguments Ok {A} a.
Global Arguments Raise {A} e.

Definition is_ok {A} (r : result A) : bool :=
  match r with Ok _ => true | Raise _ => false end.

Definition rbind {A B} (r : result A) (k : A -> result B) : result B :=
  match r with
  | Ok a => k a
  | Raise e => Raise e
  end.

(** Computations over a state [S] that may raise: the state reached when
    an exception is raised is kept, as Python keeps whatever was mutated
    before the [raise]. *)
Definition St (S A : Type) : Type := S -> result A * S.

Definition ret {S A} (a : A) : St S A := fun s => (Ok a, s).
Definition bind {S A B} (m : St S A) (k : A -> St S B) : St S B :=
  fun s => match m s with
           | (Ok a, s') => k a s'
           | (Raise e, s') => (Raise e, s')
           end.
Definition raise {S A} (e : exn) : St S A := fun s => (Raise e, s).
Definition get {S} : St S S := fun s => (Ok s, s).
Definition put {S} (s : S) : St S unit := fun _ => (Ok tt, s).
Definition modify {S} (f : S -> S) : St S unit := fun s => (Ok tt, f s).
Definition lift {S A} (r : result A) : St S A := fun s => (r, s).

(** [assert cond, msg]: the message is an expression of its own, evaluated
    only when the condition is false, and it may raise itself. *)
Definition assert_ {S} (cond : bool) (msg : result string) : St S unit :=
  if cond then ret tt
  else match msg with
       | Ok m => raise (AssertionError m)
       | Raise e => raise e
       end.

(** [for x in xs: body(x)] collecting results, left to right. *)
Fixpoint for_each {S A B} (f : A -> St S B) (xs : list A) : St S (list B) :=
  match xs with
  | [] => ret []
  | x :: xs' => bind (f x) (fun y => bind (for_each f xs') (fun ys => ret (y :: ys)))
  end.

(** A Python integer read as a signed machine integer of [bits] bits,
    wrapping around, and whether it fits without wrapping. *)
Definition wrap_int (bits : Z) (v : Z) : Z :=
  (v + 2 ^ (bits - 1)) mod 2 ^ bits - 2 ^ (bits - 1).

Definition fits_int (bits : Z) (v : Z) : bool :=
  (- 2 ^ (bits - 1) <=? v) && (v <? 2 ^ (bits - 1)).

(** Truth value of an optional flag compared with [is True] / [is False]. *)
Definition is_True (b : option bool) : bool :=
  match b with Some true => true | _ => false end.
Definition is_False (b : option bool) : bool :=
  match b with Some false => true | _ => false end.

End Py.

Import Py.

Notation "'let*' x ':=' m 'in' k" := (Py.bind m (fun x => k))
(at level 10, x name, m at level 100, k at level 200).
Notation "'let*' ' pat ':=' m 'in' k" :=
(Py.bind m (fun x => match x with pat => k end))
(at level 10, pat pattern, m at level 100, k at level 200).
Notation "'do' m 'in' k" := (Py.bind m (fun _ => k))
(at level 10, m at level 100, k at level 200).

Notation "'let?' x ':=' m 'in' k" := (Py.rbind m (fun x => k))
  (at level 10, x name, m at level 100, k at level 200).

(** ** float32 scalars and tensors *)

(** The float32 arithmetic of the framework: a carrier and the operations
  the sources apply to it. *)
Class Float32 : Type := {
f32 : Type;
f32_one : f32;
f32_of_Z : Z -> f32;
f32_of_float : float -> f32;
f32_neg : f32 -> f32;
f32_add : f32 -> f32 -> f32;
f32_sub : f32 -> f32 -> f32;
f32_mul : f32 -> f32 -> f32;
f32_div : f32 -> f32 -> f32;
f32_exp : f32 -> f32
}.

Module TF.
Section Tensors.
Context `{F : Float32}.

(** A tensor: its shape and its elements in row-major order. *)
Record tensor : Type := Tensor {
  shape : list Z;
  data : list f32
}.

Definition num_elements (sh : list Z) : Z := fold_right Z.mul 1 sh.

Definition tensor_wf (t : tensor) : Prop :=
  Forall (fun d => 0 <= d) (shape t) /\
  Z.of_nat (length (data t)) = num_elements (shape t).

Definition scalar (v : f32) : tensor := Tensor [] [v].

(** [tf.shape(x)[i]] *)
Definition shape_at (x : tensor) (i : nat) : result Z :=
  match shape x !! i with
  | Some d => Ok d
  | None => Raise (InvalidArgumentError "slice index out of bounds")
  end.

(** Element [i, j] of a rank-2 tensor with [cols] columns. *)
Definition get2 (x : tensor) (i j : Z) : option f32 :=
  match shape x with
  | [_; cols] => data x !! Z.to_nat (i * cols + j)
  | _ => None
  end.

(** [tf.negative], [tf.ones_like] *)
Definition tf_negative (x : tensor) : tensor :=
  Tensor (shape x) (map f32_neg (data x)).
Definition tf_ones_like (x : tensor) : tensor :=
  Tensor (shape x) (map (fun _ => f32_one) (data x)).

(** [a * b] on tensors, for the operand shapes the sources produce: equal
    shapes multiply elementwise and a rank-0 operand is broadcast over the
    other.  (The upstream gradient handed to a custom gradient has the
    shape of the forward output, so no other broadcast arises.) *)
Definition tf_multiply (a b : tensor) : result tensor :=
  if decide (shape a = shape b) then
    Ok (Tensor (shape a) (zip_with f32_mul (data a) (data b)))
  else match shape a, data a, shape b, data b with
       | _, _, [], [v] => Ok (Tensor (shape a) (map (fun u => f32_mul u v) (data a)))
       | [], [u], _, _ => Ok (Tensor (shape b) (map (fun v => f32_mul u v) (data b)))
       | _, _, _, _ =>
           Raise (InvalidArgumentError "shapes differ and neither operand is a scalar")
       end.

(** One dimension of [tf.slice]: extent [d], [begin] and [size], where a
    size of [-1] takes everything from [begin] on. *)
Definition slice_extent (d b s : Z) : option Z :=
  if s =? -1 then
    (if (0 <=? b) && (b <=? d) then Some (d - b) else None)
  else
    (if (0 <=? b) && (0 <=? s) && (b + s <=? d) then Some s else None).

(** [tf.slice(x, [b0, b1], [s0, s1])]: begin and size of length two fit
    a rank-2 input only. *)
Definition tf_slice (x : tensor) (begin size : Z * Z) : result tensor :=
  match shape x with
  | [d0; d1] =>
      match slice_extent d0 (fst begin) (fst size),
            slice_extent d1 (snd begin) (snd size) with
      | Some n0, Some n1 =>
          Ok (Tensor [n0; n1]
                (flat_map
                   (fun i : nat =>
                      take (Z.to_nat n1)
                        (drop (Z.to_nat ((fst begin + Z.of_nat i) * d1 + snd begin))
                           (data x)))
                   (seq 0 (Z.to_nat n0))))
      | _, _ => Raise (InvalidArgumentError "Expected size[i] in [0, dim - begin[i]]")
      end
  | _ => Raise (InvalidArgumentError "Expected begin and size arguments to be 1-D tensors of size rank")
  end.

End Tensors.
End TF.

Import TF.


(** ** models.py *)

(** A [tf.Variable] holding an integer (the global step) is a handle into a
    store of current values. *)
Record TfVariable : Type := { var_handle : nat }.
Definition VarStore : Type := nat -> Z.
Definition read_value (v : TfVariable) (vars : VarStore) : Z := vars (var_handle v).

(** Command-line flags read by the two files. *)
Record Flags : Type := {
  train_batch : Z;
  eval_batch : Z;
  shuffle_buffer : Z;
  prefetch_buffer : Z;
  tune_num_parallel_calls : bool;
  eval_shuffle_seed : Z;
  eval_max_examples : Z;
  trim_time_steps : Z;
  feature_subset : Z;
  dropout : float
}.

Definition default_flags : Flags :=
  {| train_batch := 128; eval_batch := 4096; shuffle_buffer := 60000;
     prefetch_buffer := 1; tune_num_parallel_calls := false;
     eval_shuffle_seed := 0; eval_max_examples := 0;
     trim_time_steps := 0; feature_subset := 0; dropout := 0.05%float |}.

Module Models.
Section GradientReversal.
Context `{F : Float32}.

(** What a schedule hands back: a Python float or a float32 tensor value. *)
Inductive sched_val : Type :=
| PyFloat (c : float)
| F32Value (v : f32).

(** A finite Python float (a double) whose nearest float32 is infinite:
    its magnitude is at least [2^128 - 2^103], half a unit in the last
    place above the largest float32. *)
Definition float32_overflows (c : float) : bool :=
  PrimFloat.ltb (PrimFloat.abs c) PrimFloat.infinity
  && PrimFloat.leb 0x1.ffffffp+127%float (PrimFloat.abs c).

(** [tf.cast(grl_lambda, dtype=tf.float32)], run eagerly: a tensor is
    taken as it is; a Python float is first turned into a float32 tensor,
    which the framework refuses when the float overflows float32. *)
Definition cast_float32 (l : sched_val) : result f32 :=
  match l with
  | PyFloat c =>
      if float32_overflows c then
        Raise (ValueError
                 "Can't convert Python sequence with out-of-range double to Tensor.")
      else Ok (f32_of_float c)
  | F32Value v => Ok v
  end.

(** [flip_gradient]: the forward value and the gradient function that
    [tf.custom_gradient] registers for it. *)
Definition flip_gradient (x : tensor) (grl_lambda : sched_val)
  : result (tensor * (tensor -> result tensor)) :=
  let? grl_lambda := cast_float32 grl_lambda in
  let grl_lambda := scalar grl_lambda in
  let grad (dy : tensor) : result tensor :=
    let? t := tf_multiply (tf_negative dy) grl_lambda in
    tf_multiply t (tf_ones_like x) in
  Ok (x, grad).

(** A schedule is a function of the global-step variable; reading the
    variable needs the store. *)
Definition GrlSchedule : Type := TfVariable -> VarStore -> sched_val.

Definition ConstantGrlSchedule (constant : float) : GrlSchedule :=
  fun step vars => PyFloat constant.

Definition DisableGrlSchedule : GrlSchedule :=
  fun step vars => PyFloat (-1.0)%float.

Definition DannGrlSchedule (num_steps : Z) : GrlSchedule :=
  let num_steps := f32_of_Z num_steps in
  fun step vars =>
    let step := f32_of_Z (read_value step vars) in
    F32Value
      (f32_sub
         (f32_div (f32_of_Z 2)
            (f32_add (f32_of_Z 1)
               (f32_exp
                  (f32_mul (f32_of_Z (-10))
                     (f32_div step (f32_add num_steps (f32_of_Z 1)))))))
         (f32_of_Z 1)).

(** The [FlipGradient] layer object. *)
Record FlipGradient : Type := {
  global_step : TfVariable;
  grl_schedule : GrlSchedule
}.

Definition FlipGradient_call (self : FlipGradient) (vars : VarStore) (inputs : tensor)
  : result (tensor * (tensor -> result tensor)) :=
  let grl_lambda := grl_schedule self (global_step self) vars in
  flip_gradient inputs grl_lambda.

(** *** Layers

    A layer object has an identity (the order in which it was created) and
    the arguments it was built from; arguments left to the framework's
    defaults are [None]. *)
Inductive LayerKind : Type :=
| Dense (units : Z) (activation : option string) (use_bias : option bool)
| BatchNormalization (momentum : option float)
| Activation (fn : string)
| Dropout (rate : float)
| Flatten
| Add
| Conv2D (filters : Z) (kernel_size strides : Z * Z) (padding : string)
    (activation : option string)
| MaxPool2D (pool_size strides : Z * Z) (padding : string)
| ReLU
| LeakyReLU (alpha : float)
| GaussianNoise (stddev : Z)
| GlobalAvgPool2D
| Reshape (target_shape : list Z)
| ResNet50 (include_top : bool) (pooling : string)
| FlipGradientLayer (fg : FlipGradient).

Inductive Layer : Type :=
| Leaf (uid : nat) (kind : LayerKind)
| Sequential (uid : nat) (layers : list Layer)
| ResnetBlock (uid : nat) (blocks : list Layer) (add : Layer).

Definition layer_uid (l : Layer) : nat :=
  match l with
  | Leaf u _ | Sequential u _ | ResnetBlock u _ _ => u
  end.

(** Building layers draws identities from a counter. *)
Definition Build (A : Type) : Type := St nat A.

Definition fresh : Build nat := fun n => (Ok n, S n).

Definition new_layer (k : LayerKind) : Build Layer :=
  let* u := fresh in ret (Leaf u k).

(** [tf.keras.Sequential([...])]: the list elements are built left to
    right, then the container. *)
Definition new_Sequential (layers : list (Build Layer)) : Build Layer :=
  let* ls := for_each (fun b => b) layers in
  let* u := fresh in
  ret (Sequential u ls).

(** [[f() for _ in range(n)]] *)
Definition times {A} (n : Z) (b : Build A) : list (Build A) :=
  replicate (Z.to_nat n) b.

Definition make_dense_bn_dropout (units : Z) (dropout : float) : Build Layer :=
  new_Sequential [
    new_layer (Dense units None (Some false));
    new_layer (BatchNormalization None);
    new_layer (Activation "relu");
    new_layer (Dropout dropout)
  ].

(** [ResnetBlock.__init__] *)
Definition new_ResnetBlock (units : Z) (dropout : float) (layers : Z) : Build Layer :=
  let* u := fresh in
  let* blocks := for_each (fun b => b) (times layers (make_dense_bn_dropout units dropout)) in
  let* add := new_layer Add in
  ret (ResnetBlock u blocks add).

(** [tf.keras.models.clone_model]: the same configuration in new objects. *)
Fixpoint clone_model (l : Layer) : Build Layer :=
  match l with
  | Leaf _ k => new_layer k
  | Sequential _ ls => new_Sequential (map clone_model ls)
  | ResnetBlock _ bs a =>
      let* u := fresh in
      let* blocks := for_each (fun b => b) (map clone_model bs) in
      let* add := clone_model a in
      ret (ResnetBlock u blocks add)
  end.

End GradientReversal.

Section Architectures.
Context `{F : Float32}.
Context (FLAGS : Flags).

(** A feature extractor, a task classifier and a domain classifier. *)
Definition Triple : Type := Layer * Layer * Layer.

(** What every architecture in the catalog is built from. *)
Definition Builder : Type := Z -> TfVariable -> GrlSchedule -> Build Triple.

Definition make_vrada_model : Builder := fun num_classes global_step grl_schedule =>
  let fe_layers := 5 in
  let task_layers := 1 in
  let domain_layers := 2 in
  let resnet_layers := 2 in
  let units := 50 in
  let dropout := dropout FLAGS in
  let make_classifier (layers num_outputs : Z) : Build Layer :=
    let layers := times (layers - 1) (make_dense_bn_dropout units dropout) in
    let last := [
      new_layer (Dense num_outputs None None);
      new_layer (Activation "softmax")
    ] in
    new_Sequential (layers ++ last) in
  let make_binary_classifier (layers : Z) : Build Layer :=
    let layers := times (layers - 1) (make_dense_bn_dropout units dropout) in
    let last := [new_layer (Dense 1 None None)] in
    new_Sequential (layers ++ last) in
  let* feature_extractor := new_Sequential ([
      new_layer Flatten;
      new_layer (BatchNormalization (Some 0.999%float))
    ] ++ times resnet_layers (make_dense_bn_dropout units dropout)
      ++ times (fe_layers - 1) (new_ResnetBlock units dropout resnet_layers)) in
  let* task_classifier := new_Sequential [
      make_classifier task_layers num_classes
    ] in
  let* domain_classifier := new_Sequential [
      new_layer (FlipGradientLayer {| global_step := global_step; grl_schedule := grl_schedule |});
      make_binary_classifier domain_layers
    ] in
  ret (feature_extractor, task_classifier, domain_classifier).

Definition make_dann_mnist_model : Builder := fun num_classes global_step grl_schedule =>
  let* feature_extractor := new_Sequential [
      new_layer (Conv2D 32 (5, 5) (1, 1) "valid" (Some "relu"));
      new_layer (MaxPool2D (2, 2) (2, 2) "valid");
      new_layer (Conv2D 48 (5, 5) (1, 1) "valid" (Some "relu"));
      new_layer (MaxPool2D (2, 2) (2, 2) "valid");
      new_layer Flatten
    ] in
  let* task_classifier := new_Sequential [
      new_layer (Dense 100 (Some "relu") None);
      new_layer (Dense 100 (Some "relu") None);
      new_layer (Dense num_classes (Some "softmax") None)
    ] in
  let* domain_classifier := new_Sequential [
      new_layer (FlipGradientLayer {| global_step := global_step; grl_schedule := grl_schedule |});
      new_layer (Dense 100 (Some "relu") None);
      new_layer (Dense 1 None None)
    ] in
  ret (feature_extractor, task_classifier, domain_classifier).

Definition make_dann_svhn_model : Builder := fun num_classes global_step grl_schedule =>
  let dropout := dropout FLAGS in
  let* feature_extractor := new_Sequential [
      new_layer (Conv2D 64 (5, 5) (1, 1) "same" None);
      new_layer (BatchNormalization None);
      new_layer ReLU;

      new_layer (MaxPool2D (3, 3) (2, 2) "same");
      new_layer (Dropout dropout);

      new_layer (Conv2D 64 (5, 5) (1, 1) "same" None);
      new_layer (BatchNormalization None);
      new_layer ReLU;

      new_layer (MaxPool2D (3, 3) (2, 2) "same");
      new_layer (Dropout dropout);

      new_layer (Conv2D 128 (5, 5) (1, 1) "same" None);
      new_layer (BatchNormalization None);
      new_layer ReLU;

      new_layer Flatten
    ] in
  let* task_classifier := new_Sequential [
      new_layer (Dense 3072 None None);
      new_layer (BatchNormalization None);
      new_layer ReLU;
      new_layer (Dropout dropout);

      new_layer (Dense 2048 None None);
      new_layer (BatchNormalization None);
      new_layer ReLU;
      new_layer (Dropout dropout);

      new_layer (Dense num_classes (Some "softmax") None)
    ] in
  let* domain_classifier := new_Sequential [
      new_layer (FlipGradientLayer {| global_step := global_step; grl_schedule := grl_schedule |});
      new_layer (Dense 1024 None None);
      new_layer (BatchNormalization None);
      new_layer ReLU;
      new_layer (Dropout dropout);

      new_layer (Dense 1024 None None);
      new_layer (BatchNormalization None);
      new_layer ReLU;
      new_layer (Dropout dropout);

      new_layer (Dense 1 None None)
    ] in
  ret (feature_extractor, task_classifier, domain_classifier).

Definition make_dann_gtsrb_model : Builder := fun num_classes global_step grl_schedule =>
  let* feature_extractor := new_Sequential [
      new_layer (Conv2D 96 (5, 5) (1, 1) "valid" (Some "relu"));
      new_layer (MaxPool2D (2, 2) (2, 2) "valid");
      new_layer (Conv2D 144 (3, 3) (1, 1) "valid" (Some "relu"));
      new_layer (MaxPool2D (2, 2) (2, 2) "valid");
      new_layer (Conv2D 256 (5, 5) (1, 1) "valid" (Some "relu"));
      new_layer (MaxPool2D (2, 2) (2, 2) "valid");
      new_layer Flatten
    ] in
  let* task_classifier := new_Sequential [
      new_layer (Dense 512 (Some "relu") None);
      new_layer (Dense num_classes (Some "softmax") None)
    ] in
  let* domain_classifier := new_Sequential [
      new_layer (FlipGradientLayer {| global_step := global_step; grl_schedule := grl_schedule |});
      new_layer (Dense 1024 (Some "relu") None);
      new_layer (Dense 1024 (Some "relu") None);
      new_layer (Dense 1 None None)
    ] in
  ret (feature_extractor, task_classifier, domain_classifier).

Definition make_vada_model (small : bool) : Builder := fun num_classes global_step grl_schedule =>
  let leak_alpha := 0.1%float in
  let conv_blocks (depth : Z) : list (Build Layer) := [
      new_layer (Conv2D depth (3, 3) (1, 1) "same" None);
      new_layer (BatchNormalization None);
      new_layer (LeakyReLU leak_alpha);

      new_layer (Conv2D depth (3, 3) (1, 1) "same" None);
      new_layer (BatchNormalization None);
      new_layer (LeakyReLU leak_alpha);

      new_layer (Conv2D depth (3, 3) (1, 1) "same" None);
      new_layer (BatchNormalization None);
      new_layer (LeakyReLU leak_alpha)
    ] in
  let pool_blocks : list (Build Layer) := [
      new_layer (MaxPool2D (2, 2) (2, 2) "same");
      new_layer (Dropout 0.5%float);
      new_layer (GaussianNoise 1)
    ] in
  let* feature_extractor := new_Sequential (
      conv_blocks (if small then 64 else 96)
      ++ pool_blocks
      ++ conv_blocks (if small then 64 else 192)
      ++ pool_blocks) in
  let* task_classifier := new_Sequential (
      conv_blocks (if small then 64 else 192)
      ++ [
        new_layer GlobalAvgPool2D;
        new_layer Flatten;
        new_layer (Dense num_classes (Some "softmax") None)
      ]) in
  let* domain_classifier := new_Sequential [
      new_layer (FlipGradientLayer {| global_step := global_step; grl_schedule := grl_schedule |});
      new_layer Flatten;

      new_layer (Dense 100 None None);
      new_layer (BatchNormalization None);
      new_layer ReLU;

      new_layer (Dense 1 None None)
    ] in
  ret (feature_extractor, task_classifier, domain_classifier).

Definition make_resnet50_model : Builder := fun num_classes global_step grl_schedule =>
  let* feature_extractor := new_layer (ResNet50 false "avg") in
  let* task_classifier := new_Sequential [
      new_layer Flatten;
      new_layer (Dense num_classes (Some "softmax") None)
    ] in
  let* domain_classifier := new_Sequential [
      new_layer (FlipGradientLayer {| global_step := global_step; grl_schedule := grl_schedule |});
      new_layer Flatten;
      new_layer (Dense 1 None None)
    ] in
  ret (feature_extractor, task_classifier, domain_classifier).

(** *** DomainAdaptationModel *)

Record DomainAdaptationModel : Type := {
  dam_uid : nat;
  feature_extractor : Layer;
  task_classifier : Layer;
  domain_classifier : Layer;
  target_classifier : Layer
}.

Definition DomainAdaptationModel_init (num_classes : Z) (model_name : string)
    (global_step : TfVariable) (num_steps : Z) (use_grl : bool)
  : Build DomainAdaptationModel :=
  let* uid := fresh in
  let grl_schedule :=
    if use_grl then DannGrlSchedule num_steps
    else DisableGrlSchedule in
  let args (b : Builder) := b num_classes global_step grl_schedule in
  let* '(fe, task, domain) :=
    if String.eqb model_name "flat" then args make_vrada_model
    else if String.eqb model_name "dann_mnist" then args make_dann_mnist_model
    else if String.eqb model_name "dann_svhn" then args make_dann_svhn_model
    else if String.eqb model_name "dann_gtsrb" then args make_dann_gtsrb_model
    else if String.eqb model_name "vada_small" then args (make_vada_model true)
    else if String.eqb model_name "vada_large" then args (make_vada_model false)
    else if String.eqb model_name "resnet50" then args make_resnet50_model
    else raise (NotImplementedError ("Model name: " +:+ model_name)) in
  let* target := clone_model task in
  ret {| dam_uid := uid;
         feature_extractor := fe;
         task_classifier := task;
         domain_classifier := domain;
         target_classifier := target |}.

(** [models] and [names()] *)
Definition models : list string := [
  "flat";
  "dann_mnist";
  "dann_svhn";
  "dann_gtsrb";
  "vada_small";
  "vada_large";
  "resnet50"
].

Definition names : list string := models.

End Architectures.

(** *** numpy

    [Dense(np.prod(dims), ...)]: the number of units the layer records for
    numpy's product of a shape (numpy picks the integer type from the
    entries, and a product in a fixed-width type wraps), or what numpy or
    the layer raise. *)
Class Numpy : Type := {
  np_prod : list Z -> result Z
}.

(** *** Running models

    Executing a Keras layer stack belongs to the framework: it maps an input
    to an output (or raises), depends on the [training] argument, the extra
    keyword arguments and the global learning phase, and updates the
    framework's own state (weights, batch-norm statistics, random streams). *)
Class KerasRuntime `{F : Float32} : Type := {
  World : Type;
  KwVal : Type;
  Weight : Type;
  layer_call :
    Layer -> tensor -> option bool -> list (string * KwVal) -> Z -> World ->
    result tensor * World;
  layer_trainable_variables : Layer -> World -> list Weight
}.

Section Running.
Context `{K : KerasRuntime}.
Context `{N : Numpy}.
Context (FLAGS : Flags).

Definition Kwargs : Type := list (string * KwVal).

(** The Keras backend state: the learning phase and the rest. *)
Record KState : Type := {
  learning_phase : Z;
  world : World
}.

Definition Keras (A : Type) : Type := St KState A.

(** [net(x, training=..., **kwargs)] *)
Definition call (net : Layer) (x : tensor) (training : option bool) (kwargs : Kwargs)
  : Keras tensor :=
  fun s =>
    let '(r, w) := layer_call net x training kwargs (learning_phase s) (world s) in
    (r, {| learning_phase := learning_phase s; world := w |}).

(** [tf.keras.backend.set_learning_phase(v)] *)
Definition K_set_learning_phase (v : Z) : Keras unit :=
  modify (fun s => {| learning_phase := v; world := world s |}).

(** [K.learning_phase()] *)
Definition K_learning_phase : Keras Z :=
  let* s := get in ret (learning_phase s).

(** [net.trainable_variables] *)
Definition trainable_variables (net : Layer) : Keras (list Weight) :=
  let* s := get in ret (layer_trainable_variables net (world s)).




(** [DomainAdaptationModel.call]: [training] is a named parameter, so it is
    not among the [kwargs] handed on to the parts. *)
Definition DomainAdaptationModel_call (self : DomainAdaptationModel) (inputs : tensor)
    (target : bool) (training : option bool) (kwargs : Kwargs)
  : Keras (tensor * tensor) :=
  do (if is_True training then K_set_learning_phase 1
      else if is_False training then K_set_learning_phase 0
      else ret tt) in
  let* fe := call (feature_extractor self) inputs None kwargs in
  let* domain := call (domain_classifier self) fe None kwargs in
  let* task :=
    if target then call (target_classifier self) fe None kwargs
    else call (task_classifier self) fe None kwargs in
  ret (task, domain).

(** *** CycleGAN *)

Record CycleGAN : Type := {
  gan_uid : nat;
  units : Z;
  gan_dropout : float;
  source_to_target : Layer;
  target_to_source : Layer;
  source_discriminator : Layer;
  target_discriminator : Layer;
  source_pre : Layer;
  target_pre : Layer
}.

Definition make_generator (units : Z) (dropout : float)
    (output_dims : list Z) (layers resnet_layers : Z) : Build Layer :=
  new_Sequential ([
      new_layer Flatten
    ] ++ times resnet_layers (make_dense_bn_dropout units dropout)
      ++ times (layers - 1) (new_ResnetBlock units dropout resnet_layers)
      ++ [
      (let* units := lift (np_prod output_dims) in
       new_layer (Dense units None (Some true)));
      new_layer (Reshape output_dims)
    ]).

Definition make_discriminator (units : Z) (dropout : float)
    (layers resnet_layers : Z) : Build Layer :=
  new_Sequential ([
      new_layer Flatten
    ] ++ times resnet_layers (make_dense_bn_dropout units dropout)
      ++ times (layers - 1) (new_ResnetBlock units dropout resnet_layers)
      ++ [
      new_layer (Dense 1 None None)
    ]).

Definition CycleGAN_init (source_x_shape target_x_shape : list Z) : Build CycleGAN :=
  let* uid := fresh in
  let units := 50 in
  let dropout := dropout FLAGS in
  do assert_ (bool_decide (target_x_shape = source_x_shape))
       (Ok "Right now only support homogenous adaptation") in
  let* source_to_target := make_generator units dropout target_x_shape 4 2 in
  let* target_to_source := make_generator units dropout source_x_shape 4 2 in
  let* source_discriminator := make_discriminator units dropout 4 2 in
  let* target_discriminator := make_discriminator units dropout 4 2 in
  let* source_pre := new_Sequential [
      new_layer (BatchNormalization None)
    ] in
  let* target_pre := new_Sequential [
      new_layer (BatchNormalization None)
    ] in
  ret {| gan_uid := uid; units := units; gan_dropout := dropout;
         source_to_target := source_to_target;
         target_to_source := target_to_source;
         source_discriminator := source_discriminator;
         target_discriminator := target_discriminator;
         source_pre := source_pre;
         target_pre := target_pre |}.

Definition CycleGAN_set_learning_phase (training : option bool) : Keras unit :=
  if is_True training then K_set_learning_phase 1
  else if is_False training then K_set_learning_phase 0
  else ret tt.

Definition CycleGAN_call (self : CycleGAN) (inputs : tensor) (dest : string)
    (training : option bool) (kwargs : Kwargs)
  : Keras (tensor * tensor * tensor * tensor) :=
  do CycleGAN_set_learning_phase training in
  if String.eqb dest "target" then
    let x_a := inputs in
    let* x_a_norm := call (source_pre self) x_a training [] in
    let* gen_AtoB := call (source_to_target self) x_a_norm training kwargs in
    let* x_b_fake_norm := call (target_pre self) gen_AtoB (Some false) [] in
    let* gen_AtoBtoA := call (target_to_source self) x_b_fake_norm training kwargs in
    let* disc_Areal := call (source_discriminator self) x_a_norm training kwargs in
    let* disc_Bfake := call (target_discriminator self) x_b_fake_norm training kwargs in
    ret (gen_AtoB, gen_AtoBtoA, disc_Areal, disc_Bfake)
  else if String.eqb dest "source" then
    let x_b := inputs in
    let* x_b_norm := call (target_pre self) x_b training [] in
    let* gen_BtoA := call (target_to_source self) x_b_norm training kwargs in
    let* x_a_fake_norm := call (source_pre self) gen_BtoA (Some false) [] in
    let* gen_BtoAtoB := call (source_to_target self) x_a_fake_norm training kwargs in
    let* disc_Breal := call (target_discriminator self) x_b_norm training kwargs in
    let* disc_Afake := call (source_discriminator self) x_a_fake_norm training kwargs in
    ret (gen_BtoA, gen_BtoAtoB, disc_Breal, disc_Afake)
  else
    raise (NotImplementedError "dest can only be either source or target").

(** [CycleGAN.trainable_variables_generators] and
    [CycleGAN.trainable_variables_discriminators] *)
Definition trainable_variables_generators (self : CycleGAN) : Keras (list Weight) :=
  let* s2t := trainable_variables (source_to_target self) in
  let* t2s := trainable_variables (target_to_source self) in
  let* sp := trainable_variables (source_pre self) in
  let* tp := trainable_variables (target_pre self) in
  ret (((s2t ++ t2s) ++ sp) ++ tp).

Definition trainable_variables_discriminators (self : CycleGAN) : Keras (list Weight) :=
  let* sd := trainable_variables (source_discriminator self) in
  let* td := trainable_variables (target_discriminator self) in
  ret (sd ++ td).

(** [CycleGAN.map_to_target] and [CycleGAN.map_to_source] *)
Definition CycleGAN_map_to_target (self : CycleGAN) (x : tensor) : Keras tensor :=
  do CycleGAN_set_learning_phase (Some false) in
  let* x_norm := call (source_pre self) x (Some false) [] in
  call (source_to_target self) x_norm (Some false) [].

Definition CycleGAN_map_to_source (self : CycleGAN) (x : tensor) : Keras tensor :=
  do CycleGAN_set_learning_phase (Some false) in
  let* x_norm := call (target_pre self) x (Some false) [] in
  call (target_to_source self) x_norm (Some false) [].

End Running.

(** *** Losses

    The framework's loss objects: [CategoricalCrossentropy()] called with an
    optional [sample_weight], and [BinaryCrossentropy(from_logits=True)]. *)
Class Losses `{F : Float32} : Type := {
  CategoricalCrossentropy : tensor -> tensor -> option tensor -> result tensor;
  BinaryCrossentropy_from_logits : tensor -> tensor -> result tensor
}.

Section LossFactories.
Context `{K : KerasRuntime}.
Context `{L : !Losses}.

(** What a loss function returns: a tensor, or a plain Python integer. *)
Inductive loss_value : Type :=
| LossTensor (t : tensor)
| PyInt (n : Z).

Definition make_task_loss (adapt : bool)
  : tensor -> tensor -> option bool -> Keras tensor :=
  let cce := CategoricalCrossentropy in
  fun y_true y_pred training =>
    let* training :=
      match training with
      | None => let* phase := K_learning_phase in ret (negb (phase =? 0))
      | Some t => ret t
      end in
    let* '(y_true, y_pred) :=
      if adapt && training then
        let* batch_size := lift (shape_at y_pred 0) in
        let* y_pred := lift (tf_slice y_pred (0, 0) (batch_size / 2, -1)) in
        let* y_true := lift (tf_slice y_true (0, 0) (batch_size / 2, -1)) in
        ret (y_true, y_pred)
      else ret (y_true, y_pred) in
    lift (cce y_true y_pred None).

Definition make_weighted_loss
  : tensor -> tensor -> tensor -> option bool -> result tensor :=
  let cce := CategoricalCrossentropy in
  fun y_true y_pred weights training =>
    cce y_true y_pred (Some weights).

Definition make_domain_loss (use_domain_loss : bool)
  : tensor -> tensor -> result loss_value :=
  if use_domain_loss then
    let cce := BinaryCrossentropy_from_logits in
    fun y_true y_pred =>
      let? loss := cce y_true y_pred in Ok (LossTensor loss)
  else
    fun y_true y_pred => Ok (PyInt 0).

Definition make_mapping_loss : tensor -> tensor -> result tensor :=
  let cce := BinaryCrossentropy_from_logits in
  fun y_true y_pred => cce y_true y_pred.

End LossFactories.
End Models.

(** ** load_datasets.py *)

(** The calls that build a [tf.data] pipeline, with the arguments the
    loader passes. *)
Inductive TfDataCall : Type :=
| call_from_tensor_slices (filenames : list string)
| call_interleave (compression_type : string) (inner_prefetch : Z)
    (cycle_length block_length : Z)
| call_take (count : Z)
| call_shuffle (buffer_size : Z) (seed : option Z)
| call_repeat
| call_map (num_parallel_calls : option Z)
| call_batch (batch_size : Z)
| call_prefetch (buffer_size : Z).

(** What belongs to the framework: record parsing
    ([tf.io.parse_single_example] for the given feature names and
    [tf.io.parse_tensor] at float32); the int32 constant a Python integer
    becomes when it meets an int32 tensor in an operation; and the check of
    its arguments that every [tf.data] call makes when, executing eagerly,
    it builds its stage. *)
Class TfIO `{F : Float32} : Type := {
  parse_single_example : string -> list string -> result (gmap string string);
  parse_tensor : string -> result tensor;
  int32_constant : Z -> result Z;
  tfdata_call : TfDataCall -> result unit
}.

(** The [datasets] package of the repository, which the loader imports:
    the catalog [datasets.datasets], [datasets.names()], the keys of
    [inversions.map_to_source] and [inversions.map_to_target], and
    [tfrecord.tfrecord_filename]. *)
Record DatasetInfo : Type := {
  info_num_classes : Z;
  info_class_labels : list string;
  info_invertible : bool
}.

Record DatasetsPackage : Type := {
  datasets_datasets : gmap string DatasetInfo;
  datasets_repr : string;
  datasets_names : list string;
  inversions_map_to_source : gset string;
  inversions_map_to_target : gset string;
  tfrecord_filename : string -> string -> string
}.

Module LoadDatasets.

(** [tf.data.experimental.AUTOTUNE] *)
Definition AUTOTUNE : Z := -1.

(** The double quote character, for messages that contain it. *)
Definition dquote : string := String (Ascii.ascii_of_nat 34) EmptyString.

(** [s.split(sep)] for a one-character separator. *)
Fixpoint split (sep : Ascii.ascii) (s : string) : list string :=
  match s with
  | EmptyString => [EmptyString]
  | String c rest =>
      if Ascii.eqb c sep then EmptyString :: split sep rest
      else match split sep rest with
           | h :: t => String c h :: t
           | [] => [String c EmptyString]
           end
  end.

(** [os.path.join(a, b)] on POSIX paths. *)
Definition os_path_join (a b : string) : string :=
  if String.prefix "/" b then b
  else if String.eqb a "" then b
  else if String.eqb (String.substring (String.length a - 1) 1 a) "/" then a +:+ b
  else a +:+ "/" +:+ b.

(** The file system as the loader sees it: which paths exist, and the
    paths it has asked about so far. *)
Record FileSystem : Type := {
  path_exists : string -> bool;
  probed : list string
}.

Definition os_path_exists (fn : string) : St FileSystem bool :=
  fun fs => (Ok (path_exists fs fn),
             {| path_exists := path_exists fs; probed := probed fs ++ [fn] |}).

(** [l.index(x)] *)
Fixpoint list_index (x : string) (l : list string) : option nat :=
  match l with
  | [] => None
  | y :: l' => if String.eqb y x then Some O else S <$> list_index x l'
  end.

(** [l[i]] with Python's negative indices.  An index is first read as a
    machine-sized integer (64 bits), which fails for one that does not fit;
    a list holds fewer than [2^63] items, so an index that names an item
    always fits. *)
Definition list_getitem {A} (l : list A) (i : Z) : result A :=
  let n := Z.of_nat (length l) in
  let j := if i <? 0 then i + n else i in
  if (0 <=? j) && (j <? n) then
    match l !! Z.to_nat j with
    | Some a => Ok a
    | None => Raise (IndexError "list index out of range")
    end
  else if (i <? - 2 ^ 63) || (2 ^ 63 <=? i) then
    Raise (IndexError "cannot fit 'int' into an index-sized integer")
  else Raise (IndexError "list index out of range").

(** [repr(s)] for a string, read as a sequence of code points below 256:
    single quotes around it unless it holds a single quote and no double
    quote; the quote in use and the backslash are escaped, tab, newline and
    carriage return are written [\t], [\n], [\r], and every other code
    point that is not printable is written [\xhh]. *)
Definition hex_digit (n : nat) : ascii :=
  nth n (list_ascii_of_string "0123456789abcdef") "0"%char.

Definition py_printable (c : ascii) : bool :=
  let n := nat_of_ascii c in
  ((32 <=? n) && (n <=? 126) || (161 <=? n) && negb (n =? 173))%nat.

Definition repr_char (quote c : ascii) : string :=
  let one (a : ascii) := String a EmptyString in
  if Ascii.eqb c quote || Ascii.eqb c "\"%char then "\" +:+ one c
  else if Ascii.eqb c (ascii_of_nat 9) then "\t"
  else if Ascii.eqb c (ascii_of_nat 10) then "\n"
  else if Ascii.eqb c (ascii_of_nat 13) then "\r"
  else if py_printable c then one c
  else "\x" +:+ one (hex_digit (Nat.div (nat_of_ascii c) 16))
             +:+ one (hex_digit (Nat.modulo (nat_of_ascii c) 16)).

Definition repr (s : string) : string :=
  let chars := list_ascii_of_string s in
  let has (c : ascii) := existsb (Ascii.eqb c) chars in
  let quote :=
    if has "'"%char && negb (has (ascii_of_nat 34)) then ascii_of_nat 34
    else "'"%char in
  let one (a : ascii) := String a EmptyString in
  one quote +:+ String.concat EmptyString (map (repr_char quote) chars) +:+ one quote.

Section Loader.
Context `{IO : TfIO}.
Context (FLAGS : Flags).

(** The [tf.data] pipeline a loader builds, as the chain of calls made. *)
Inductive TfData : Type :=
| from_tensor_slices (filenames : list string)
| interleave_TFRecordDataset (files : TfData) (compression_type : string)
    (inner_prefetch : Z) (cycle_length block_length : Z)
| ds_take (d : TfData) (count : Z)
| ds_shuffle (d : TfData) (buffer_size : Z) (seed : option Z)
| ds_repeat (d : TfData)
| ds_map (d : TfData) (f : string -> result (tensor * tensor))
    (num_parallel_calls : option Z)
| ds_batch (d : TfData) (batch_size : Z)
| ds_prefetch (d : TfData) (buffer_size : Z).

(** The settings part of a [Dataset] object. *)
Record DatasetParams : Type := {
  invert_name : option string;
  num_classes : Z;
  class_labels : list string;
  num_domains : Z;
  ds_train_batch : Z;
  ds_eval_batch : Z;
  ds_shuffle_buffer : Z;
  ds_prefetch_buffer : Z;
  ds_eval_shuffle_seed : Z;
  ds_eval_max_examples : Z;
  ds_tune_num_parallel_calls : bool
}.

Record Dataset : Type := {
  params : DatasetParams;
  train : option TfData;
  train_evaluation : option TfData;
  test_evaluation : option TfData
}.

(** The optional constructor arguments, [None] when not given. *)
Record DatasetArgs : Type := {
  arg_train_batch : option Z;
  arg_eval_batch : option Z;
  arg_shuffle_buffer : option Z;
  arg_prefetch_buffer : option Z;
  arg_eval_shuffle_seed : option Z;
  arg_eval_max_examples : option Z;
  arg_tune_num_parallel_calls : option bool
}.

Definition no_args : DatasetArgs :=
  {| arg_train_batch := None; arg_eval_batch := None; arg_shuffle_buffer := None;
     arg_prefetch_buffer := None; arg_eval_shuffle_seed := None;
     arg_eval_max_examples := None; arg_tune_num_parallel_calls := None |}.

Definition feature_description : list string := ["x"; "y"].

Definition dict_getitem (d : gmap string string) (k : string) : result string :=
  match d !! k with
  | Some v => Ok v
  | None => Raise (KeyError k)
  end.

(** [_parse_example_function] is handed to [dataset.map], which runs its
    Python code once, on a symbolic record, to trace it: the tests on the
    two flags are decided and each flag that is not 0 becomes an int32
    constant then.  What it returns here is the traced function, which
    runs on every record read. *)
Definition _parse_example_function : result (string -> result (tensor * tensor)) :=
  let? trim :=
    if negb (trim_time_steps FLAGS =? 0) then
      let? t := int32_constant (trim_time_steps FLAGS) in Ok (Some t)
    else Ok None in
  let? subset :=
    if negb (feature_subset FLAGS =? 0) then
      let? t := int32_constant (feature_subset FLAGS) in Ok (Some t)
    else Ok None in
  Ok (fun example_proto =>
    let? parsed := parse_single_example example_proto feature_description in
    let? px := dict_getitem parsed "x" in
    let? x := parse_tensor px in
    let? py := dict_getitem parsed "y" in
    let? y := parse_tensor py in
    let? x :=
      match trim with
      | Some limit =>
          let? d0 := shape_at x 0 in
          let? d1 := shape_at x 1 in
          tf_slice x (0, 0) (Z.min d0 limit, d1)
      | None => Ok x
      end in
    let? x :=
      match subset with
      | Some limit =>
          let? d0 := shape_at x 0 in
          let? d1 := shape_at x 1 in
          tf_slice x (0, 0) (d0, Z.min d1 limit)
      | None => Ok x
      end in
    Ok (x, y)).

(** One more stage on a pipeline: the call is made, and the framework
    checks its arguments, before the new dataset exists. *)
Definition stage (c : TfDataCall) (d : TfData) : result TfData :=
  let? _ := tfdata_call c in Ok d.

Definition load_tfrecords (self : DatasetParams) (filenames : list string)
    (batch_size : Z) (count evaluation : bool) : result (option TfData) :=
  if (length filenames =? 0)%nat then Ok None
  else
    let? files := stage (call_from_tensor_slices filenames) (from_tensor_slices filenames) in
    let? dataset :=
      stage (call_interleave "GZIP" 100 (Z.of_nat (length filenames)) 1)
        (interleave_TFRecordDataset files "GZIP" 100 (Z.of_nat (length filenames)) 1) in
    let? dataset :=
      if evaluation && negb (ds_eval_max_examples self =? 0)
      then stage (call_take (ds_eval_max_examples self))
             (ds_take dataset (ds_eval_max_examples self))
      else Ok dataset in
    let? dataset :=
      if count then Ok dataset
      else if evaluation then
        stage (call_shuffle (ds_shuffle_buffer self) (Some (ds_eval_shuffle_seed self)))
          (ds_shuffle dataset (ds_shuffle_buffer self) (Some (ds_eval_shuffle_seed self)))
      else
        let? shuffled :=
          stage (call_shuffle (ds_shuffle_buffer self) None)
            (ds_shuffle dataset (ds_shuffle_buffer self) None) in
        stage call_repeat (ds_repeat shuffled) in
    let prefetch_buffer := ds_prefetch_buffer self in
    let num_parallel_calls := None in
    let num_parallel_calls :=
      if ds_tune_num_parallel_calls self then Some AUTOTUNE else num_parallel_calls in
    let prefetch_buffer :=
      if ds_prefetch_buffer self =? 0 then AUTOTUNE else prefetch_buffer in
    let? traced := _parse_example_function in
    let? dataset :=
      stage (call_map num_parallel_calls) (ds_map dataset traced num_parallel_calls) in
    let? dataset := stage (call_batch batch_size) (ds_batch dataset batch_size) in
    let? dataset := stage (call_prefetch prefetch_buffer) (ds_prefetch dataset prefetch_buffer) in
    Ok (Some dataset).

Definition load_dataset (self : DatasetParams) (train_filenames test_filenames : list string)
  : result (option TfData * option TfData * option TfData) :=
  let? train_dataset :=
    load_tfrecords self train_filenames (ds_train_batch self) false false in
  let? eval_train_dataset :=
    load_tfrecords self train_filenames (ds_eval_batch self) false true in
  let? eval_test_dataset :=
    load_tfrecords self test_filenames (ds_eval_batch self) false true in
  Ok (train_dataset, eval_train_dataset, eval_test_dataset).

Context (PKG : DatasetsPackage).

Definition or_flag {A} (arg : option A) (flag : A) : A :=
  match arg with
  | None => flag
  | Some a => a
  end.

Definition Dataset_init (num_classes : Z) (class_labels : list string) (num_domains : Z)
    (train_filenames test_filenames : list string) (invert_name : option string)
    (args : DatasetArgs) : result Dataset :=
  if negb (num_classes =? Z.of_nat (length class_labels)) then
    Raise (AssertionError "num_classes != len(class_labels)")
  else
  let? _ :=
    match invert_name with
    | Some name =>
        if negb (bool_decide (name ∈ inversions_map_to_source PKG)) then
          Raise (AssertionError "If invertible, must specify map_to_source() in datasets.inversions")
        else if negb (bool_decide (name ∈ inversions_map_to_target PKG)) then
          Raise (AssertionError "If invertible, must specify map_to_target() in datasets.inversions")
        else Ok tt
    | None => Ok tt
    end in
  let self := {|
    invert_name := invert_name;
    num_classes := num_classes;
    class_labels := class_labels;
    num_domains := num_domains;
    ds_train_batch := or_flag (arg_train_batch args) (train_batch FLAGS);
    ds_eval_batch := or_flag (arg_eval_batch args) (eval_batch FLAGS);
    ds_shuffle_buffer := or_flag (arg_shuffle_buffer args) (shuffle_buffer FLAGS);
    ds_prefetch_buffer := or_flag (arg_prefetch_buffer args) (prefetch_buffer FLAGS);
    ds_eval_shuffle_seed := or_flag (arg_eval_shuffle_seed args) (eval_shuffle_seed FLAGS);
    ds_eval_max_examples := or_flag (arg_eval_max_examples args) (eval_max_examples FLAGS);
    ds_tune_num_parallel_calls :=
      or_flag (arg_tune_num_parallel_calls args) (tune_num_parallel_calls FLAGS)
  |} in
  let? datasets := load_dataset self train_filenames test_filenames in
  let '(train, train_evaluation, test_evaluation) := datasets in
  Ok {| params := self; train := train; train_evaluation := train_evaluation;
        test_evaluation := test_evaluation |}.

Definition label_to_int (self : Dataset) (label_name : string) : result Z :=
  match list_index label_name (class_labels (params self)) with
  | Some i => Ok (Z.of_nat i)
  | None => Raise (ValueError (repr label_name +:+ " is not in list"))
  end.

Definition int_to_label (self : Dataset) (label_index : Z) : result string :=
  list_getitem (class_labels (params self)) label_index.

(** [_path] inside [load] *)
Definition _path (filename : string) : St FileSystem (list string) :=
  let fn := os_path_join "datasets" filename in
  let* e := os_path_exists fn in
  ret (if e then [fn] else []).

Definition load (dataset_name : string) (num_domains : Z) (test : bool)
    (args : DatasetArgs) : St FileSystem Dataset :=
  do assert_ (bool_decide (is_Some (datasets_datasets PKG !! dataset_name)))
       (Ok (dataset_name +:+ " not a supported dataset, only " +:+ datasets_repr PKG)) in
  let* info :=
    match datasets_datasets PKG !! dataset_name with
    | Some i => ret i
    | None => raise (KeyError dataset_name)
    end in
  let num_classes := info_num_classes info in
  let class_labels := info_class_labels info in
  let invert_name := if info_invertible info then Some dataset_name else None in
  let* train_filenames := _path (tfrecord_filename PKG dataset_name "train") in
  let* valid_filenames := _path (tfrecord_filename PKG dataset_name "valid") in
  let* test_filenames := _path (tfrecord_filename PKG dataset_name "test") in
  let '(train_filenames, test_filenames) :=
    if negb test then (train_filenames, valid_filenames)
    else (train_filenames ++ valid_filenames, test_filenames) in
  let* dataset :=
    lift (Dataset_init num_classes class_labels num_domains
            train_filenames test_filenames invert_name args) in
  ret dataset.

(** [names()] *)
Definition names : list string := datasets_names PKG.

(** [x in valid_names] for a value that may be [None]: a list of strings
    holds no [None]. *)
Definition in_names (x : option string) (valid_names : list string) : bool :=
  match x with
  | Some s => bool_decide (s ∈ valid_names)
  | None => false
  end.

(** ["unknown target domain: " + target] *)
Definition str_concat (a : string) (b : option string) : result string :=
  match b with
  | Some s => Ok (a +:+ s)
  | None =>
      Raise (TypeError ("can only concatenate str (not " +:+ dquote +:+ "NoneType"
                          +:+ dquote +:+ ") to str"))
  end.

Definition load_da (dataset sources : string) (target : option string)
    (test : bool) (args : DatasetArgs)
  : St FileSystem (list Dataset * option Dataset) :=
  let sources := map (fun x => dataset +:+ "_" +:+ x) (split ","%char sources) in
  let target :=
    match target with
    | Some t => Some (dataset +:+ "_" +:+ t)
    | None => None
    end in
  let num_domains := Z.of_nat (length sources) in
  let num_domains :=
    match target with
    | Some _ => num_domains + 1
    | None => num_domains
    end in
  let valid_names := names in
  do for_each (fun s =>
       assert_ (bool_decide (s ∈ valid_names)) (Ok ("unknown source domain: " +:+ s)))
     sources in
  do assert_ (in_names target valid_names) (str_concat "unknown target domain: " target) in
  let* source_datasets := for_each (fun s => load s num_domains test args) sources in
  let* target_dataset :=
    match target with
    | Some t =>
        let* target_dataset := load t num_domains test args in
        do for_each (fun '(i, s) =>
             assert_ (num_classes (params s) =? num_classes (params target_dataset))
               (Ok ("Adapting from source " +:+ pretty i
                    +:+ " to target with different classes not supported")))
           (imap (fun (i : nat) s => (i, s)) source_datasets) in
        ret (Some target_dataset)
    | None => ret None
    end in
  ret (source_datasets, target_dataset).

End Loader.
End LoadDatasets.

(** ** A small framework to run the definitions on

    Integer stand-ins for the framework interfaces, so that the definitions
    above can be evaluated on concrete inputs. *)

Module Example.

(** A Python float cast to an integer, truncating toward zero. *)
Definition float_to_Z (c : float) : Z :=
  match Prim2SF c with
  | S754_finite s m e =>
      let v := if 0 <=? e then Zpos m * 2 ^ e else Zpos m / 2 ^ (- e) in
      if s then - v else v
  | _ => 0
  end.

Definition Z_Float32 : Float32 :=
  {| f32 := Z; f32_one := 1; f32_of_Z := fun z => z; f32_of_float := float_to_Z;
     f32_neg := Z.opp; f32_add := Z.add; f32_sub := Z.sub; f32_mul := Z.mul;
     f32_div := Z.div; f32_exp := fun z => 2 ^ z |}.

(** One call of a layer stack, as the tracing runtime records it. *)
Record CallEvent : Type := {
  ev_uid : nat;
  ev_input : list Z;
  ev_training : option bool;
  ev_kwargs : list string;
  ev_phase : Z
}.

(** A runtime that logs every call and marks each output with the identity
    of the layer stack that produced it. *)
Definition Tracing : @Models.KerasRuntime Z_Float32 :=
  {| Models.World := list CallEvent;
     Models.KwVal := Z;
     Models.Weight := nat * string;
     Models.layer_call := fun net x training kwargs phase w =>
       (Ok (@Tensor Z_Float32 (@shape Z_Float32 x)
              (map (fun v => 10 * v + Z.of_nat (Models.layer_uid net)) (@data Z_Float32 x))),
        w ++ [{| ev_uid := Models.layer_uid net; ev_input := @data Z_Float32 x;
                 ev_training := training; ev_kwargs := map fst kwargs;
                 ev_phase := phase |}]);
     Models.layer_trainable_variables := fun net w =>
       [(Models.layer_uid net, "kernel"); (Models.layer_uid net, "bias")] |}.

(** The backend before any call, in a given learning phase. *)
Definition idle (phase : Z) : @Models.KState _ Tracing :=
  @Models.Build_KState _ Tracing phase [].

Definition sum_list (l : list Z) : Z := fold_right Z.add 0 l.

Definition Z_Losses : @Models.Losses Z_Float32 :=
  {| Models.CategoricalCrossentropy := fun y_true y_pred sample_weight =>
       let w := match sample_weight with
                | Some t => sum_list (@data Z_Float32 t)
                | None => 1
                end in
       Ok (@scalar Z_Float32
             (w * sum_list (zip_with Z.mul (@data Z_Float32 y_true) (@data Z_Float32 y_pred))));
     Models.BinaryCrossentropy_from_logits := fun y_true y_pred =>
       Ok (@scalar Z_Float32
             (1 + sum_list (zip_with (fun a b => Z.abs (a - b))
                              (@data Z_Float32 y_true) (@data Z_Float32 y_pred)))) |}.

Definition digit (c : ascii) : Z := Z.of_nat (nat_of_ascii c) - 48.

(** The product of a shape whose entries all fit 64 bits, wrapping at 64
    bits. *)
Definition Z_Numpy : Models.Numpy :=
  {| Models.np_prod := fun dims =>
       if forallb (fits_int 64) dims then Ok (wrap_int 64 (fold_right Z.mul 1 dims))
       else Raise (OverflowError "Python int too large to convert to C long") |}.

(** Records of the form [x;y], each tensor written as two digits for its
    shape followed by one digit per element, or as [v], the length and one
    digit per element for a vector.  An integer that fits 64 bits wraps to
    an int32 constant.  A batch or a shuffle buffer must be positive and a
    prefetch buffer at least [-1]. *)
Definition Z_TfIO : @TfIO Z_Float32 :=
  {| parse_single_example := fun proto features =>
       match LoadDatasets.split ";"%char proto with
       | [px; py] => Ok (<["x" := px]> (<["y" := py]> ∅))
       | _ => Raise (InvalidArgumentError "Could not parse example input")
       end;
     parse_tensor := fun s =>
       match list_ascii_of_string s with
       | "v"%char :: n :: rest => Ok (@Tensor Z_Float32 [digit n] (map digit rest))
       | r :: c :: rest => Ok (@Tensor Z_Float32 [digit r; digit c] (map digit rest))
       | _ => Raise (InvalidArgumentError "Could not parse tensor proto")
       end;
     int32_constant := fun v =>
       if fits_int 64 v then Ok (wrap_int 32 v)
       else Raise (OverflowError "Python int too large to convert to C long");
     tfdata_call := fun c =>
       match c with
       | call_batch n =>
           if 0 <? n then Ok tt
           else Raise (InvalidArgumentError "Batch size must be greater than zero.")
       | call_shuffle n _ =>
           if 0 <? n then Ok tt
           else Raise (InvalidArgumentError "buffer_size must be greater than zero.")
       | call_prefetch n =>
           if -1 <=? n then Ok tt
           else Raise (InvalidArgumentError "buffer_size must be >= 0 or -1 for auto-tuning")
       | _ => Ok tt
       end |}.

Definition har_labels : list string := ["Walk"; "Sit"; "Stand"].

Definition har_info : DatasetInfo :=
  {| info_num_classes := 3; info_class_labels := har_labels; info_invertible := false |}.

Definition package : DatasetsPackage :=
  {| datasets_datasets :=
       <["ucihar_1" := har_info]> (<["ucihar_2" := har_info]> (<["ucihar_3" := har_info]> ∅));
     datasets_repr := "{...}";
     datasets_names := ["ucihar_1"; "ucihar_2"; "ucihar_3"];
     inversions_map_to_source := ∅;
     inversions_map_to_target := ∅;
     tfrecord_filename := fun name split => name +:+ "_" +:+ split +:+ ".tfrecord" |}.

(** A file system holding the training records of [ucihar_1] only. *)
Definition disk : LoadDatasets.FileSystem :=
  {| LoadDatasets.path_exists := fun p => String.eqb p "datasets/ucihar_1_train.tfrecord";
     LoadDatasets.probed := [] |}.

(** The default flags with the two trimming flags set. *)
Definition trimming_flags (time_steps features : Z) : Flags :=
  {| train_batch := 128; eval_batch := 4096; shuffle_buffer := 60000;
     prefetch_buffer := 1; tune_num_parallel_calls := false;
     eval_shuffle_seed := 0; eval_max_examples := 0;
     trim_time_steps := time_steps; feature_subset := features;
     dropout := 0.05%float |}.

(** A runtime like [Tracing] in which the layer stack with identity [bad]
    rejects its input (after the call has been logged). *)
Definition Fragile (bad : nat) : @Models.KerasRuntime Z_Float32 :=
  {| Models.World := list CallEvent;
     Models.KwVal := Z;
     Models.Weight := nat * string;
     Models.layer_call := fun net x training kwargs phase w =>
       ((if Nat.eqb (Models.layer_uid net) bad
         then Raise (InvalidArgumentError "incompatible input")
         else Ok (@Tensor Z_Float32 (@shape Z_Float32 x)
                    (map (fun v => 10 * v + Z.of_nat (Models.layer_uid net))
                       (@data Z_Float32 x)))),
        w ++ [{| ev_uid := Models.layer_uid net; ev_input := @data Z_Float32 x;
                 ev_training := training; ev_kwargs := map fst kwargs;
                 ev_phase := phase |}]);
     Models.layer_trainable_variables := fun net w =>
       [(Models.layer_uid net, "kernel"); (Models.layer_uid net, "bias")] |}.

(** A model and a mapping model to run. *)
Definition step_counter : TfVariable := {| var_handle := 0 |}.

Definition resnet_model : option Models.DomainAdaptationModel :=
  Eval vm_compute in
  match Models.DomainAdaptationModel_init (F := Z_Float32) default_flags
          3 "resnet50" step_counter 100 false 0%nat with
  | (Ok m, _) => Some m
  | (Raise _, _) => None
  end.

(** A mapping model whose six parts are single layers. *)
Definition tiny_gan : @Models.CycleGAN Z_Float32 :=
  {| Models.gan_uid := 0; Models.units := 50; Models.gan_dropout := 0.05%float;
     Models.source_to_target := Models.Leaf 1 (Models.Dense 6 None (Some true));
     Models.target_to_source := Models.Leaf 2 (Models.Dense 6 None (Some true));
     Models.source_discriminator := Models.Leaf 3 (Models.Dense 1 None None);
     Models.target_discriminator := Models.Leaf 4 (Models.Dense 1 None None);
     Models.source_pre := Models.Leaf 5 (Models.BatchNormalization None);
     Models.target_pre := Models.Leaf 6 (Models.BatchNormalization None) |}.

End Example.

(** ** Reference notions used in the statements *)

Module Spec.
Section Spec.
Context `{F : Float32}.

(** The first [k] rows of a rank-2 tensor, in row-major order. *)
Definition first_rows (k : Z) (t : tensor) : tensor :=
  match shape t with
  | [_; d1] => Tensor [k; d1] (take (Z.to_nat (k * d1)) (data t))
  | _ => t
  end.

(** Whether a loss call runs in the training phase: the [training]
    argument when given, the backend's learning phase otherwise. *)
Definition training_active (training : option bool) (phase : Z) : bool :=
  match training with
  | Some t => t
  | None => negb (phase =? 0)
  end.

(** The extent a dimension of size [d] is trimmed to by a flag: the whole
    dimension when the flag is 0, otherwise at most as many entries as the
    flag says once it is an int32. *)
Definition trimmed (d flag : Z) : Z :=
  if flag =? 0 then d else Z.min d (wrap_int 32 flag).

(** The record files behind a loaded dataset's training pipelines are
    missing: no training file, and when loading the real test set (where
    the validation file is added to the training files) no validation file
    either. *)
Definition train_files_missing (PKG : DatasetsPackage) (fs : LoadDatasets.FileSystem)
    (dataset_name : string) (test : bool) : Prop :=
  LoadDatasets.path_exists fs
    (LoadDatasets.os_path_join "datasets" (tfrecord_filename PKG dataset_name "train"))
  = false /\
  (test = true ->
   LoadDatasets.path_exists fs
     (LoadDatasets.os_path_join "datasets" (tfrecord_filename PKG dataset_name "valid"))
   = false).

(** The record file behind the test-evaluation pipeline is missing: the
    test file when loading the real test set, the validation file
    otherwise. *)
Definition test_files_missing (PKG : DatasetsPackage) (fs : LoadDatasets.FileSystem)
    (dataset_name : string) (test : bool) : Prop :=
  LoadDatasets.path_exists fs
    (LoadDatasets.os_path_join "datasets"
       (tfrecord_filename PKG dataset_name (if test then "test" else "valid")))
  = false.

(** The fixed catalog: each model name with the architecture it stands
    for. *)
Definition catalog (FLAGS : Flags) : list (string * Models.Builder) := [
  ("flat", Models.make_vrada_model FLAGS);
  ("dann_mnist", Models.make_dann_mnist_model);
  ("dann_svhn", Models.make_dann_svhn_model FLAGS);
  ("dann_gtsrb", Models.make_dann_gtsrb_model);
  ("vada_small", Models.make_vada_model true);
  ("vada_large", Models.make_vada_model false);
  ("resnet50", Models.make_resnet50_model)
].

Fixpoint assoc {B} (name : string) (l : list (string * B)) : option B :=
  match l with
  | [] => None
  | (k, b) :: l' => if String.eqb k name then Some b else assoc name l'
  end.

Definition architecture (FLAGS : Flags) (name : string) : option Models.Builder :=
  assoc name (catalog FLAGS).

(** The learning phase after a call made with a given [training]
    argument: set to 1 or 0 when it is [True] or [False], kept otherwise. *)
Definition phase_after (training : option bool) (phase : Z) : Z :=
  match training with
  | Some true => 1
  | Some false => 0
  | None => phase
  end.

End Spec.

Section SpecRunning.
Context `{K : Models.KerasRuntime}.

(** One direction of the cycle, started in backend state [(phase, w0)]:
    normalise the real input with [pre_in], translate with [forward],
    normalise the translation with [pre_out] (never in training mode),
    translate back with [backward], and judge the two normalised tensors;
    only the two generators and the two discriminators receive the extra
    keyword arguments. *)
Definition cycle_pass (training : option bool) (kwargs : Models.Kwargs)
    (phase : Z) (w0 : Models.World)
    (pre_in forward pre_out backward disc_real disc_fake : Models.Layer)
    (x x_norm gen fake_norm back real_score fake_score : tensor)
    (w_end : Models.World) : Prop :=
  exists w1 w2 w3 w4 w5,
    Models.layer_call pre_in x training [] phase w0 = (Ok x_norm, w1) /\
    Models.layer_call forward x_norm training kwargs phase w1 = (Ok gen, w2) /\
    Models.layer_call pre_out gen (Some false) [] phase w2 = (Ok fake_norm, w3) /\
    Models.layer_call backward fake_norm training kwargs phase w3 = (Ok back, w4) /\
    Models.layer_call disc_real x_norm training kwargs phase w4 = (Ok real_score, w5) /\
    Models.layer_call disc_fake fake_norm training kwargs phase w5 = (Ok fake_score, w_end).

End SpecRunning.

Section SpecLayers.
Context `{F : Float32}.

(** The identities of all layer objects inside a layer, in the order in
    which they were created. *)
Fixpoint layer_uids (l : Models.Layer) : list nat :=
  match l with
  | Models.Leaf u _ => [u]
  | Models.Sequential u ls => flat_map layer_uids ls ++ [u]
  | Models.ResnetBlock u bs a => u :: flat_map layer_uids bs ++ layer_uids a
  end.

(** A layer with the identities forgotten: its architecture alone. *)
Fixpoint architecture_of (l : Models.Layer) : Models.Layer :=
  match l with
  | Models.Leaf _ k => Models.Leaf 0 k
  | Models.Sequential _ ls => Models.Sequential 0 (map architecture_of ls)
  | Models.ResnetBlock _ bs a =>
      Models.ResnetBlock 0 (map architecture_of bs) (architecture_of a)
  end.

(** The elementary layers of a layer, in the order data flows through
    them ([Add] closing each residual block). *)
Fixpoint leaves (l : Models.Layer) : list Models.LayerKind :=
  match l with
  | Models.Leaf _ k => [k]
  | Models.Sequential _ ls => flat_map leaves ls
  | Models.ResnetBlock _ bs a => flat_map leaves bs ++ leaves a
  end.

Definition is_flip_gradient (k : Models.LayerKind) : bool :=
  match k with
  | Models.FlipGradientLayer _ => true
  | _ => false
  end.

(** The layers end in a softmax over [n] classes: a [Dense] of [n] units
    with softmax activation, or a plain [Dense] of [n] units followed by a
    softmax [Activation]. *)
Definition softmax_output (n : Z) (ks : list Models.LayerKind) : Prop :=
  match reverse ks with
  | Models.Dense units (Some act) None :: _ =>
      units = n /\ act = "softmax"
  | Models.Activation act :: Models.Dense units None None :: _ =>
      units = n /\ act = "softmax"
  | _ => False
  end.

(** All layer objects of a domain-adaptation model, the model first. *)
Definition model_uids (m : Models.DomainAdaptationModel) : list nat :=
  Models.dam_uid m
  :: layer_uids (Models.feature_extractor m)
  ++ layer_uids (Models.task_classifier m)
  ++ layer_uids (Models.domain_classifier m)
  ++ layer_uids (Models.target_classifier m).

(** All layer objects of a mapping model, the model first. *)
Definition gan_uids (m : Models.CycleGAN) : list nat :=
  Models.gan_uid m
  :: layer_uids (Models.source_to_target m)
  ++ layer_uids (Models.target_to_source m)
  ++ layer_uids (Models.source_discriminator m)
  ++ layer_uids (Models.target_discriminator m)
  ++ layer_uids (Models.source_pre m)
  ++ layer_uids (Models.target_pre m).

End SpecLayers.

Section SpecPipelines.
Context `{IO : TfIO}.

(** What can be read off a [tf.data] pipeline: the record files it reads,
    whether it repeats, its shuffles (buffer size and seed), its [take]
    counts, its batch sizes and its outer prefetch sizes, each in the order
    applied. *)
Fixpoint source_files (d : LoadDatasets.TfData) : list string :=
  match d with
  | LoadDatasets.from_tensor_slices fns => fns
  | LoadDatasets.interleave_TFRecordDataset d' _ _ _ _
  | LoadDatasets.ds_take d' _ | LoadDatasets.ds_shuffle d' _ _
  | LoadDatasets.ds_repeat d' | LoadDatasets.ds_map d' _ _
  | LoadDatasets.ds_batch d' _ | LoadDatasets.ds_prefetch d' _ => source_files d'
  end.

Fixpoint repeats (d : LoadDatasets.TfData) : bool :=
  match d with
  | LoadDatasets.from_tensor_slices _ => false
  | LoadDatasets.ds_repeat _ => true
  | LoadDatasets.interleave_TFRecordDataset d' _ _ _ _
  | LoadDatasets.ds_take d' _ | LoadDatasets.ds_shuffle d' _ _
  | LoadDatasets.ds_map d' _ _
  | LoadDatasets.ds_batch d' _ | LoadDatasets.ds_prefetch d' _ => repeats d'
  end.

Fixpoint shuffles (d : LoadDatasets.TfData) : list (Z * option Z) :=
  match d with
  | LoadDatasets.from_tensor_slices _ => []
  | LoadDatasets.ds_shuffle d' buffer seed => shuffles d' ++ [(buffer, seed)]
  | LoadDatasets.interleave_TFRecordDataset d' _ _ _ _
  | LoadDatasets.ds_take d' _ | LoadDatasets.ds_repeat d'
  | LoadDatasets.ds_map d' _ _
  | LoadDatasets.ds_batch d' _ | LoadDatasets.ds_prefetch d' _ => shuffles d'
  end.

Fixpoint takes (d : LoadDatasets.TfData) : list Z :=
  match d with
  | LoadDatasets.from_tensor_slices _ => []
  | LoadDatasets.ds_take d' n => takes d' ++ [n]
  | LoadDatasets.interleave_TFRecordDataset d' _ _ _ _
  | LoadDatasets.ds_shuffle d' _ _ | LoadDatasets.ds_repeat d'
  | LoadDatasets.ds_map d' _ _
  | LoadDatasets.ds_batch d' _ | LoadDatasets.ds_prefetch d' _ => takes d'
  end.

Fixpoint batch_sizes (d : LoadDatasets.TfData) : list Z :=
  match d with
  | LoadDatasets.from_tensor_slices _ => []
  | LoadDatasets.ds_batch d' n => batch_sizes d' ++ [n]
  | LoadDatasets.interleave_TFRecordDataset d' _ _ _ _
  | LoadDatasets.ds_take d' _ | LoadDatasets.ds_shuffle d' _ _
  | LoadDatasets.ds_repeat d' | LoadDatasets.ds_map d' _ _
  | LoadDatasets.ds_prefetch d' _ => batch_sizes d'
  end.

Fixpoint prefetches (d : LoadDatasets.TfData) : list Z :=
  match d with
  | LoadDatasets.from_tensor_slices _ => []
  | LoadDatasets.ds_prefetch d' n => prefetches d' ++ [n]
  | LoadDatasets.interleave_TFRecordDataset d' _ _ _ _
  | LoadDatasets.ds_take d' _ | LoadDatasets.ds_shuffle d' _ _
  | LoadDatasets.ds_repeat d' | LoadDatasets.ds_map d' _ _
  | LoadDatasets.ds_batch d' _ => prefetches d'
  end.

(** The record files of an optional pipeline: none when it is [None]. *)
Definition files_of (d : option LoadDatasets.TfData) : list string :=
  match d with
  | Some d' => source_files d'
  | None => []
  end.

(** The path [load] looks up for one split of a dataset, and the list it
    turns into: the path itself when the file exists. *)
Definition split_path (PKG : DatasetsPackage) (dataset_name split : string) : string :=
  LoadDatasets.os_path_join "datasets" (tfrecord_filename PKG dataset_name split).

Definition split_files (PKG : DatasetsPackage) (fs : LoadDatasets.FileSystem)
    (dataset_name split : string) : list string :=
  if LoadDatasets.path_exists fs (split_path PKG dataset_name split)
  then [split_path PKG dataset_name split] else [].

(** The [tf.data] calls that [load_tfrecords] makes for a list of files,
    in the order it makes them. *)
Definition stage_calls (self : LoadDatasets.DatasetParams) (filenames : list string)
    (batch_size : Z) (count evaluation : bool) : list TfDataCall :=
  [call_from_tensor_slices filenames;
   call_interleave "GZIP" 100 (Z.of_nat (length filenames)) 1]
  ++ (if evaluation && negb (LoadDatasets.ds_eval_max_examples self =? 0)
      then [call_take (LoadDatasets.ds_eval_max_examples self)] else [])
  ++ (if count then []
      else if evaluation then
        [call_shuffle (LoadDatasets.ds_shuffle_buffer self)
           (Some (LoadDatasets.ds_eval_shuffle_seed self))]
      else [call_shuffle (LoadDatasets.ds_shuffle_buffer self) None; call_repeat])
  ++ [call_map (if LoadDatasets.ds_tune_num_parallel_calls self
                then Some LoadDatasets.AUTOTUNE else None);
      call_batch batch_size;
      call_prefetch (if LoadDatasets.ds_prefetch_buffer self =? 0
                     then LoadDatasets.AUTOTUNE
                     else LoadDatasets.ds_prefetch_buffer self)].

(** The framework accepts a call. *)
Definition accepted (c : TfDataCall) : Prop := tfdata_call c = Ok tt.

(** The parse function can be traced: each trimming flag that is not 0
    becomes an int32 constant. *)
Definition traces (FLAGS : Flags) : Prop :=
  (trim_time_steps FLAGS = 0 \/ is_ok (int32_constant (trim_time_steps FLAGS)) = true) /\
  (feature_subset FLAGS = 0 \/ is_ok (int32_constant (feature_subset FLAGS)) = true).

(** A pipeline over the given files can be built: there are no files, or
    every stage call is accepted and the parse function can be traced. *)
Definition pipeline_builds (FLAGS : Flags) (self : LoadDatasets.DatasetParams)
    (filenames : list string) (batch_size : Z) (count evaluation : bool) : Prop :=
  filenames = [] \/
  (traces FLAGS /\ Forall accepted (stage_calls self filenames batch_size count evaluation)).

(** The settings a [Dataset] is constructed with: each optional argument,
    or the flag of its name when it is not given. *)
Definition params_of (FLAGS : Flags) (num_classes : Z) (class_labels : list string)
    (num_domains : Z) (invert_name : option string) (args : LoadDatasets.DatasetArgs)
  : LoadDatasets.DatasetParams :=
  let given {A} (arg : option A) (flag : A) : A := default flag arg in
  {| LoadDatasets.invert_name := invert_name;
     LoadDatasets.num_classes := num_classes;
     LoadDatasets.class_labels := class_labels;
     LoadDatasets.num_domains := num_domains;
     LoadDatasets.ds_train_batch := given (LoadDatasets.arg_train_batch args) (train_batch FLAGS);
     LoadDatasets.ds_eval_batch := given (LoadDatasets.arg_eval_batch args) (eval_batch FLAGS);
     LoadDatasets.ds_shuffle_buffer :=
       given (LoadDatasets.arg_shuffle_buffer args) (shuffle_buffer FLAGS);
     LoadDatasets.ds_prefetch_buffer :=
       given (LoadDatasets.arg_prefetch_buffer args) (prefetch_buffer FLAGS);
     LoadDatasets.ds_eval_shuffle_seed :=
       given (LoadDatasets.arg_eval_shuffle_seed args) (eval_shuffle_seed FLAGS);
     LoadDatasets.ds_eval_max_examples :=
       given (LoadDatasets.arg_eval_max_examples args) (eval_max_examples FLAGS);
     LoadDatasets.ds_tune_num_parallel_calls :=
       given (LoadDatasets.arg_tune_num_parallel_calls args) (tune_num_parallel_calls FLAGS) |}.

(** The three pipelines of a [Dataset] with the given settings can be
    built from the given files. *)
Definition pipelines_build (FLAGS : Flags) (self : LoadDatasets.DatasetParams)
    (train_filenames test_filenames : list string) : Prop :=
  pipeline_builds FLAGS self train_filenames (LoadDatasets.ds_train_batch self) false false /\
  pipeline_builds FLAGS self train_filenames (LoadDatasets.ds_eval_batch self) false true /\
  pipeline_builds FLAGS self test_filenames (LoadDatasets.ds_eval_batch self) false true.

(** The arguments of a [Dataset] pass its sanity checks. *)
Definition consistent (PKG : DatasetsPackage) (num_classes : Z) (class_labels : list string)
    (invert_name : option string) : Prop :=
  num_classes = Z.of_nat (length class_labels) /\
  match invert_name with
  | Some name => name ∈ inversions_map_to_source PKG /\ name ∈ inversions_map_to_target PKG
  | None => True
  end.

(** Loading [names] one after the other, from file system [fs] on, gives
    the datasets [ds] and leaves the file system [fs']. *)
Fixpoint loads_in_order (FLAGS : Flags) (PKG : DatasetsPackage) (num_domains : Z)
    (test : bool) (args : LoadDatasets.DatasetArgs)
    (names : list string) (fs : LoadDatasets.FileSystem)
    (ds : list LoadDatasets.Dataset) (fs' : LoadDatasets.FileSystem) : Prop :=
  match names, ds with
  | [], [] => fs' = fs
  | name :: names', d :: ds' =>
      exists fs1,
        LoadDatasets.load FLAGS PKG name num_domains test args fs = (Ok d, fs1) /\
        loads_in_order FLAGS PKG num_domains test args names' fs1 ds' fs'
  | _, _ => False
  end.

(** How the framework makes an int32 constant of a Python integer that
    fits 64 bits: it keeps the low 32 bits. *)
Definition int32_constants_wrap : Prop :=
  forall v, fits_int 64 v = true -> int32_constant v = Ok (wrap_int 32 v).

(** A record parses to the tensors [x] and [y]. *)
Definition parses_to (example_proto : string) (x y : tensor) : Prop :=
  exists parsed px py,
    parse_single_example example_proto LoadDatasets.feature_description = Ok parsed /\
    parsed !! "x" = Some px /\ parsed !! "y" = Some py /\
    parse_tensor px = Ok x /\ parse_tensor py = Ok y.

End SpecPipelines.
End Spec.

(** * Properties *)

(** ** Gradient reversal *)

Section GradientReversalFacts.
Context `{F : Float32}.

Lemma tensor_wf_length (t u : tensor) :
  tensor_wf t -> tensor_wf u -> shape t = shape u ->
  length (data t) = length (data u).
Proof.
  intros [_ Ht] [_ Hu] Hs. rewrite Hs in Ht. lia.
Qed.

Lemma tensor_wf_scalar_data (t : tensor) :
  tensor_wf t -> shape t = [] -> exists v, data t = [v].
Proof.
  intros [_ Ht] Hs. rewrite Hs in Ht. cbn in Ht.
  destruct (data t) as [|v [|w l]]; cbn in Ht; try lia. by exists v.
Qed.

Lemma zip_with_mul_ones (l : list f32) (l' : list f32) :
  (forall a, f32_mul a f32_one = a) ->
  length l = length l' ->
  zip_with f32_mul l (map (fun _ => f32_one) l') = l.
Proof.
  intros Hone. revert l'.
  induction l as [|a l IH]; intros [|b l'] Hlen; cbn in *; try done.
  rewrite Hone, IH; [done | lia].
Qed.

Lemma tf_multiply_scalar_r (t : tensor) (v : f32) :
  tensor_wf t ->
  tf_multiply t (scalar v)
  = Ok (Tensor (shape t) (map (fun u => f32_mul u v) (data t))).
Proof.
  intros Hwf. unfold tf_multiply, scalar. cbn [shape data].
  destruct (decide (shape t = [])) as [Hs|Hs].
  - destruct (tensor_wf_scalar_data t Hwf Hs) as [u Hu].
    rewrite Hu, Hs. reflexivity.
  - destruct (shape t) as [|d sh] eqn:E; [done|].
    by destruct (data t).
Qed.

Lemma tf_negative_wf (t : tensor) : tensor_wf t -> tensor_wf (tf_negative t).
Proof.
  intros [H1 H2]. split; cbn [tf_negative shape data]; [done|].
  by rewrite length_map.
Qed.

(** C1 (as amended): for a schedule value that float32 can hold, a
    float32 tensor value or a Python float that does not overflow float32,
    [flip_gradient] is the identity forwards, and backwards it sends an
    upstream gradient [dy] (of the shape of [x]) to [-dy * lambda],
    element by element, [lambda] being that float32 value; and the
    [FlipGradient] layer takes [lambda] from its schedule applied to the
    global-step variable as currently stored. *)
Theorem flip_gradient_identity_and_reversal
    (Hone : forall a, f32_mul a f32_one = a)
    (x dy : tensor) (lambda : Models.sched_val) (v : f32)
    (self : Models.FlipGradient) (vars : VarStore)
    (Hx : tensor_wf x) (Hdy : tensor_wf dy) (Hshape : shape dy = shape x)
    (Hlambda :
       lambda = Models.F32Value v \/
       exists c, lambda = Models.PyFloat c /\
                 Models.float32_overflows c = false /\ v = f32_of_float c) :
  (exists grad,
      Models.flip_gradient x lambda = Ok (x, grad) /\
      grad dy
      = Ok (Tensor (shape x) (map (fun d => f32_mul (f32_neg d) v) (data dy)))) /\
  Models.FlipGradient_call self vars x
  = Models.flip_gradient x
      (Models.grl_schedule self (Models.global_step self) vars).
Proof.
  split; [|reflexivity].
  assert (Hcast : Models.cast_float32 lambda = Ok v).
  { destruct Hlambda as [->|(c & -> & Hc & ->)]; cbn [Models.cast_float32];
      [done | by rewrite Hc]. }
  unfold Models.flip_gradient. rewrite Hcast. cbn [rbind].
  eexists. split; [reflexivity|]. cbv beta.
  rewrite tf_multiply_scalar_r by (by apply tf_negative_wf).
  cbn [rbind tf_negative shape data]. unfold tf_multiply.
  cbn [shape data tf_ones_like]. rewrite Hshape.
  destruct (decide (shape x = shape x)) as [_|Hne]; [|done].
  rewrite zip_with_mul_ones; [by rewrite map_map | done |].
  rewrite !length_map. by apply tensor_wf_length.
Qed.

End GradientReversalFacts.

Lemma flip_gradient_identity_and_reversal_witness :
  let x := @Tensor Example.Z_Float32 [2] [3; 4] in
  let dy := @Tensor Example.Z_Float32 [2] [5; 7] in
  let self := {| Models.global_step := {| var_handle := 0 |};
                 Models.grl_schedule := @Models.DannGrlSchedule Example.Z_Float32 100 |} in
  let vars : VarStore := fun _ => 7 in
  (tensor_wf x /\ tensor_wf dy /\ shape dy = shape x /\
   Models.float32_overflows 2%float = false) /\
  (exists grad,
      Models.flip_gradient x (Models.PyFloat 2%float) = Ok (x, grad) /\
      grad dy = Ok (@Tensor Example.Z_Float32 [2] [-10; -14])) /\
  (exists grad,
      Models.flip_gradient x (Models.F32Value (3 : @f32 Example.Z_Float32)) = Ok (x, grad) /\
      grad dy = Ok (@Tensor Example.Z_Float32 [2] [-15; -21])) /\
  Models.FlipGradient_call self vars x
  = Models.flip_gradient x
      (Models.grl_schedule self (Models.global_step self) vars).
Proof.
  intros x dy self vars.
  assert (Hx : tensor_wf x) by (split; [repeat constructor; lia | reflexivity]).
  assert (Hdy : tensor_wf dy) by (split; [repeat constructor; lia | reflexivity]).
  assert (Hfits : Models.float32_overflows 2%float = false) by reflexivity.
  split; [exact (conj Hx (conj Hdy (conj eq_refl Hfits)))|].
  destruct (@flip_gradient_identity_and_reversal Example.Z_Float32
              Z.mul_1_r x dy (Models.PyFloat 2%float) 2 self vars Hx Hdy eq_refl
              (or_intror (ex_intro _ 2%float (conj eq_refl (conj Hfits eq_refl)))))
    as [Hfloat Hcall].
  destruct (@flip_gradient_identity_and_reversal Example.Z_Float32
              Z.mul_1_r x dy (Models.F32Value (3 : @f32 Example.Z_Float32)) 3
              self vars Hx Hdy eq_refl (or_introl eq_refl))
    as [Htensor _].
  exact (conj Hfloat (conj Htensor Hcall)).
Defined.

(** C1, as first stated, fails for a schedule value that float32 cannot
    hold: with the Python float [1e39] the cast to float32 is refused, so
    [flip_gradient] raises and hands back neither [x] nor a gradient. *)
Lemma flip_gradient_rejects_large_lambda :
  let x := @Tensor Example.Z_Float32 [2] [3; 4] in
  (exists msg,
      Models.flip_gradient x (Models.PyFloat 1e39%float) = Raise (ValueError msg)) /\
  ~ exists grad, Models.flip_gradient x (Models.PyFloat 1e39%float) = Ok (x, grad).
Proof.
  intros x. split; [by eexists|]. intros [grad Hgrad]. discriminate Hgrad.
Qed.

(** ** Slicing *)

Section SliceFacts.
Context `{F : Float32}.

Lemma tensor_wf_rank2 (x : tensor) (d0 d1 : Z) :
  tensor_wf x -> shape x = [d0; d1] ->
  0 <= d0 /\ 0 <= d1 /\ Z.of_nat (length (data x)) = d0 * d1.
Proof.
  intros [Hnn Hlen] Hs. rewrite Hs in Hnn, Hlen.
  inversion Hnn as [|? ? H0 Hnn']; subst. inversion Hnn' as [|? ? H1 _]; subst.
  cbn in Hlen. repeat split; lia.
Qed.

(** Consecutive full-width rows of a row-major list form a prefix of it. *)
Lemma rows_prefix {A} (l : list A) (w k : nat) :
  flat_map (fun i : nat => take w (drop (i * w) l)) (seq 0 k) = take (k * w) l.
Proof.
  induction k as [|k IH].
  - by rewrite take_0.
  - rewrite seq_S, flat_map_app, IH. cbn [flat_map Nat.add].
    rewrite app_nil_r, take_take_drop. f_equal. lia.
Qed.

Lemma slice_extent_all (d : Z) : 0 <= d -> slice_extent d 0 (-1) = Some d.
Proof.
  intros Hd. unfold slice_extent. cbn.
  destruct (0 <=? d) eqn:E; [f_equal; lia | lia].
Qed.

Lemma slice_extent_prefix (d n : Z) :
  0 <= n <= d -> n <> -1 -> slice_extent d 0 n = Some n.
Proof.
  intros Hn Hne. unfold slice_extent.
  destruct (n =? -1) eqn:E; [lia|]. cbn.
  destruct (0 <=? n) eqn:E1; [|lia]. destruct (0 + n <=? d) eqn:E2; [done | lia].
Qed.

(** Slicing from the origin with both sizes inside the tensor. *)
Lemma tf_slice_origin (x : tensor) (d0 d1 n0 n1 : Z) :
  shape x = [d0; d1] -> 0 <= n0 <= d0 -> 0 <= n1 <= d1 ->
  tf_slice x (0, 0) (n0, n1)
  = Ok (Tensor [n0; n1]
          (flat_map
             (fun i : nat => take (Z.to_nat n1) (drop (i * Z.to_nat d1) (data x)))
             (seq 0 (Z.to_nat n0)))).
Proof.
  intros Hs H0 H1. unfold tf_slice. rewrite Hs. cbn [fst snd].
  rewrite !slice_extent_prefix by lia. do 2 f_equal.
  apply flat_map_ext. intros i. do 2 f_equal. lia.
Qed.

(** Slicing [k] rows from the origin with size [-1] for the columns. *)
Lemma tf_slice_first_rows (x : tensor) (d0 d1 k : Z) :
  shape x = [d0; d1] -> 0 <= d1 -> 0 <= k <= d0 ->
  tf_slice x (0, 0) (k, -1) = Ok (Spec.first_rows k x).
Proof.
  intros Hs Hd1 Hk. unfold tf_slice, Spec.first_rows. rewrite Hs. cbn [fst snd].
  rewrite slice_extent_prefix by lia. rewrite slice_extent_all by lia.
  do 2 f_equal.
  rewrite (flat_map_ext _ (fun i : nat => take (Z.to_nat d1) (drop (i * Z.to_nat d1) (data x)))).
  - rewrite rows_prefix. f_equal. lia.
  - intros i. do 2 f_equal. lia.
Qed.

End SliceFacts.

(** ** Loss factories *)

Section LossFacts.
Context `{K : Models.KerasRuntime}.
Context `{L : !Models.Losses}.

(** C2: on a batch of [n] rows, the task loss is the categorical
    cross-entropy of the first [n / 2] rows of [y_true] and [y_pred] when
    adapting in the training phase, and of the whole batch otherwise; the
    backend state is left as it was. *)
Theorem task_loss_half_batch
    (adapt : bool) (y_true y_pred : tensor) (training : option bool)
    (s : Models.KState) (n classes_true classes_pred : Z)
    (Htrue_wf : tensor_wf y_true) (Hpred_wf : tensor_wf y_pred)
    (Htrue : shape y_true = [n; classes_true])
    (Hpred : shape y_pred = [n; classes_pred]) :
  Models.make_task_loss adapt y_true y_pred training s
  = (if adapt && Spec.training_active training (Models.learning_phase s)
     then Models.CategoricalCrossentropy
            (Spec.first_rows (n / 2) y_true) (Spec.first_rows (n / 2) y_pred) None
     else Models.CategoricalCrossentropy y_true y_pred None,
     s).
Proof.
  destruct (tensor_wf_rank2 _ _ _ Htrue_wf Htrue) as (Hn & Hct & _).
  destruct (tensor_wf_rank2 _ _ _ Hpred_wf Hpred) as (_ & Hcp & _).
  assert (Hhalf : 0 <= n / 2 <= n).
  { split; [apply Z.div_pos; lia | apply Z.div_le_upper_bound; lia]. }
  unfold Models.make_task_loss, Spec.training_active, bind.
  destruct training as [t|]; cbn.
  - destruct (adapt && t) eqn:E; cbn; [|reflexivity].
    unfold lift, bind, shape_at. rewrite Hpred. cbn.
    rewrite (tf_slice_first_rows y_pred n classes_pred) by done.
    rewrite (tf_slice_first_rows y_true n classes_true) by done.
    reflexivity.
  - destruct (adapt && negb (Models.learning_phase s =? 0)) eqn:E; cbn; [|reflexivity].
    unfold lift, bind, shape_at. rewrite Hpred. cbn.
    rewrite (tf_slice_first_rows y_pred n classes_pred) by done.
    rewrite (tf_slice_first_rows y_true n classes_true) by done.
    reflexivity.
Qed.

(** C3 (as amended): on every input each loss hands back exactly what
    the framework's cross-entropy returns on its arguments: the weighted
    loss the categorical cross-entropy with the weights, the mapping loss
    and the domain loss built with [use_domain_loss] true the binary
    cross-entropy from logits, and the task loss the categorical
    cross-entropy of [y_true] and [y_pred], cut to the first half of the
    batch of [y_pred] when masking applies (a cut that fails raises before
    any cross-entropy, and the backend state is untouched); built with
    [use_domain_loss] false, the domain loss is the integer 0 on every pair
    and calls no cross-entropy. *)
Theorem loss_factories_defer
    (adapt : bool) (y_true y_pred weights : tensor) (training : option bool)
    (s : Models.KState) :
  Models.make_task_loss adapt y_true y_pred training s
  = ((if adapt && Spec.training_active training (Models.learning_phase s) then
        let? n := shape_at y_pred 0 in
        let? y_pred' := tf_slice y_pred (0, 0) (n / 2, -1) in
        let? y_true' := tf_slice y_true (0, 0) (n / 2, -1) in
        Models.CategoricalCrossentropy y_true' y_pred' None
      else Models.CategoricalCrossentropy y_true y_pred None),
     s) /\
  Models.make_weighted_loss y_true y_pred weights training
  = Models.CategoricalCrossentropy y_true y_pred (Some weights) /\
  Models.make_mapping_loss y_true y_pred
  = Models.BinaryCrossentropy_from_logits y_true y_pred /\
  Models.make_domain_loss true y_true y_pred
  = (let? l := Models.BinaryCrossentropy_from_logits y_true y_pred in
     Ok (Models.LossTensor l)) /\
  Models.make_domain_loss false y_true y_pred = Ok (Models.PyInt 0).
Proof.
  split; [|by repeat split].
  unfold Models.make_task_loss, Spec.training_active, bind, lift.
  destruct training as [tr|]; cbn.
  - destruct (adapt && tr); cbn; [|reflexivity].
    destruct (shape_at y_pred 0) as [b|e]; cbn; [|reflexivity].
    destruct (tf_slice y_pred (0, 0) (b / 2, -1)) as [yp|e]; cbn; [|reflexivity].
    by destruct (tf_slice y_true (0, 0) (b / 2, -1)) as [yt|e].
  - destruct (adapt && negb (Models.learning_phase s =? 0)); cbn; [|reflexivity].
    destruct (shape_at y_pred 0) as [b|e]; cbn; [|reflexivity].
    destruct (tf_slice y_pred (0, 0) (b / 2, -1)) as [yp|e]; cbn; [|reflexivity].
    by destruct (tf_slice y_true (0, 0) (b / 2, -1)) as [yt|e].
Qed.

End LossFacts.

Lemma task_loss_half_batch_witness :
  let y_true := @Tensor Example.Z_Float32 [4; 2] [1; 0; 0; 1; 1; 0; 0; 1] in
  let y_pred := @Tensor Example.Z_Float32 [4; 2] [3; 5; 7; 9; 2; 4; 6; 8] in
  let s := Example.idle 0 in
  (tensor_wf y_true /\ tensor_wf y_pred) /\
  @Models.make_task_loss _ Example.Tracing Example.Z_Losses true y_true y_pred (Some true) s
  = (Ok (@scalar Example.Z_Float32 12), s).
Proof.
  intros y_true y_pred s.
  assert (Ht : tensor_wf y_true) by (split; [repeat constructor; lia | reflexivity]).
  assert (Hp : tensor_wf y_pred) by (split; [repeat constructor; lia | reflexivity]).
  split; [exact (conj Ht Hp)|].
  exact (@task_loss_half_batch _ Example.Tracing Example.Z_Losses
           true y_true y_pred (Some true) s 4 2 2 Ht Hp eq_refl eq_refl).
Defined.

Lemma loss_factories_defer_witness :
  let y_true := @Tensor Example.Z_Float32 [2; 2] [1; 0; 0; 1] in
  let y_pred := @Tensor Example.Z_Float32 [2; 2] [3; 5; 7; 9] in
  let s := Example.idle 1 in
  @Models.make_task_loss _ Example.Tracing Example.Z_Losses true y_true y_pred None s
  = (Ok (@scalar Example.Z_Float32 3), s) /\
  @Models.make_weighted_loss _ Example.Z_Losses y_true y_pred y_pred None
  = Ok (@scalar Example.Z_Float32 288) /\
  @Models.make_domain_loss _ Example.Z_Losses true y_true y_pred
  = Ok (Models.LossTensor (@scalar Example.Z_Float32 23)) /\
  @Models.make_domain_loss _ Example.Z_Losses false y_true y_pred
  = Ok (Models.PyInt 0).
Proof.
  intros y_true y_pred s.
  pose proof (@loss_factories_defer _ Example.Tracing Example.Z_Losses
                true y_true y_pred y_pred None s)
    as (Htask & Hweighted & _ & Hon & Hoff).
  rewrite Htask, Hweighted.
  split; [reflexivity|]. split; [reflexivity|]. exact (conj Hon Hoff).
Defined.

(** C3, as first stated, fails: built with [use_domain_loss] false, the
    domain loss of a label 1 against a logit 0 is the integer 0, not the
    binary cross-entropy of the pair. *)
Lemma domain_loss_disabled_is_not_crossentropy :
  let y_true := @Tensor Example.Z_Float32 [1] [1] in
  let y_pred := @Tensor Example.Z_Float32 [1] [0] in
  @Models.make_domain_loss _ Example.Z_Losses false y_true y_pred
  <> (let? l := @Models.BinaryCrossentropy_from_logits _ Example.Z_Losses y_true y_pred in
      Ok (Models.LossTensor l)).
Proof.
  intros y_true y_pred. cbn. discriminate.
Qed.

(** ** The model catalog *)

Section CatalogFacts.
Context `{F : Float32}.
Context (FLAGS : Flags).

Lemma not_in_names_eqb (name : string) :
  name ∉ Models.names ->
  Forall (fun k => String.eqb name k = false) Models.names.
Proof.
  intros Hnot. apply Forall_forall. intros k Hk.
  apply String.eqb_neq. intros ->. by apply Hnot.
Qed.

Lemma assoc_eqb_false {B} (name : string) (l : list (string * B)) :
  Forall (fun k => String.eqb name k = false) (map fst l) ->
  Spec.assoc name l = None.
Proof.
  induction l as [|[k b] l IH]; cbn; [done|].
  intros Hall. inversion Hall as [|? ? Hk Hl]; subst.
  rewrite String.eqb_sym, Hk. by apply IH.
Qed.

(** C4: [names()] lists exactly the catalog; for a name in it the
    constructor succeeds and the model holds the triple that the named
    architecture builds; for any other name it raises
    [NotImplementedError] and returns no model. *)
Theorem DomainAdaptationModel_init_catalog
    (num_classes : Z) (model_name : string) (global_step : TfVariable)
    (num_steps : Z) (use_grl : bool) (n : nat) :
  let grl_schedule :=
    if use_grl then Models.DannGrlSchedule num_steps else Models.DisableGrlSchedule in
  Models.names = map fst (Spec.catalog FLAGS) /\
  if bool_decide (model_name ∈ Models.names) then
    exists (builder : Models.Builder) (m : Models.DomainAdaptationModel) (n1 n2 : nat),
      Spec.architecture FLAGS model_name = Some builder /\
      builder num_classes global_step grl_schedule (S n)
      = (Ok (Models.feature_extractor m, Models.task_classifier m,
             Models.domain_classifier m), n1) /\
      Models.DomainAdaptationModel_init FLAGS num_classes model_name
        global_step num_steps use_grl n = (Ok m, n2)
  else
    Spec.architecture FLAGS model_name = None /\
    Models.DomainAdaptationModel_init FLAGS num_classes model_name
      global_step num_steps use_grl n
    = (Raise (NotImplementedError ("Model name: " +:+ model_name)), S n).
Proof.
  intros grl_schedule. split; [reflexivity|].
  case_bool_decide as Hin.
  - unfold Models.names, Models.models in Hin.
    repeat (apply elem_of_cons in Hin as [->|Hin]);
      [ .. | by apply elem_of_nil in Hin ];
      (eexists _, _, _, _; split; [reflexivity|]; split;
       [ | unfold Models.DomainAdaptationModel_init; lazy; reflexivity ]);
      lazy; reflexivity.
  - pose proof (not_in_names_eqb _ Hin) as Hall. split.
    + by apply assoc_eqb_false.
    + unfold Models.names, Models.models in Hall.
      repeat (apply Forall_cons in Hall as [? Hall]).
      unfold Models.DomainAdaptationModel_init, bind, fresh, raise.
      repeat match goal with H : String.eqb _ _ = false |- _ => rewrite H; clear H end.
      reflexivity.
Qed.

End CatalogFacts.

(** ** Running the composed models *)

Section RunningFacts.
Context `{K : Models.KerasRuntime}.

Lemma set_phase_run (training : option bool) (s : Models.KState) :
  (if is_True training then Models.K_set_learning_phase 1
   else if is_False training then Models.K_set_learning_phase 0
   else ret tt) s
  = (Ok tt, {| Models.learning_phase := Spec.phase_after training (Models.learning_phase s);
               Models.world := Models.world s |}).
Proof.
  destruct s as [ph w]. by destruct training as [[|]|].
Qed.

Lemma call_run (net : Models.Layer) (x y : tensor) (training : option bool)
    (kwargs : Models.Kwargs) (phase : Z) (w w' : Models.World) :
  Models.layer_call net x training kwargs phase w = (Ok y, w') ->
  Models.call net x training kwargs
    {| Models.learning_phase := phase; Models.world := w |}
  = (Ok y, {| Models.learning_phase := phase; Models.world := w' |}).
Proof.
  intros H. unfold Models.call. cbn. by rewrite H.
Qed.

(** Run the next sub-model call of a composed pass, given its outcome. *)
Ltac run_call H := unfold bind at 1; rewrite (call_run _ _ _ _ _ _ _ _ H).


Section CycleGANFacts.
Context (self : Models.CycleGAN) (training : option bool) (kwargs : Models.Kwargs).
Context (s : Models.KState).

Lemma CycleGAN_call_to_target (x x_norm gen fake_norm back real_score fake_score : tensor)
    (w_end : Models.World) :
  Spec.cycle_pass training kwargs
    (Spec.phase_after training (Models.learning_phase s)) (Models.world s)
    (Models.source_pre self) (Models.source_to_target self)
    (Models.target_pre self) (Models.target_to_source self)
    (Models.source_discriminator self) (Models.target_discriminator self)
    x x_norm gen fake_norm back real_score fake_score w_end ->
  Models.CycleGAN_call self x "target" training kwargs s
  = (Ok (gen, back, real_score, fake_score),
     {| Models.learning_phase := Spec.phase_after training (Models.learning_phase s);
        Models.world := w_end |}).
Proof.
  intros (w1 & w2 & w3 & w4 & w5 & H1 & H2 & H3 & H4 & H5 & H6).
  unfold Models.CycleGAN_call, Models.CycleGAN_set_learning_phase.
  unfold bind at 1. rewrite set_phase_run.
  cbn [String.eqb Ascii.eqb Bool.eqb andb].
  run_call H1. run_call H2. run_call H3. run_call H4. run_call H5. run_call H6.
  reflexivity.
Qed.

Lemma CycleGAN_call_to_source (x x_norm gen fake_norm back real_score fake_score : tensor)
    (w_end : Models.World) :
  Spec.cycle_pass training kwargs
    (Spec.phase_after training (Models.learning_phase s)) (Models.world s)
    (Models.target_pre self) (Models.target_to_source self)
    (Models.source_pre self) (Models.source_to_target self)
    (Models.target_discriminator self) (Models.source_discriminator self)
    x x_norm gen fake_norm back real_score fake_score w_end ->
  Models.CycleGAN_call self x "source" training kwargs s
  = (Ok (gen, back, real_score, fake_score),
     {| Models.learning_phase := Spec.phase_after training (Models.learning_phase s);
        Models.world := w_end |}).
Proof.
  intros (w1 & w2 & w3 & w4 & w5 & H1 & H2 & H3 & H4 & H5 & H6).
  unfold Models.CycleGAN_call, Models.CycleGAN_set_learning_phase.
  unfold bind at 1. rewrite set_phase_run.
  cbn [String.eqb Ascii.eqb Bool.eqb andb].
  run_call H1. run_call H2. run_call H3. run_call H4. run_call H5. run_call H6.
  reflexivity.
Qed.

Lemma CycleGAN_call_other (x : tensor) (dest : string) :
  dest <> "target" -> dest <> "source" ->
  Models.CycleGAN_call self x dest training kwargs s
  = (Raise (NotImplementedError "dest can only be either source or target"),
     {| Models.learning_phase := Spec.phase_after training (Models.learning_phase s);
        Models.world := Models.world s |}).
Proof.
  intros Ht Hs. apply String.eqb_neq in Ht, Hs.
  unfold Models.CycleGAN_call, Models.CycleGAN_set_learning_phase.
  unfold bind at 1. rewrite set_phase_run.
  by rewrite Ht, Hs.
Qed.

End CycleGANFacts.

(** C6: towards ["target"] the call goes through [source_pre],
    [source_to_target], [target_pre] with training off, and
    [target_to_source], and returns the translation, the back translation
    and the two discriminator outputs on the normalised real input and the
    normalised fake; towards ["source"] it is the mirror image; any other
    [dest] raises [NotImplementedError].  The three cases stand each on
    its own. *)
Theorem CycleGAN_call_passes (self : Models.CycleGAN) :
  (forall (training : option bool) (kwargs : Models.Kwargs) (s : Models.KState)
          (x_a a_norm gen_AtoB b_fake_norm gen_AtoBtoA disc_Areal disc_Bfake : tensor)
          (wa : Models.World),
      Spec.cycle_pass training kwargs
        (Spec.phase_after training (Models.learning_phase s)) (Models.world s)
        (Models.source_pre self) (Models.source_to_target self)
        (Models.target_pre self) (Models.target_to_source self)
        (Models.source_discriminator self) (Models.target_discriminator self)
        x_a a_norm gen_AtoB b_fake_norm gen_AtoBtoA disc_Areal disc_Bfake wa ->
      Models.CycleGAN_call self x_a "target" training kwargs s
      = (Ok (gen_AtoB, gen_AtoBtoA, disc_Areal, disc_Bfake),
         {| Models.learning_phase := Spec.phase_after training (Models.learning_phase s);
            Models.world := wa |})) /\
  (forall (training : option bool) (kwargs : Models.Kwargs) (s : Models.KState)
          (x_b b_norm gen_BtoA a_fake_norm gen_BtoAtoB disc_Breal disc_Afake : tensor)
          (wb : Models.World),
      Spec.cycle_pass training kwargs
        (Spec.phase_after training (Models.learning_phase s)) (Models.world s)
        (Models.target_pre self) (Models.target_to_source self)
        (Models.source_pre self) (Models.source_to_target self)
        (Models.target_discriminator self) (Models.source_discriminator self)
        x_b b_norm gen_BtoA a_fake_norm gen_BtoAtoB disc_Breal disc_Afake wb ->
      Models.CycleGAN_call self x_b "source" training kwargs s
      = (Ok (gen_BtoA, gen_BtoAtoB, disc_Breal, disc_Afake),
         {| Models.learning_phase := Spec.phase_after training (Models.learning_phase s);
            Models.world := wb |})) /\
  (forall (training : option bool) (kwargs : Models.Kwargs) (s : Models.KState)
          (x : tensor) (dest : string),
      dest <> "target" -> dest <> "source" ->
      Models.CycleGAN_call self x dest training kwargs s
      = (Raise (NotImplementedError "dest can only be either source or target"),
         {| Models.learning_phase := Spec.phase_after training (Models.learning_phase s);
            Models.world := Models.world s |})).
Proof.
  split; [|split].
  - intros training kwargs s x_a a_norm gen_AtoB b_fake_norm gen_AtoBtoA
      disc_Areal disc_Bfake wa Hpass.
    by apply (CycleGAN_call_to_target _ _ _ _ _ a_norm _ b_fake_norm).
  - intros training kwargs s x_b b_norm gen_BtoA a_fake_norm gen_BtoAtoB
      disc_Breal disc_Afake wb Hpass.
    by apply (CycleGAN_call_to_source _ _ _ _ _ b_norm _ a_fake_norm).
  - intros training kwargs s x dest Ht Hs. by apply CycleGAN_call_other.
Qed.

End RunningFacts.

(** [CycleGAN.__init__] fails its assertion when the two shapes differ;
    when they agree it builds its six parts, unless the number of units of
    the generators' last [Dense] cannot be had, which happens with the first
    generator under way. *)
Lemma CycleGAN_init_runs `{F : Float32} `{N : Models.Numpy} (FLAGS : Flags)
    (source_x_shape target_x_shape : list Z) (n : nat) :
  if bool_decide (target_x_shape = source_x_shape) then
    match Models.np_prod source_x_shape with
    | Ok _ => exists m n', Models.CycleGAN_init FLAGS source_x_shape target_x_shape n
                           = (Ok m, n')
    | Raise e => exists n', Models.CycleGAN_init FLAGS source_x_shape target_x_shape n
                            = (Raise e, n')
    end
  else
    Models.CycleGAN_init FLAGS source_x_shape target_x_shape n
    = (Raise (AssertionError "Right now only support homogenous adaptation"), S n).
Proof.
  unfold Models.CycleGAN_init. unfold bind at 1. cbn [Models.fresh].
  unfold bind at 1.
  case_bool_decide as Heq; cbn [assert_ ret raise]; [|reflexivity]. subst target_x_shape.
  destruct N as [prod]. cbn [Models.np_prod]. lazy.
  destruct (prod source_x_shape) as [u|e]; by eauto.
Qed.


Lemma CycleGAN_call_passes_witness :
  let m := Example.tiny_gan in
  let T (v : Z) := @Tensor Example.Z_Float32 [1] [v] in
  let run (dest : string) :=
    @Models.CycleGAN_call _ Example.Tracing m (T 1) dest (Some true)
      [("mask", 1)] (Example.idle 0) in
  fst (run "target") = Ok (T 151, T 15162, T 153, T 15164) /\
  map Example.ev_uid (Models.world (snd (run "target")))
  = map Models.layer_uid
      [Models.source_pre m; Models.source_to_target m; Models.target_pre m;
       Models.target_to_source m; Models.source_discriminator m;
       Models.target_discriminator m] /\
  fst (run "source") = Ok (T 162, T 16251, T 164, T 16253) /\
  fst (run "both")
  = Raise (NotImplementedError "dest can only be either source or target").
Proof.
  intros m T run.
  eassert (Ha : @Spec.cycle_pass _ Example.Tracing (Some true) [("mask", 1)] 1 []
                 (Models.source_pre m) (Models.source_to_target m)
                 (Models.target_pre m) (Models.target_to_source m)
                 (Models.source_discriminator m) (Models.target_discriminator m)
                 (T 1) (T 15) (T 151) (T 1516) (T 15162) (T 153) (T 15164)
                 _)
    by (do 5 eexists; repeat (split; [reflexivity|]); reflexivity).
  eassert (Hb : @Spec.cycle_pass _ Example.Tracing (Some true) [("mask", 1)] 1 []
                 (Models.target_pre m) (Models.target_to_source m)
                 (Models.source_pre m) (Models.source_to_target m)
                 (Models.target_discriminator m) (Models.source_discriminator m)
                 (T 1) (T 16) (T 162) (T 1625) (T 16251) (T 164) (T 16253)
                 _)
    by (do 5 eexists; repeat (split; [reflexivity|]); reflexivity).
  assert (Hd1 : "both" <> "target") by discriminate.
  assert (Hd2 : "both" <> "source") by discriminate.
  destruct (@CycleGAN_call_passes _ Example.Tracing m) as (Htarget & Hsource & Hother).
  pose proof (Htarget (Some true) [("mask", 1)] (Example.idle 0)
                (T 1) (T 15) (T 151) (T 1516) (T 15162) (T 153) (T 15164) _ Ha) as Ht.
  pose proof (Hsource (Some true) [("mask", 1)] (Example.idle 0)
                (T 1) (T 16) (T 162) (T 1625) (T 16251) (T 164) (T 16253) _ Hb) as Hs.
  pose proof (Hother (Some true) [("mask", 1)] (Example.idle 0) (T 1) "both" Hd1 Hd2) as Ho.
  unfold run. rewrite Ht, Hs, Ho. repeat split; reflexivity.
Defined.

(** ** Trimming parsed examples *)

Section TrimFacts.
Context `{IO : TfIO}.

Lemma chunk_length {A} (l : list A) (d0 d1 n1 i : nat) :
  length l = (d0 * d1)%nat -> (n1 <= d1)%nat -> (i < d0)%nat ->
  length (take n1 (drop (i * d1) l)) = n1.
Proof.
  intros Hl Hn Hi. rewrite length_take, length_drop. nia.
Qed.

Lemma chunks_length {A} (l : list A) (d0 d1 n1 k : nat) :
  length l = (d0 * d1)%nat -> (n1 <= d1)%nat -> (k <= d0)%nat ->
  length (flat_map (fun i : nat => take n1 (drop (i * d1) l)) (seq 0 k)) = (k * n1)%nat.
Proof.
  intros Hl Hn. induction k as [|k IH]; intros Hk; [done|].
  rewrite seq_S, flat_map_app, length_app, IH by lia. cbn [flat_map Nat.add].
  rewrite app_nil_r, (chunk_length l d0 d1) by lia. lia.
Qed.

(** Entry [j] of row [i] of the cut-out rows is entry [j] of row [i] of
    the original. *)
Lemma chunks_lookup {A} (l : list A) (d0 d1 n1 k i j : nat) :
  length l = (d0 * d1)%nat -> (n1 <= d1)%nat -> (k <= d0)%nat ->
  (i < k)%nat -> (j < n1)%nat ->
  flat_map (fun i : nat => take n1 (drop (i * d1) l)) (seq 0 k) !! (i * n1 + j)%nat
  = l !! (i * d1 + j)%nat.
Proof.
  intros Hl Hn. induction k as [|k IH]; intros Hk Hi Hj; [lia|].
  rewrite seq_S, flat_map_app. cbn [flat_map Nat.add]. rewrite app_nil_r.
  destruct (decide (i < k)%nat) as [Hlt|Hge].
  - rewrite lookup_app_l; [apply IH; lia|].
    rewrite (chunks_length l d0 d1) by lia. nia.
  - assert (i = k) as -> by lia.
    rewrite lookup_app_r; rewrite (chunks_length l d0 d1) by lia; [|lia].
    replace (k * n1 + j - k * n1)%nat with j by lia.
    by rewrite lookup_take_lt, lookup_drop.
Qed.

(** A slice from the origin that stays inside a well-formed rank-2 tensor
    has the requested shape, is well formed, and keeps every entry in
    place. *)
Lemma tf_slice_origin_entries (x : tensor) (d0 d1 n0 n1 : Z) :
  tensor_wf x -> shape x = [d0; d1] -> 0 <= n0 <= d0 -> 0 <= n1 <= d1 ->
  exists x',
    tf_slice x (0, 0) (n0, n1) = Ok x' /\
    shape x' = [n0; n1] /\
    tensor_wf x' /\
    forall i j, 0 <= i < n0 -> 0 <= j < n1 -> get2 x' i j = get2 x i j.
Proof.
  intros Hwf Hs H0 H1.
  destruct (tensor_wf_rank2 _ _ _ Hwf Hs) as (Hd0 & Hd1 & Hlen).
  assert (Hl : length (data x) = (Z.to_nat d0 * Z.to_nat d1)%nat) by nia.
  eexists. split; [by apply (tf_slice_origin x d0 d1)|].
  split; [reflexivity|]. split.
  - split; cbn [shape data].
    + repeat constructor; lia.
    + rewrite (chunks_length _ (Z.to_nat d0) (Z.to_nat d1)) by lia.
      cbn. nia.
  - intros i j Hi Hj. unfold get2. cbn [shape data]. rewrite Hs.
    replace (Z.to_nat (i * n1 + j))
      with (Z.to_nat i * Z.to_nat n1 + Z.to_nat j)%nat by nia.
    replace (Z.to_nat (i * d1 + j))
      with (Z.to_nat i * Z.to_nat d1 + Z.to_nat j)%nat by nia.
    apply (chunks_lookup _ (Z.to_nat d0)); lia.
Qed.

Lemma shape_at_rank2 (x : tensor) (d0 d1 : Z) :
  shape x = [d0; d1] -> shape_at x 0 = Ok d0 /\ shape_at x 1 = Ok d1.
Proof.
  intros Hs. unfold shape_at. by rewrite Hs.
Qed.

(** Cutting a well-formed rank-2 tensor to at most [limit] leading rows,
    or to at most [limit] leading columns, for a limit that is not
    negative. *)
Lemma trim_time_stage (x : tensor) (d0 d1 limit : Z) :
  tensor_wf x -> shape x = [d0; d1] -> 0 <= limit ->
  exists x1,
    (let? a := shape_at x 0 in
     let? b := shape_at x 1 in
     tf_slice x (0, 0) (Z.min a limit, b)) = Ok x1 /\
    shape x1 = [Z.min d0 limit; d1] /\
    tensor_wf x1 /\
    (forall i j, 0 <= i < Z.min d0 limit -> 0 <= j < d1 -> get2 x1 i j = get2 x i j).
Proof.
  intros Hwf Hs Hlimit.
  destruct (tensor_wf_rank2 _ _ _ Hwf Hs) as (Hd0 & Hd1 & _).
  destruct (shape_at_rank2 _ _ _ Hs) as [Ha Hb].
  rewrite Ha, Hb. cbn [rbind].
  destruct (tf_slice_origin_entries x d0 d1 (Z.min d0 limit) d1 Hwf Hs)
    as (x1 & Hx1 & Hs1 & Hwf1 & Hget); [lia | lia |].
  by exists x1.
Qed.

Lemma trim_feature_stage (x : tensor) (d0 d1 limit : Z) :
  tensor_wf x -> shape x = [d0; d1] -> 0 <= limit ->
  exists x1,
    (let? a := shape_at x 0 in
     let? b := shape_at x 1 in
     tf_slice x (0, 0) (a, Z.min b limit)) = Ok x1 /\
    shape x1 = [d0; Z.min d1 limit] /\
    tensor_wf x1 /\
    (forall i j, 0 <= i < d0 -> 0 <= j < Z.min d1 limit -> get2 x1 i j = get2 x i j).
Proof.
  intros Hwf Hs Hlimit.
  destruct (tensor_wf_rank2 _ _ _ Hwf Hs) as (Hd0 & Hd1 & _).
  destruct (shape_at_rank2 _ _ _ Hs) as [Ha Hb].
  rewrite Ha, Hb. cbn [rbind].
  destruct (tf_slice_origin_entries x d0 d1 d0 (Z.min d1 limit) Hwf Hs)
    as (x1 & Hx1 & Hs1 & Hwf1 & Hget); [lia | lia |].
  by exists x1.
Qed.

(** Tracing the parse function succeeds exactly when each flag that is
    not 0 becomes an int32 constant; the traced function parses a record
    and then cuts [x] with the constants, rows first. *)
Lemma parse_example_function_inv (FLAGS : Flags)
    (f : string -> result (tensor * tensor)) :
  LoadDatasets._parse_example_function FLAGS = Ok f ->
  exists trim subset,
    (if trim_time_steps FLAGS =? 0 then trim = None
     else exists t, int32_constant (trim_time_steps FLAGS) = Ok t /\ trim = Some t) /\
    (if feature_subset FLAGS =? 0 then subset = None
     else exists t, int32_constant (feature_subset FLAGS) = Ok t /\ subset = Some t) /\
    forall example_proto x y,
      Spec.parses_to example_proto x y ->
      f example_proto
      = (let? x1 :=
           match trim with
           | Some limit =>
               let? d0 := shape_at x 0 in
               let? d1 := shape_at x 1 in
               tf_slice x (0, 0) (Z.min d0 limit, d1)
           | None => Ok x
           end in
         let? x2 :=
           match subset with
           | Some limit =>
               let? d0 := shape_at x1 0 in
               let? d1 := shape_at x1 1 in
               tf_slice x1 (0, 0) (d0, Z.min d1 limit)
           | None => Ok x1
           end in
         Ok (x2, y)).
Proof.
  unfold LoadDatasets._parse_example_function. intros Htraced.
  assert (Hrun : forall (trim subset : option Z) example_proto x y,
             Spec.parses_to example_proto x y ->
             (let? parsed := parse_single_example example_proto LoadDatasets.feature_description in
              let? px := LoadDatasets.dict_getitem parsed "x" in
              let? x := parse_tensor px in
              let? py := LoadDatasets.dict_getitem parsed "y" in
              let? y := parse_tensor py in
              let? x :=
                match trim with
                | Some limit =>
                    let? d0 := shape_at x 0 in
                    let? d1 := shape_at x 1 in
                    tf_slice x (0, 0) (Z.min d0 limit, d1)
                | None => Ok x
                end in
              let? x :=
                match subset with
                | Some limit =>
                    let? d0 := shape_at x 0 in
                    let? d1 := shape_at x 1 in
                    tf_slice x (0, 0) (d0, Z.min d1 limit)
                | None => Ok x
                end in
              Ok (x, y))
             = (let? x1 :=
                  match trim with
                  | Some limit =>
                      let? d0 := shape_at x 0 in
                      let? d1 := shape_at x 1 in
                      tf_slice x (0, 0) (Z.min d0 limit, d1)
                  | None => Ok x
                  end in
                let? x2 :=
                  match subset with
                  | Some limit =>
                      let? d0 := shape_at x1 0 in
                      let? d1 := shape_at x1 1 in
                      tf_slice x1 (0, 0) (d0, Z.min d1 limit)
                  | None => Ok x1
                  end in
                Ok (x2, y))).
  { intros trim subset example_proto x y (parsed & px & py & Hparse & Hpx & Hpy & Hx & Hy).
    unfold LoadDatasets.dict_getitem.
    rewrite Hparse. cbn [rbind]. rewrite Hpx. cbn [rbind]. rewrite Hx. cbn [rbind].
    rewrite Hpy. cbn [rbind]. by rewrite Hy. }
  destruct (trim_time_steps FLAGS =? 0); cbn [negb rbind] in Htraced.
  - destruct (feature_subset FLAGS =? 0); cbn [negb rbind] in Htraced.
    + injection Htraced as <-. exists None, None. split; [done|]. split; [done|].
      exact (Hrun None None).
    + destruct (int32_constant (feature_subset FLAGS)) as [u|e]; cbn [rbind] in Htraced;
        [|done].
      injection Htraced as <-. exists None, (Some u). split; [done|].
      split; [by exists u|]. exact (Hrun None (Some u)).
  - destruct (int32_constant (trim_time_steps FLAGS)) as [t|e]; cbn [rbind] in Htraced;
      [|done].
    destruct (feature_subset FLAGS =? 0); cbn [negb rbind] in Htraced.
    + injection Htraced as <-. exists (Some t), None. split; [by exists t|].
      split; [done|]. exact (Hrun (Some t) None).
    + destruct (int32_constant (feature_subset FLAGS)) as [u|e]; cbn [rbind] in Htraced;
        [|done].
      injection Htraced as <-. exists (Some t), (Some u). split; [by exists t|].
      split; [by exists u|]. exact (Hrun (Some t) (Some u)).
Qed.

Lemma parse_example_function_traces (FLAGS : Flags) :
  (trim_time_steps FLAGS = 0 \/ is_ok (int32_constant (trim_time_steps FLAGS)) = true) ->
  (feature_subset FLAGS = 0 \/ is_ok (int32_constant (feature_subset FLAGS)) = true) ->
  exists f, LoadDatasets._parse_example_function FLAGS = Ok f.
Proof.
  intros Htrim Hsubset. unfold LoadDatasets._parse_example_function.
  assert (Ht : exists trim,
             (if negb (trim_time_steps FLAGS =? 0)
              then let? t := int32_constant (trim_time_steps FLAGS) in Ok (Some t)
              else Ok None) = Ok trim).
  { destruct (trim_time_steps FLAGS =? 0) eqn:E; cbn [negb]; [by eexists|].
    destruct Htrim as [Hz|Hok]; [lia|].
    destruct (int32_constant (trim_time_steps FLAGS)); [by eexists | done]. }
  assert (Hs : exists subset,
             (if negb (feature_subset FLAGS =? 0)
              then let? t := int32_constant (feature_subset FLAGS) in Ok (Some t)
              else Ok None) = Ok subset).
  { destruct (feature_subset FLAGS =? 0) eqn:E; cbn [negb]; [by eexists|].
    destruct Hsubset as [Hz|Hok]; [lia|].
    destruct (int32_constant (feature_subset FLAGS)); [by eexists | done]. }
  destruct Ht as [trim ->]. destruct Hs as [subset ->]. cbn [rbind]. by eexists.
Qed.

End TrimFacts.

(** C7: the code does not do what the claim, and its own comment at the
    slice, say: with [trim_time_steps = -1] the flag is not 0, the slice
    size [min 2 (-1) = -1] takes every row, and a [[2, 1]] example keeps
    both time steps, where the shape was to be [[min 2 (-1), 1]]. *)
Lemma trim_negative_flag_keeps_every_step :
  let FLAGS := Example.trimming_flags (-1) 0 in
  trim_time_steps FLAGS <> 0 /\
  exists f x' y,
    @LoadDatasets._parse_example_function _ Example.Z_TfIO FLAGS = Ok f /\
    f "2112;1100" = Ok (x', y) /\
    shape x' = [2; 1] /\
    data x' = [1; 2] /\
    shape x' <> [Z.min 2 (trim_time_steps FLAGS); 1].
Proof.
  intros FLAGS. split; [discriminate|].
  eexists _, _, _. split; [reflexivity|]. split; [reflexivity|].
  split; [reflexivity|]. split; [reflexivity | discriminate].
Qed.

(** ** Datasets: labels *)

Section DatasetFacts.
Context `{IO : TfIO}.
Context (FLAGS : Flags) (PKG : DatasetsPackage).

Lemma Dataset_init_inv (num_classes : Z) (class_labels : list string) (num_domains : Z)
    (train_filenames test_filenames : list string) (invert_name : option string)
    (args : LoadDatasets.DatasetArgs) (d : LoadDatasets.Dataset) :
  LoadDatasets.Dataset_init FLAGS PKG num_classes class_labels num_domains
    train_filenames test_filenames invert_name args = Ok d ->
  num_classes = Z.of_nat (length class_labels) /\
  LoadDatasets.num_classes (LoadDatasets.params d) = num_classes /\
  LoadDatasets.class_labels (LoadDatasets.params d) = class_labels /\
  LoadDatasets.load_tfrecords FLAGS (LoadDatasets.params d) train_filenames
    (LoadDatasets.ds_train_batch (LoadDatasets.params d)) false false
  = Ok (LoadDatasets.train d) /\
  LoadDatasets.load_tfrecords FLAGS (LoadDatasets.params d) train_filenames
    (LoadDatasets.ds_eval_batch (LoadDatasets.params d)) false true
  = Ok (LoadDatasets.train_evaluation d) /\
  LoadDatasets.load_tfrecords FLAGS (LoadDatasets.params d) test_filenames
    (LoadDatasets.ds_eval_batch (LoadDatasets.params d)) false true
  = Ok (LoadDatasets.test_evaluation d).
Proof.
  unfold LoadDatasets.Dataset_init.
  destruct (num_classes =? Z.of_nat (length class_labels)) eqn:E; cbn [negb]; [|done].
  apply Z.eqb_eq in E.
  match goal with
  | |- context [rbind ?c _] => destruct c as [[]|e]; cbn [rbind]; [|done]
  end.
  cbv zeta. unfold LoadDatasets.load_dataset.
  repeat match goal with
  | |- context [LoadDatasets.load_tfrecords ?a ?b ?c ?d ?e ?f] =>
      let H := fresh "Hload" in
      destruct (LoadDatasets.load_tfrecords a b c d e f) as [?|?] eqn:H;
        cbn [rbind]; [|done]
  end.
  intros [= <-]. cbn. by repeat split.
Qed.

Lemma list_index_elem (x : string) (l : list string) :
  x ∈ l -> exists k, LoadDatasets.list_index x l = Some k /\ l !! k = Some x.
Proof.
  induction l as [|y l IH]; intros Hin; [by apply elem_of_nil in Hin|].
  cbn [LoadDatasets.list_index]. destruct (String.eqb y x) eqn:E.
  - apply String.eqb_eq in E as ->. by exists 0%nat.
  - apply String.eqb_neq in E. apply elem_of_cons in Hin as [->|Hin]; [done|].
    destruct (IH Hin) as (k & Hk & Hlk). exists (S k). by rewrite Hk.
Qed.

Lemma list_index_NoDup (x : string) (l : list string) (k : nat) :
  NoDup l -> l !! k = Some x -> LoadDatasets.list_index x l = Some k.
Proof.
  intros Hnd. revert k. induction Hnd as [|y l Hnotin Hnd IH]; intros k Hk; [done|].
  cbn [LoadDatasets.list_index]. destruct k as [|k]; cbn in Hk.
  - injection Hk as ->. by rewrite String.eqb_refl.
  - destruct (String.eqb y x) eqn:E.
    + apply String.eqb_eq in E as ->. exfalso. apply Hnotin.
      by apply list_elem_of_lookup_2 in Hk.
    + by rewrite (IH k Hk).
Qed.

Lemma list_getitem_lookup {A} (l : list A) (k : nat) (a : A) :
  l !! k = Some a -> LoadDatasets.list_getitem l (Z.of_nat k) = Ok a.
Proof.
  intros Hk. pose proof (lookup_lt_Some _ _ _ Hk) as Hlt.
  unfold LoadDatasets.list_getitem.
  destruct (Z.of_nat k <? 0) eqn:E1; [lia|].
  destruct (0 <=? Z.of_nat k) eqn:E2; [|lia].
  destruct (Z.of_nat k <? Z.of_nat (length l)) eqn:E3; [|lia].
  cbn. by rewrite Nat2Z.id, Hk.
Qed.

(** C10: on a constructed [Dataset], every label that occurs among the
    class labels maps to an index that maps back to it, distinct labels or
    not; and with pairwise distinct labels every index below
    [num_classes] maps to a label that maps back to it. *)
Theorem label_int_roundtrip
    (num_classes : Z) (class_labels : list string) (num_domains : Z)
    (train_filenames test_filenames : list string) (invert_name : option string)
    (args : LoadDatasets.DatasetArgs) (d : LoadDatasets.Dataset)
    (Hinit : LoadDatasets.Dataset_init FLAGS PKG num_classes class_labels num_domains
               train_filenames test_filenames invert_name args = Ok d) :
  (forall label_name,
      label_name ∈ LoadDatasets.class_labels (LoadDatasets.params d) ->
      exists k, LoadDatasets.label_to_int d label_name = Ok k /\
                LoadDatasets.int_to_label d k = Ok label_name) /\
  (forall i,
      0 <= i < LoadDatasets.num_classes (LoadDatasets.params d) ->
      NoDup (LoadDatasets.class_labels (LoadDatasets.params d)) ->
      exists l, LoadDatasets.int_to_label d i = Ok l /\
                LoadDatasets.label_to_int d l = Ok i).
Proof.
  destruct (Dataset_init_inv _ _ _ _ _ _ _ _ Hinit) as (Hlen & Hnc & Hcl & _).
  unfold LoadDatasets.label_to_int, LoadDatasets.int_to_label. split.
  - intros label_name Hlabel.
    destruct (list_index_elem _ _ Hlabel) as (k & Hk & Hlk).
    exists (Z.of_nat k). rewrite Hk. split; [done|]. by apply list_getitem_lookup.
  - intros i Hindex Hdistinct. rewrite Hnc, Hlen, <- Hcl in Hindex.
    destruct (lookup_lt_is_Some_2 (LoadDatasets.class_labels (LoadDatasets.params d))
                (Z.to_nat i)) as [l Hl]; [lia|].
    exists l. split.
    + rewrite <- (Z2Nat.id i) by lia. by apply list_getitem_lookup.
    + rewrite (list_index_NoDup _ _ _ Hdistinct Hl). f_equal. lia.
Qed.

End DatasetFacts.

Lemma label_int_roundtrip_witness :
  (exists d,
      @LoadDatasets.Dataset_init _ Example.Z_TfIO default_flags Example.package
        3 ["Walk"; "Sit"; "Walk"] 2 ["datasets/ucihar_1_train.tfrecord"] [] None
        LoadDatasets.no_args = Ok d /\
      LoadDatasets.label_to_int d "Walk" = Ok 0 /\
      LoadDatasets.int_to_label d 0 = Ok "Walk") /\
  (exists d,
      @LoadDatasets.Dataset_init _ Example.Z_TfIO default_flags Example.package
        3 Example.har_labels 2 ["datasets/ucihar_1_train.tfrecord"] [] None
        LoadDatasets.no_args = Ok d /\
      LoadDatasets.int_to_label d 2 = Ok "Stand" /\
      LoadDatasets.label_to_int d "Stand" = Ok 2).
Proof.
  split.
  - eexists. split; [reflexivity|].
    match goal with
    | |- context [LoadDatasets.label_to_int ?d "Walk"] =>
        assert (Hlabel : "Walk" ∈ LoadDatasets.class_labels (LoadDatasets.params d))
          by (cbn; apply elem_of_cons; left; reflexivity);
        destruct (@label_int_roundtrip _ Example.Z_TfIO default_flags Example.package
                    3 ["Walk"; "Sit"; "Walk"] 2 ["datasets/ucihar_1_train.tfrecord"] [] None
                    LoadDatasets.no_args d eq_refl) as [Hforth _];
        destruct (Hforth "Walk" Hlabel) as (k & Hk & Hback)
    end.
    split; reflexivity.
  - eexists. split; [reflexivity|].
    match goal with
    | |- context [LoadDatasets.int_to_label ?d 2] =>
        assert (Hdistinct : NoDup (LoadDatasets.class_labels (LoadDatasets.params d)))
          by (cbn; apply (bool_decide_unpack _); reflexivity);
        destruct (@label_int_roundtrip _ Example.Z_TfIO default_flags Example.package
                    3 Example.har_labels 2 ["datasets/ucihar_1_train.tfrecord"] [] None
                    LoadDatasets.no_args d eq_refl) as [_ Hback];
        destruct (Hback 2 (conj (Z.le_0_2) eq_refl) Hdistinct) as (l & Hl & Hk)
    end.
    split; reflexivity.
Defined.

(** ** Datasets: loading *)

Section LoadFacts.
Context `{IO : TfIO}.
Context (FLAGS : Flags) (PKG : DatasetsPackage).

Lemma load_tfrecords_empty (self : LoadDatasets.DatasetParams) (batch_size : Z)
    (count evaluation : bool) :
  LoadDatasets.load_tfrecords FLAGS self [] batch_size count evaluation = Ok None.
Proof. reflexivity. Qed.

(** What [load_tfrecords] returns when it returns: nothing for no files,
    and otherwise a pipeline over the files given, with the stages the
    arguments ask for. *)
Lemma load_tfrecords_ok (self : LoadDatasets.DatasetParams) (filenames : list string)
    (batch_size : Z) (count evaluation : bool) (r : option LoadDatasets.TfData) :
  LoadDatasets.load_tfrecords FLAGS self filenames batch_size count evaluation = Ok r ->
  match r with
  | None => filenames = []
  | Some p =>
      filenames <> [] /\
      Spec.source_files p = filenames /\
      Spec.repeats p = negb count && negb evaluation /\
      Spec.shuffles p
      = (if count then []
         else [(LoadDatasets.ds_shuffle_buffer self,
                if evaluation then Some (LoadDatasets.ds_eval_shuffle_seed self) else None)]) /\
      Spec.takes p
      = (if evaluation && negb (LoadDatasets.ds_eval_max_examples self =? 0)
         then [LoadDatasets.ds_eval_max_examples self] else []) /\
      Spec.batch_sizes p = [batch_size] /\
      Spec.prefetches p
      = [if LoadDatasets.ds_prefetch_buffer self =? 0 then LoadDatasets.AUTOTUNE
         else LoadDatasets.ds_prefetch_buffer self]
  end.
Proof.
  intros H. destruct filenames as [|fn fns]; [by injection H as <-|].
  unfold LoadDatasets.load_tfrecords, LoadDatasets.stage in H. cbn [length Nat.eqb] in H.
  destruct count, evaluation,
    (LoadDatasets.ds_eval_max_examples self =? 0),
    (LoadDatasets.ds_prefetch_buffer self =? 0),
    (LoadDatasets.ds_tune_num_parallel_calls self); cbn [andb negb] in H;
    repeat match type of H with
    | context [tfdata_call ?c] =>
        destruct (tfdata_call c) as [[]|?]; cbn [rbind] in H; [|done]
    | context [LoadDatasets._parse_example_function ?fl] =>
        destruct (LoadDatasets._parse_example_function fl) as [?|?];
          cbn [rbind] in H; [|done]
    end;
    injection H as <-; by cbn.
Qed.

Lemma files_of_load_tfrecords (self : LoadDatasets.DatasetParams) (filenames : list string)
    (batch_size : Z) (count evaluation : bool) (r : option LoadDatasets.TfData) :
  LoadDatasets.load_tfrecords FLAGS self filenames batch_size count evaluation = Ok r ->
  Spec.files_of r = filenames.
Proof.
  intros H. apply load_tfrecords_ok in H. destruct r as [p|]; cbn [Spec.files_of].
  - by destruct H as (_ & ? & _).
  - done.
Qed.

Lemma _path_run (filename : string) (fs : LoadDatasets.FileSystem) :
  let fn := LoadDatasets.os_path_join "datasets" filename in
  LoadDatasets._path filename fs
  = (Ok (if LoadDatasets.path_exists fs fn then [fn] else []),
     {| LoadDatasets.path_exists := LoadDatasets.path_exists fs;
        LoadDatasets.probed := LoadDatasets.probed fs ++ [fn] |}).
Proof. reflexivity. Qed.

(** What [load] hands to the [Dataset] constructor. *)
Lemma load_inv (dataset_name : string) (num_domains : Z) (test : bool)
    (args : LoadDatasets.DatasetArgs) (fs fs' : LoadDatasets.FileSystem)
    (d : LoadDatasets.Dataset) :
  LoadDatasets.load FLAGS PKG dataset_name num_domains test args fs = (Ok d, fs') ->
  let path split :=
    LoadDatasets.os_path_join "datasets" (tfrecord_filename PKG dataset_name split) in
  let files split := if LoadDatasets.path_exists fs (path split) then [path split] else [] in
  exists info,
    datasets_datasets PKG !! dataset_name = Some info /\
    LoadDatasets.Dataset_init FLAGS PKG (info_num_classes info) (info_class_labels info)
      num_domains
      (if test then files "train" ++ files "valid" else files "train")
      (if test then files "test" else files "valid")
      (if info_invertible info then Some dataset_name else None) args = Ok d /\
    LoadDatasets.probed fs'
    = LoadDatasets.probed fs ++ [path "train"; path "valid"; path "test"].
Proof.
  intros Hload path files. revert Hload.
  unfold LoadDatasets.load. unfold bind at 1.
  destruct (datasets_datasets PKG !! dataset_name) as [info|] eqn:Hinfo;
    [|by rewrite bool_decide_eq_false_2 by (by intros [? ?])].
  rewrite bool_decide_eq_true_2 by eauto. cbn [assert_ ret].
  unfold bind at 1. cbn [ret].
  unfold bind at 1. rewrite _path_run.
  unfold bind at 1. rewrite _path_run.
  unfold bind at 1. rewrite _path_run. cbn [LoadDatasets.path_exists LoadDatasets.probed].
  fold (path "train"). fold (path "valid"). fold (path "test").
  fold (files "train"). fold (files "valid"). fold (files "test").
  intros Hload. exists info. split; [done|].
  destruct test; cbn [negb] in Hload; unfold bind, lift, ret in Hload.
  - destruct (LoadDatasets.Dataset_init _ _ _ _ _ _ _ _ _) as [d0|e]; [|done].
    injection Hload as <- <-. split; [done|]. cbn. by rewrite <- !app_assoc.
  - destruct (LoadDatasets.Dataset_init _ _ _ _ _ _ _ _ _) as [d0|e]; [|done].
    injection Hload as <- <-. split; [done|]. cbn. by rewrite <- !app_assoc.
Qed.

(** C9: [load_tfrecords] on no files is [None], so a loaded dataset's
    [train] and [train_evaluation] are [None] when its training files are
    missing and its [test_evaluation] is [None] when its test file is. *)
Theorem missing_files_give_None
    (self : LoadDatasets.DatasetParams) (batch_size : Z) (count evaluation : bool)
    (dataset_name : string) (num_domains : Z) (test : bool)
    (args : LoadDatasets.DatasetArgs) (fs fs' : LoadDatasets.FileSystem)
    (d : LoadDatasets.Dataset)
    (Hload : LoadDatasets.load FLAGS PKG dataset_name num_domains test args fs
             = (Ok d, fs')) :
  LoadDatasets.load_tfrecords FLAGS self [] batch_size count evaluation = Ok None /\
  (Spec.train_files_missing PKG fs dataset_name test ->
   LoadDatasets.train d = None /\ LoadDatasets.train_evaluation d = None) /\
  (Spec.test_files_missing PKG fs dataset_name test ->
   LoadDatasets.test_evaluation d = None).
Proof.
  split; [reflexivity|].
  destruct (load_inv _ _ _ _ _ _ _ Hload) as (info & _ & Hinit & _).
  destruct (Dataset_init_inv _ _ _ _ _ _ _ _ _ _ Hinit)
    as (_ & _ & _ & Htrain & Heval & Htest).
  split.
  - intros [Hno_train Hno_valid]. rewrite Hno_train in Htrain, Heval.
    destruct test; [rewrite (Hno_valid eq_refl) in Htrain, Heval|];
      cbn in Htrain, Heval; by injection Htrain as <-; injection Heval as <-.
  - unfold Spec.test_files_missing. intros Hno.
    destruct test; rewrite Hno in Htest; cbn in Htest; by injection Htest as <-.
Qed.

End LoadFacts.

Lemma missing_files_give_None_witness :
  Spec.train_files_missing Example.package Example.disk "ucihar_2" false /\
  Spec.test_files_missing Example.package Example.disk "ucihar_2" false /\
  match @LoadDatasets.load _ Example.Z_TfIO default_flags Example.package
          "ucihar_2" 2 false LoadDatasets.no_args Example.disk with
  | (Ok d, fs') =>
      LoadDatasets.train d = None /\
      LoadDatasets.train_evaluation d = None /\
      LoadDatasets.test_evaluation d = None
  | (Raise _, _) => False
  end.
Proof.
  assert (Htrain : Spec.train_files_missing Example.package Example.disk "ucihar_2" false)
    by (split; [reflexivity | discriminate]).
  assert (Htest : Spec.test_files_missing Example.package Example.disk "ucihar_2" false)
    by reflexivity.
  split; [exact Htrain|]. split; [exact Htest|].
  destruct (@LoadDatasets.load _ Example.Z_TfIO default_flags Example.package
              "ucihar_2" 2 false LoadDatasets.no_args Example.disk)
    as [[d|e] fs'] eqn:Hload.
  - destruct (@missing_files_give_None _ Example.Z_TfIO default_flags Example.package
                (LoadDatasets.params d) 128 false false
                "ucihar_2" 2 false LoadDatasets.no_args Example.disk fs' d Hload)
      as (_ & Hno_train & Hno_test).
    destruct (Hno_train Htrain) as [Ht He].
    exact (conj Ht (conj He (Hno_test Htest))).
  - assert (Hok : is_ok (fst (@LoadDatasets.load _ Example.Z_TfIO default_flags
                                 Example.package "ucihar_2" 2 false
                                 LoadDatasets.no_args Example.disk)) = true)
      by (vm_compute; reflexivity).
    rewrite Hload in Hok. discriminate Hok.
Defined.

(** With its training file on disk, [ucihar_1] gets a training pipeline
    but, having no validation file, no test-evaluation pipeline. *)
Example load_ucihar_1 :
  match @LoadDatasets.load _ Example.Z_TfIO default_flags Example.package
          "ucihar_1" 2 false LoadDatasets.no_args Example.disk with
  | (Ok d, fs') =>
      (is_Some (LoadDatasets.train d) /\ LoadDatasets.test_evaluation d = None) /\
      LoadDatasets.probed fs'
      = ["datasets/ucihar_1_train.tfrecord"; "datasets/ucihar_1_valid.tfrecord";
         "datasets/ucihar_1_test.tfrecord"]
  | (Raise _, _) => False
  end.
Proof.
  destruct (@LoadDatasets.load _ Example.Z_TfIO default_flags Example.package
              "ucihar_1" 2 false LoadDatasets.no_args Example.disk)
    as [[d|e] fs'] eqn:Hload.
  - destruct (load_inv _ _ _ _ _ _ _ _ _ Hload) as (info & _ & Hinit & Hprobed).
    destruct (Dataset_init_inv _ _ _ _ _ _ _ _ _ _ Hinit)
      as (_ & _ & _ & Htrain & _ & Htest).
    split; [|exact Hprobed].
    apply load_tfrecords_ok in Htrain. apply load_tfrecords_ok in Htest.
    destruct (LoadDatasets.train d); [|discriminate Htrain].
    destruct (LoadDatasets.test_evaluation d); [by destruct Htest|].
    split; [by eexists | reflexivity].
  - assert (Hok : is_ok (fst (@LoadDatasets.load _ Example.Z_TfIO default_flags
                                 Example.package "ucihar_1" 2 false
                                 LoadDatasets.no_args Example.disk)) = true)
      by (vm_compute; reflexivity).
    rewrite Hload in Hok. discriminate Hok.
Qed.

(** ** Loading domains without a target *)

Section LoadDaFacts.
Context `{IO : TfIO}.
Context (FLAGS : Flags) (PKG : DatasetsPackage).

Lemma bind_assert_true {S A} (msg : result string) (k : unit -> St S A) (s : S) :
  bind (assert_ true msg) k s = k tt s.
Proof. reflexivity. Qed.

Lemma bind_assert_false {S A} (msg : string) (k : unit -> St S A) (s : S) :
  bind (assert_ false (Ok msg)) k s = (Raise (AssertionError msg), s).
Proof. reflexivity. Qed.

Lemma bind_run_ok {S A B} (m : St S A) (k : A -> St S B) (s s' : S) (a : A) :
  m s = (Ok a, s') -> bind m k s = k a s'.
Proof. intros H. unfold bind. by rewrite H. Qed.

Lemma bind_run_raise {S A B} (m : St S A) (k : A -> St S B) (s s' : S) (e : exn) :
  m s = (Raise e, s') -> bind m k s = (Raise e, s').
Proof. intros H. unfold bind. by rewrite H. Qed.

(** The loop of source checks either passes or raises for a source that
    is not a valid name; either way it has not touched the file system. *)
Lemma check_sources_run (valid_names sources : list string)
    (fs : LoadDatasets.FileSystem) :
  (exists units,
      for_each (fun s => assert_ (bool_decide (s ∈ valid_names))
                           (Ok ("unknown source domain: " +:+ s)))
        sources fs = (Ok units, fs)) \/
  (exists s, (s ∈ sources) /\ (s ∉ valid_names) /\
     for_each (fun s => assert_ (bool_decide (s ∈ valid_names))
                          (Ok ("unknown source domain: " +:+ s)))
       sources fs
     = (Raise (AssertionError ("unknown source domain: " +:+ s)), fs)).
Proof.
  induction sources as [|s sources IH]; cbn [for_each].
  - left. by eexists.
  - destruct (bool_decide (s ∈ valid_names)) eqn:E.
    + rewrite bind_assert_true.
      destruct IH as [[us Hus]|(s' & Hs' & Hnot & Hraise)].
      * left. eexists. by rewrite (bind_run_ok _ _ _ _ _ Hus).
      * right. exists s'. split; [by apply elem_of_cons; right|]. split; [done|].
        by rewrite (bind_run_raise _ _ _ _ _ Hraise).
    + rewrite bind_assert_false.
      right. exists s. apply bool_decide_eq_false in E.
      split; [by apply elem_of_cons; left | done].
Qed.

(** C8: without a target [load_da] always raises, either at a source
    that is not a valid name or at the target check itself (whose message
    cannot even be built from [None]), and it does so before probing any
    file. *)
Theorem load_da_without_target_raises
    (dataset sources : string) (test : bool) (args : LoadDatasets.DatasetArgs)
    (fs : LoadDatasets.FileSystem) :
  exists e,
    LoadDatasets.load_da FLAGS PKG dataset sources None test args fs = (Raise e, fs) /\
    ((exists s, s ∈ map (fun x => dataset +:+ "_" +:+ x)
                      (LoadDatasets.split ","%char sources) /\
                (s ∉ LoadDatasets.names PKG) /\
                e = AssertionError ("unknown source domain: " +:+ s)) \/
     (exists msg, e = TypeError msg)).
Proof.
  unfold LoadDatasets.load_da. cbv zeta.
  destruct (check_sources_run (LoadDatasets.names PKG)
              (map (fun x => dataset +:+ "_" +:+ x) (LoadDatasets.split ","%char sources))
              fs) as [[us Hus]|(s & Hs & Hnot & Hraise)].
  - rewrite (bind_run_ok _ _ _ _ _ Hus). cbn [LoadDatasets.in_names LoadDatasets.str_concat].
    eexists. split; [reflexivity|]. right. by eexists.
  - rewrite (bind_run_raise _ _ _ _ _ Hraise).
    eexists. split; [reflexivity|]. left. by exists s.
Qed.

End LoadDaFacts.

(** Without a target, two valid sources get as far as the target check. *)
Example load_da_no_target :
  @LoadDatasets.load_da _ Example.Z_TfIO default_flags Example.package
    "ucihar" "1,2" None false LoadDatasets.no_args Example.disk
  = (Raise (TypeError ("can only concatenate str (not " +:+ LoadDatasets.dquote
                       +:+ "NoneType" +:+ LoadDatasets.dquote +:+ ") to str")),
     Example.disk).
Proof. reflexivity. Qed.

(** * Further properties *)

(** ** Failure and test-mode mapping of the composed models *)

Section ComposedFacts.
Context `{K : Models.KerasRuntime}.

Lemma bind_ok_inv {S A B} (m : St S A) (k : A -> St S B) (s s' : S) (b : B) :
  bind m k s = (Ok b, s') ->
  exists a s1, m s = (Ok a, s1) /\ k a s1 = (Ok b, s').
Proof.
  unfold bind. destruct (m s) as [[a|e] s1]; [by eauto | done].
Qed.

Lemma call_inv (net : Models.Layer) (x : tensor) (training : option bool)
    (kwargs : Models.Kwargs) (s s' : Models.KState) (r : result tensor) :
  Models.call net x training kwargs s = (r, s') ->
  Models.layer_call net x training kwargs (Models.learning_phase s) (Models.world s)
  = (r, Models.world s') /\
  Models.learning_phase s' = Models.learning_phase s.
Proof.
  unfold Models.call.
  destruct (Models.layer_call _ _ _ _ _ _) as [r0 w]. by intros [= <- <-].
Qed.

Lemma call_raise (net : Models.Layer) (x : tensor) (training : option bool)
    (kwargs : Models.Kwargs) (phase : Z) (w w' : Models.World) (e : exn) :
  Models.layer_call net x training kwargs phase w = (Raise e, w') ->
  Models.call net x training kwargs
    {| Models.learning_phase := phase; Models.world := w |}
  = (Raise e, {| Models.learning_phase := phase; Models.world := w' |}).
Proof.
  intros H. unfold Models.call. cbn. by rewrite H.
Qed.

(** Run the next sub-model call, given that it returned or that it raised. *)
Ltac call_ok H := unfold bind at 1; rewrite (call_run _ _ _ _ _ _ _ _ H).
Ltac call_fails H := unfold bind at 1; rewrite (call_raise _ _ _ _ _ _ _ _ H).

(** X1: whichever part of a domain-adaptation model fails first, the call
    raises that part's exception with the learning phase already set, and
    the later parts are not run: the backend is left as the failing part
    left it. *)
Theorem DomainAdaptationModel_call_stops_at_failure
    (self : Models.DomainAdaptationModel) (inputs : tensor)
    (target : bool) (training : option bool) (kwargs : Models.Kwargs)
    (s : Models.KState) (e : exn) (w : Models.World)
    (Hfail :
       let phase := Spec.phase_after training (Models.learning_phase s) in
       let classifier :=
         if target then Models.target_classifier self else Models.task_classifier self in
       Models.layer_call (Models.feature_extractor self) inputs None kwargs phase
         (Models.world s) = (Raise e, w) \/
       (exists fe w1,
           Models.layer_call (Models.feature_extractor self) inputs None kwargs phase
             (Models.world s) = (Ok fe, w1) /\
           (Models.layer_call (Models.domain_classifier self) fe None kwargs phase w1
            = (Raise e, w) \/
            exists domain w2,
              Models.layer_call (Models.domain_classifier self) fe None kwargs phase w1
              = (Ok domain, w2) /\
              Models.layer_call classifier fe None kwargs phase w2 = (Raise e, w)))) :
  Models.DomainAdaptationModel_call self inputs target training kwargs s
  = (Raise e,
     {| Models.learning_phase := Spec.phase_after training (Models.learning_phase s);
        Models.world := w |}).
Proof.
  cbv zeta in Hfail. unfold Models.DomainAdaptationModel_call.
  unfold bind at 1.
  pose proof (set_phase_run training s) as Hset. unfold Models.Keras in Hset.
  rewrite Hset. clear Hset.
  destruct Hfail as [Hfe|(fe & w1 & Hfe & [Hdomain|(domain & w2 & Hdomain & Htask)])].
  - by call_fails Hfe.
  - call_ok Hfe. by call_fails Hdomain.
  - call_ok Hfe. call_ok Hdomain. unfold bind at 1.
    destruct target; by rewrite (call_raise _ _ _ _ _ _ _ _ Htask).
Qed.

(** X2: [map_to_target] returns the forward translation that a test-mode
    call towards ["target"] returns from the same backend state, and
    [map_to_source] that of a call towards ["source"]; both leave the
    learning phase at 0.  Each half stands on its own. *)
Theorem map_to_is_test_mode_translation (self : Models.CycleGAN) :
  (forall (x_a : tensor) (s sa : Models.KState)
          (gen_AtoB gen_AtoBtoA disc_Areal disc_Bfake : tensor),
      Models.CycleGAN_call self x_a "target" (Some false) [] s
      = (Ok (gen_AtoB, gen_AtoBtoA, disc_Areal, disc_Bfake), sa) ->
      exists s', Models.CycleGAN_map_to_target self x_a s = (Ok gen_AtoB, s') /\
                 Models.learning_phase s' = 0) /\
  (forall (x_b : tensor) (s sb : Models.KState)
          (gen_BtoA gen_BtoAtoB disc_Breal disc_Afake : tensor),
      Models.CycleGAN_call self x_b "source" (Some false) [] s
      = (Ok (gen_BtoA, gen_BtoAtoB, disc_Breal, disc_Afake), sb) ->
      exists s', Models.CycleGAN_map_to_source self x_b s = (Ok gen_BtoA, s') /\
                 Models.learning_phase s' = 0).
Proof.
  assert (Hphase : forall s s0 : Models.KState,
             Models.CycleGAN_set_learning_phase (Some false) s = (Ok tt, s0) ->
             Models.learning_phase s0 = 0).
  { intros s s0 Hset. unfold Models.CycleGAN_set_learning_phase in Hset. cbn in Hset.
    by injection Hset as <-. }
  split.
  - intros x_a s sa gen_AtoB gen_AtoBtoA disc_Areal disc_Bfake Hrun.
    unfold Models.CycleGAN_call in Hrun.
    apply bind_ok_inv in Hrun as ([] & s0 & Hset & Hrun).
    cbn [String.eqb Ascii.eqb Bool.eqb andb] in Hrun.
    apply bind_ok_inv in Hrun as (x_norm & s1 & Hpre & Hrun).
    apply bind_ok_inv in Hrun as (g & s2 & Hgen & Hrun).
    apply bind_ok_inv in Hrun as (fake & s3 & _ & Hrun).
    apply bind_ok_inv in Hrun as (back & s4 & _ & Hrun).
    apply bind_ok_inv in Hrun as (dr & s5 & _ & Hrun).
    apply bind_ok_inv in Hrun as (df & s6 & _ & Hrun).
    injection Hrun as -> _ _ _ _.
    exists s2. unfold Models.CycleGAN_map_to_target.
    rewrite (bind_run_ok _ _ _ _ _ Hset), (bind_run_ok _ _ _ _ _ Hpre).
    split; [done|].
    destruct (call_inv _ _ _ _ _ _ _ Hpre) as [_ H1].
    destruct (call_inv _ _ _ _ _ _ _ Hgen) as [_ H2].
    rewrite H2, H1. by apply (Hphase s).
  - intros x_b s sb gen_BtoA gen_BtoAtoB disc_Breal disc_Afake Hrun.
    unfold Models.CycleGAN_call in Hrun.
    apply bind_ok_inv in Hrun as ([] & s0 & Hset & Hrun).
    cbn [String.eqb Ascii.eqb Bool.eqb andb] in Hrun.
    apply bind_ok_inv in Hrun as (x_norm & s1 & Hpre & Hrun).
    apply bind_ok_inv in Hrun as (g & s2 & Hgen & Hrun).
    apply bind_ok_inv in Hrun as (fake & s3 & _ & Hrun).
    apply bind_ok_inv in Hrun as (back & s4 & _ & Hrun).
    apply bind_ok_inv in Hrun as (dr & s5 & _ & Hrun).
    apply bind_ok_inv in Hrun as (df & s6 & _ & Hrun).
    injection Hrun as -> _ _ _ _.
    exists s2. unfold Models.CycleGAN_map_to_source.
    rewrite (bind_run_ok _ _ _ _ _ Hset), (bind_run_ok _ _ _ _ _ Hpre).
    split; [done|].
    destruct (call_inv _ _ _ _ _ _ _ Hpre) as [_ H1].
    destruct (call_inv _ _ _ _ _ _ _ Hgen) as [_ H2].
    rewrite H2, H1. by apply (Hphase s).
Qed.

End ComposedFacts.

Lemma DomainAdaptationModel_call_stops_at_failure_witness :
  match Example.resnet_model with
  | Some m =>
      let x := @Tensor Example.Z_Float32 [1] [1] in
      let run := @Models.DomainAdaptationModel_call _ (Example.Fragile 8)
                   m x true (Some true) []
                   (@Models.Build_KState _ (Example.Fragile 8) 0 []) in
      fst run = Raise (InvalidArgumentError "incompatible input") /\
      Models.learning_phase (snd run) = 1 /\
      map Example.ev_uid (Models.world (snd run))
      = [Models.layer_uid (Models.feature_extractor m);
         Models.layer_uid (Models.domain_classifier m)]
  | None => False
  end.
Proof.
  unfold Example.resnet_model. cbv beta iota zeta.
  match goal with
  | |- context [Models.DomainAdaptationModel_call ?m ?x _ _ _ ?s0] =>
      eassert (H : _)
        by (eapply (@DomainAdaptationModel_call_stops_at_failure
                      _ (Example.Fragile 8) m x true (Some true) [] s0);
            right; eexists _, _; split; [reflexivity | left; reflexivity])
  end.
  rewrite H. repeat split; reflexivity.
Defined.

Lemma map_to_is_test_mode_translation_witness :
  let m := Example.tiny_gan in
  let T (v : Z) := @Tensor Example.Z_Float32 [1] [v] in
  let to_target := @Models.CycleGAN_map_to_target _ Example.Tracing m (T 1) (Example.idle 1) in
  let to_source := @Models.CycleGAN_map_to_source _ Example.Tracing m (T 1) (Example.idle 1) in
  (fst to_target = Ok (T 151) /\ Models.learning_phase (snd to_target) = 0) /\
  (fst to_source = Ok (T 162) /\ Models.learning_phase (snd to_source) = 0).
Proof.
  intros m T to_target to_source.
  assert (Htarget :
            @Models.CycleGAN_call _ Example.Tracing m (T 1) "target" (Some false) []
              (Example.idle 1)
            = (Ok (T 151, T 15162, T 153, T 15164),
               snd (@Models.CycleGAN_call _ Example.Tracing m (T 1) "target"
                      (Some false) [] (Example.idle 1))))
    by reflexivity.
  assert (Hsource :
            @Models.CycleGAN_call _ Example.Tracing m (T 1) "source" (Some false) []
              (Example.idle 1)
            = (Ok (T 162, T 16251, T 164, T 16253),
               snd (@Models.CycleGAN_call _ Example.Tracing m (T 1) "source"
                      (Some false) [] (Example.idle 1))))
    by reflexivity.
  destruct (@map_to_is_test_mode_translation _ Example.Tracing m) as [Hto_target Hto_source].
  destruct (Hto_target (T 1) (Example.idle 1) _ _ _ _ _ Htarget) as (s1 & H1 & P1).
  destruct (Hto_source (T 1) (Example.idle 1) _ _ _ _ _ Hsource) as (s2 & H2 & P2).
  unfold to_target, to_source. rewrite H1, H2. by repeat split.
Defined.

(** ** What the constructors build *)

Section BuiltFacts.
Context `{F : Float32}.
Context (FLAGS : Flags).

Lemma init_unknown_name (num_classes : Z) (model_name : string) (global_step : TfVariable)
    (num_steps : Z) (use_grl : bool) (n : nat) :
  model_name ∉ Models.names ->
  Models.DomainAdaptationModel_init FLAGS num_classes model_name
    global_step num_steps use_grl n
  = (Raise (NotImplementedError ("Model name: " +:+ model_name)), S n).
Proof.
  intros Hin. pose proof (not_in_names_eqb _ Hin) as Hall.
  unfold Models.names, Models.models in Hall.
  repeat (apply Forall_cons in Hall as [? Hall]).
  unfold Models.DomainAdaptationModel_init, bind, Models.fresh, raise.
  repeat match goal with H : String.eqb _ _ = false |- _ => rewrite H; clear H end.
  reflexivity.
Qed.

Lemma consecutive_fresh (uids : list nat) (n n' : nat) :
  uids = seq n (length uids) -> n' = (length uids + n)%nat ->
  NoDup uids /\ forall u, u ∈ uids -> (n <= u < n')%nat.
Proof.
  intros -> ->. split; [apply NoDup_seq|].
  intros u Hu. apply elem_of_seq in Hu. rewrite length_seq in *. lia.
Qed.

(** Case analysis on a successful construction: one case per catalog
    name, each with the constructed model computed. *)
Ltac by_catalog_name Hinit :=
  match type of Hinit with
  | Models.DomainAdaptationModel_init _ _ ?name _ _ _ _ = _ =>
      destruct (decide (name ∈ Models.names)) as [Hin|Hin];
      [ unfold Models.names, Models.models in Hin;
        repeat (apply elem_of_cons in Hin as [->|Hin]);
        [ .. | by apply elem_of_nil in Hin ];
        lazy in Hinit; injection Hinit as <- <-
      | by rewrite (init_unknown_name _ _ _ _ _ _ Hin) in Hinit ]
  end.

(** X3: in a constructed domain-adaptation model all layer objects,
    the model included, have distinct identities, all drawn during the
    construction; in particular the target classifier shares no layer with
    the task classifier, while having the same architecture. *)
Theorem DomainAdaptationModel_init_fresh_layers
    (num_classes : Z) (model_name : string) (global_step : TfVariable)
    (num_steps : Z) (use_grl : bool) (n n' : nat) (m : Models.DomainAdaptationModel)
    (Hinit : Models.DomainAdaptationModel_init FLAGS num_classes model_name
               global_step num_steps use_grl n = (Ok m, n')) :
  NoDup (Spec.model_uids m) /\
  (forall u, u ∈ Spec.model_uids m -> (n <= u < n')%nat) /\
  Spec.architecture_of (Models.target_classifier m)
  = Spec.architecture_of (Models.task_classifier m).
Proof.
  enough (Spec.model_uids m = seq n (length (Spec.model_uids m)) /\
          n' = (length (Spec.model_uids m) + n)%nat /\
          Spec.architecture_of (Models.target_classifier m)
          = Spec.architecture_of (Models.task_classifier m))
    as (Hseq & Hn' & Harch).
  { destruct (consecutive_fresh _ _ _ Hseq Hn') as [Hnd Hrange].
    exact (conj Hnd (conj Hrange Harch)). }
  by_catalog_name Hinit; (split; [reflexivity|]); split; reflexivity.
Qed.

(** X4: in every constructed model the gradient-reversal layer occurs
    exactly once, as the first layer of the domain classifier, on the given
    global step and with the DANN schedule when [use_grl] is set and the
    disabling schedule otherwise; the domain classifier ends in a single
    linear unit, and the task and target classifiers end in a softmax over
    [num_classes]. *)
Theorem DomainAdaptationModel_init_layout
    (num_classes : Z) (model_name : string) (global_step : TfVariable)
    (num_steps : Z) (use_grl : bool) (n n' : nat) (m : Models.DomainAdaptationModel)
    (Hinit : Models.DomainAdaptationModel_init FLAGS num_classes model_name
               global_step num_steps use_grl n = (Ok m, n')) :
  (exists rest,
      Spec.leaves (Models.domain_classifier m)
      = Models.FlipGradientLayer
          {| Models.global_step := global_step;
             Models.grl_schedule :=
               if use_grl then Models.DannGrlSchedule num_steps
               else Models.DisableGrlSchedule |} :: rest /\
      existsb Spec.is_flip_gradient rest = false /\
      last rest = Some (Models.Dense 1 None None)) /\
  existsb Spec.is_flip_gradient
    (Spec.leaves (Models.feature_extractor m) ++ Spec.leaves (Models.task_classifier m)
     ++ Spec.leaves (Models.target_classifier m)) = false /\
  Spec.softmax_output num_classes (Spec.leaves (Models.task_classifier m)) /\
  Spec.softmax_output num_classes (Spec.leaves (Models.target_classifier m)).
Proof.
  by_catalog_name Hinit;
    (split; [eexists; split; [reflexivity|]; split; reflexivity|]);
    (split; [reflexivity|]); split; lazy; by split.
Qed.

(** X5: a constructed mapping model was given equal source and target
    shapes; its layer objects all have distinct identities, so the two
    generators and the two discriminators share nothing, while each pair
    has one architecture; each generator ends by reshaping, to the shape, a
    linear layer with the number of units that numpy's product of the
    shape gave; and each discriminator ends in a single linear unit. *)
Theorem CycleGAN_init_layout `{N : Models.Numpy}
    (source_x_shape target_x_shape : list Z) (n n' : nat) (m : Models.CycleGAN)
    (Hinit : Models.CycleGAN_init FLAGS source_x_shape target_x_shape n = (Ok m, n')) :
  target_x_shape = source_x_shape /\
  NoDup (Spec.gan_uids m) /\
  (forall u, u ∈ Spec.gan_uids m -> (n <= u < n')%nat) /\
  Spec.architecture_of (Models.source_to_target m)
  = Spec.architecture_of (Models.target_to_source m) /\
  Spec.architecture_of (Models.source_discriminator m)
  = Spec.architecture_of (Models.target_discriminator m) /\
  (exists units front,
      Models.np_prod target_x_shape = Ok units /\
      reverse (Spec.leaves (Models.source_to_target m))
      = Models.Reshape target_x_shape
        :: Models.Dense units None (Some true) :: front) /\
  last (Spec.leaves (Models.source_discriminator m)) = Some (Models.Dense 1 None None) /\
  last (Spec.leaves (Models.target_discriminator m)) = Some (Models.Dense 1 None None).
Proof.
  revert Hinit. unfold Models.CycleGAN_init. unfold bind at 1. cbn [Models.fresh].
  unfold bind at 1.
  case_bool_decide as Heq; cbn [assert_ ret raise]; [|done]. subst target_x_shape.
  destruct N as [prod]. cbn [Models.np_prod]. intros Hinit. lazy in Hinit.
  destruct (prod source_x_shape) as [units|e]; [|done].
  injection Hinit as <- <-.
  split; [done|].
  match goal with
  | |- NoDup ?uids /\ _ /\ ?rest =>
      enough (uids = seq n (length uids) /\ S (S (S n)) = S (S (S n)) /\ rest)
        as (Hseq & _ & Hrest)
  end.
  - match type of Hseq with
    | ?uids = _ =>
        destruct (consecutive_fresh uids n (length uids + n) Hseq eq_refl) as [Hnd Hrange]
    end.
    split; [exact Hnd|]. split; [exact Hrange | exact Hrest].
  - split; [reflexivity|]. split; [reflexivity|].
    split; [reflexivity|]. split; [reflexivity|].
    split; [eexists _, _; split; reflexivity|]. split; reflexivity.
Qed.

End BuiltFacts.

Lemma DomainAdaptationModel_init_fresh_layers_witness :
  match Example.resnet_model with
  | Some m =>
      Models.DomainAdaptationModel_init (F := Example.Z_Float32) default_flags
        3 "resnet50" Example.step_counter 100 false 0%nat = (Ok m, 12%nat) /\
      NoDup (Spec.model_uids m) /\
      Spec.architecture_of (Models.target_classifier m)
      = Spec.architecture_of (Models.task_classifier m)
  | None => False
  end.
Proof.
  unfold Example.resnet_model.
  match goal with
  | |- ?init = (Ok ?m, ?n') /\ _ =>
      assert (Hinit : init = (Ok m, n')) by reflexivity;
      destruct (@DomainAdaptationModel_init_fresh_layers Example.Z_Float32 default_flags
                  3 "resnet50" Example.step_counter 100 false 0%nat n' m Hinit)
        as (Hnd & _ & Harch)
  end.
  exact (conj Hinit (conj Hnd Harch)).
Defined.

Lemma DomainAdaptationModel_init_layout_witness :
  match Example.resnet_model with
  | Some m =>
      Models.DomainAdaptationModel_init (F := Example.Z_Float32) default_flags
        3 "resnet50" Example.step_counter 100 false 0%nat = (Ok m, 12%nat) /\
      Spec.softmax_output 3 (Spec.leaves (Models.task_classifier m)) /\
      existsb Spec.is_flip_gradient
        (Spec.leaves (Models.feature_extractor m) ++ Spec.leaves (Models.task_classifier m)
         ++ Spec.leaves (Models.target_classifier m)) = false
  | None => False
  end.
Proof.
  unfold Example.resnet_model.
  match goal with
  | |- ?init = (Ok ?m, ?n') /\ _ =>
      assert (Hinit : init = (Ok m, n')) by reflexivity;
      destruct (@DomainAdaptationModel_init_layout Example.Z_Float32 default_flags
                  3 "resnet50" Example.step_counter 100 false 0%nat n' m Hinit)
        as (_ & Hnone & Hsoft & _)
  end.
  exact (conj Hinit (conj Hsoft Hnone)).
Defined.

Lemma CycleGAN_init_layout_witness :
  match Models.CycleGAN_init (F := Example.Z_Float32) (N := Example.Z_Numpy)
          default_flags [2; 3] [2; 3] 0%nat with
  | (Ok m, n') =>
      NoDup (Spec.gan_uids m) /\
      Spec.architecture_of (Models.source_discriminator m)
      = Spec.architecture_of (Models.target_discriminator m) /\
      hd_error (tl (reverse (Spec.leaves (Models.source_to_target m))))
      = Some (Models.Dense 6 None (Some true))
  | (Raise _, _) => False
  end.
Proof.
  destruct (Models.CycleGAN_init (F := Example.Z_Float32) (N := Example.Z_Numpy)
              default_flags [2; 3] [2; 3] 0%nat)
    as [[m|e] n'] eqn:Hinit.
  - destruct (@CycleGAN_init_layout Example.Z_Float32 default_flags Example.Z_Numpy
                [2; 3] [2; 3] 0%nat n' m Hinit)
      as (_ & Hnd & _ & _ & Harch & (units & front & Hunits & Hlast) & _).
    split; [exact Hnd|]. split; [exact Harch|].
    rewrite Hlast. injection Hunits as <-. reflexivity.
  - pose proof (@CycleGAN_init_runs Example.Z_Float32 Example.Z_Numpy
                  default_flags [2; 3] [2; 3] 0%nat)
      as Hruns.
    rewrite bool_decide_eq_true_2 in Hruns by reflexivity.
    destruct Hruns as (m & n0 & Hok). rewrite Hok in Hinit. discriminate Hinit.
Defined.

(** A product that does not fit 64 bits wraps: two dimensions of [2^32]
    give the generators a last linear layer of 0 units. *)
Example generator_units_wrap :
  match Models.CycleGAN_init (F := Example.Z_Float32) (N := Example.Z_Numpy)
          default_flags [2 ^ 32; 2 ^ 32] [2 ^ 32; 2 ^ 32] 0%nat with
  | (Ok m, _) =>
      hd_error (tl (reverse (Spec.leaves (Models.source_to_target m))))
      = Some (Models.Dense 0 None (Some true))
  | (Raise _, _) => False
  end.
Proof. reflexivity. Qed.

(** ** The disabled schedule and the masked loss on uneven batches *)

Section ScheduleFacts.
Context `{F : Float32}.

(** X6: with the disabling schedule (the one a model gets unless
    [use_grl] is set) the gradient-reversal layer is the identity in both
    directions: it returns its input and hands an upstream gradient back
    unchanged, whatever the global step. *)
Theorem disabled_schedule_passes_gradients
    (Hone : forall a, f32_mul a f32_one = a)
    (Hminus : forall a, f32_mul (f32_neg a) (f32_of_float (-1.0)%float) = a)
    (global_step : TfVariable) (vars : VarStore) (x dy : tensor)
    (Hx : tensor_wf x) (Hdy : tensor_wf dy) (Hshape : shape dy = shape x) :
  let layer := {| Models.global_step := global_step;
                  Models.grl_schedule := Models.DisableGrlSchedule |} in
  exists grad,
    Models.FlipGradient_call layer vars x = Ok (x, grad) /\
    grad dy = Ok dy.
Proof.
  intros layer. eexists. split; [reflexivity|]. cbv beta.
  rewrite tf_multiply_scalar_r by (by apply tf_negative_wf).
  cbn [rbind tf_negative shape data]. unfold tf_multiply.
  cbn [shape data tf_ones_like]. rewrite Hshape.
  destruct (decide (shape x = shape x)) as [_|Hne]; [|done].
  rewrite zip_with_mul_ones; [| done |].
  - rewrite map_map. rewrite (map_ext _ id) by (intros a; apply Hminus).
    rewrite map_id, <- Hshape. by destruct dy.
  - rewrite !length_map. by apply tensor_wf_length.
Qed.

End ScheduleFacts.

Lemma disabled_schedule_passes_gradients_witness :
  let x := @Tensor Example.Z_Float32 [2] [3; 4] in
  let dy := @Tensor Example.Z_Float32 [2] [5; 7] in
  let layer := {| Models.global_step := Example.step_counter;
                  Models.grl_schedule := @Models.DisableGrlSchedule Example.Z_Float32 |} in
  (tensor_wf x /\ tensor_wf dy) /\
  exists grad,
    Models.FlipGradient_call layer (fun _ => 41) x = Ok (x, grad) /\
    grad dy = Ok dy.
Proof.
  intros x dy layer.
  assert (Hx : tensor_wf x) by (split; [repeat constructor; lia | reflexivity]).
  assert (Hdy : tensor_wf dy) by (split; [repeat constructor; lia | reflexivity]).
  split; [exact (conj Hx Hdy)|].
  refine (@disabled_schedule_passes_gradients Example.Z_Float32
            Z.mul_1_r _ Example.step_counter (fun _ => 41) x dy Hx Hdy eq_refl).
  intros a. change (- a * -1 = a). lia.
Defined.

Section MaskedLossFacts.
Context `{K : Models.KerasRuntime}.
Context `{L : !Models.Losses}.

Lemma slice_extent_too_many (d n : Z) :
  0 <= d -> d < n -> slice_extent d 0 n = None.
Proof.
  intros Hd Hn. unfold slice_extent.
  destruct (n =? -1) eqn:E; [lia|]. cbn.
  destruct (0 <=? n); [|done]. by destruct (0 + n <=? d) eqn:E2; [lia|].
Qed.

(** X7: when masking, the number of rows kept is half the batch size of
    [y_pred] alone: a [y_true] with at least that many rows is cut to them
    like [y_pred], and a [y_true] with fewer rows makes the loss raise
    [InvalidArgumentError] instead of returning a value. *)
Theorem task_loss_uneven_batch
    (y_true y_pred : tensor) (training : option bool) (s : Models.KState)
    (n m classes_true classes_pred : Z)
    (Htrue_wf : tensor_wf y_true) (Hpred_wf : tensor_wf y_pred)
    (Htrue : shape y_true = [m; classes_true])
    (Hpred : shape y_pred = [n; classes_pred])
    (Hactive : Spec.training_active training (Models.learning_phase s) = true) :
  if n / 2 <=? m then
    Models.make_task_loss true y_true y_pred training s
    = (Models.CategoricalCrossentropy
         (Spec.first_rows (n / 2) y_true) (Spec.first_rows (n / 2) y_pred) None, s)
  else
    exists msg,
      Models.make_task_loss true y_true y_pred training s
      = (Raise (InvalidArgumentError msg), s).
Proof.
  destruct (tensor_wf_rank2 _ _ _ Htrue_wf Htrue) as (Hm & Hct & _).
  destruct (tensor_wf_rank2 _ _ _ Hpred_wf Hpred) as (Hn & Hcp & _).
  assert (Hhalf : 0 <= n / 2 <= n).
  { split; [apply Z.div_pos; lia | apply Z.div_le_upper_bound; lia]. }
  assert (Hrun :
            Models.make_task_loss true y_true y_pred training s
            = (let? y_pred' := tf_slice y_pred (0, 0) (n / 2, -1) in
               let? y_true' := tf_slice y_true (0, 0) (n / 2, -1) in
               Models.CategoricalCrossentropy y_true' y_pred' None, s)).
  { unfold Models.make_task_loss, Spec.training_active, bind in *.
    destruct training as [t|]; cbn in *; rewrite Hactive; cbn;
      unfold lift, bind, shape_at; rewrite Hpred; cbn;
      destruct (tf_slice y_pred (0, 0) (n / 2, -1)); cbn; [|done| |done];
      by destruct (tf_slice y_true (0, 0) (n / 2, -1)). }
  rewrite Hrun. rewrite (tf_slice_first_rows y_pred n classes_pred) by done.
  cbn [rbind]. destruct (n / 2 <=? m) eqn:E.
  - by rewrite (tf_slice_first_rows y_true m classes_true) by (try done; lia).
  - unfold tf_slice. rewrite Htrue. cbn [fst snd].
    rewrite slice_extent_too_many by lia. by eexists.
Qed.

End MaskedLossFacts.

Lemma task_loss_uneven_batch_witness :
  let y_true := @Tensor Example.Z_Float32 [1; 2] [1; 0] in
  let y_pred := @Tensor Example.Z_Float32 [4; 2] [3; 5; 7; 9; 2; 4; 6; 8] in
  (tensor_wf y_true /\ tensor_wf y_pred) /\
  exists msg,
    @Models.make_task_loss _ Example.Tracing Example.Z_Losses true y_true y_pred
      (Some true) (Example.idle 0)
    = (Raise (InvalidArgumentError msg), Example.idle 0).
Proof.
  intros y_true y_pred.
  assert (Ht : tensor_wf y_true) by (split; [repeat constructor; lia | reflexivity]).
  assert (Hp : tensor_wf y_pred) by (split; [repeat constructor; lia | reflexivity]).
  split; [exact (conj Ht Hp)|].
  exact (@task_loss_uneven_batch _ Example.Tracing Example.Z_Losses
           y_true y_pred (Some true) (Example.idle 0) 4 1 2 2 Ht Hp eq_refl eq_refl eq_refl).
Defined.

(** ** Dataset objects and their pipelines *)

Section PipelineFacts.
Context `{IO : TfIO}.
Context (FLAGS : Flags) (PKG : DatasetsPackage).

Lemma traces_iff :
  is_ok (LoadDatasets._parse_example_function FLAGS) = true <-> Spec.traces FLAGS.
Proof.
  split.
  - destruct (LoadDatasets._parse_example_function FLAGS) as [f|e] eqn:Hf; [|done].
    intros _. destruct (parse_example_function_inv _ _ Hf) as (trim & subset & Ht & Hs & _).
    split.
    + destruct (trim_time_steps FLAGS =? 0) eqn:E; [left; lia|].
      right. destruct Ht as (t & -> & _). reflexivity.
    + destruct (feature_subset FLAGS =? 0) eqn:E; [left; lia|].
      right. destruct Hs as (t & -> & _). reflexivity.
  - intros [Ht Hs]. by destruct (parse_example_function_traces FLAGS Ht Hs) as [f ->].
Qed.

(** [load_tfrecords] returns exactly when its pipeline can be built. *)
Lemma load_tfrecords_builds (self : LoadDatasets.DatasetParams) (filenames : list string)
    (batch_size : Z) (count evaluation : bool) :
  is_ok (LoadDatasets.load_tfrecords FLAGS self filenames batch_size count evaluation) = true
  <-> Spec.pipeline_builds FLAGS self filenames batch_size count evaluation.
Proof.
  destruct filenames as [|fn fns]; [split; [by left | done]|].
  unfold Spec.pipeline_builds, Spec.stage_calls, LoadDatasets.load_tfrecords,
    LoadDatasets.stage.
  rewrite <- traces_iff. cbn [length Nat.eqb].
  destruct count, evaluation,
    (LoadDatasets.ds_eval_max_examples self =? 0),
    (LoadDatasets.ds_prefetch_buffer self =? 0),
    (LoadDatasets.ds_tune_num_parallel_calls self); cbn [andb negb app];
    (split;
     [ intros H; right;
       repeat match type of H with
       | context [tfdata_call ?c] =>
           let E := fresh "Hcall" in
           destruct (tfdata_call c) as [[]|?] eqn:E; cbn [rbind] in H; [|done]
       | context [LoadDatasets._parse_example_function ?fl] =>
           let E := fresh "Htraced" in
           destruct (LoadDatasets._parse_example_function fl) as [?|?] eqn:E;
             cbn [rbind] in H; [|done]
       end;
       split; [done | by repeat constructor]
     | intros [Hnil|[Htraced Hall]]; [done|];
       repeat (apply Forall_cons in Hall as [? Hall]); unfold Spec.accepted in *;
       repeat match goal with
       | Hc : tfdata_call ?c = Ok tt |- _ => rewrite Hc; clear Hc
       end;
       cbn [rbind];
       by destruct (LoadDatasets._parse_example_function FLAGS) ]).
Qed.

(** The settings a constructed [Dataset] holds. *)
Lemma Dataset_init_params (num_classes : Z) (class_labels : list string) (num_domains : Z)
    (train_filenames test_filenames : list string) (invert_name : option string)
    (args : LoadDatasets.DatasetArgs) (d : LoadDatasets.Dataset) :
  LoadDatasets.Dataset_init FLAGS PKG num_classes class_labels num_domains
    train_filenames test_filenames invert_name args = Ok d ->
  LoadDatasets.params d
  = Spec.params_of FLAGS num_classes class_labels num_domains invert_name args /\
  LoadDatasets.num_domains (LoadDatasets.params d) = num_domains /\
  LoadDatasets.invert_name (LoadDatasets.params d) = invert_name /\
  Spec.consistent PKG num_classes class_labels invert_name.
Proof.
  unfold LoadDatasets.Dataset_init, Spec.consistent.
  destruct (num_classes =? Z.of_nat (length class_labels)) eqn:E; cbn [negb]; [|done].
  apply Z.eqb_eq in E.
  assert (Hrest : forall self,
             (let? datasets := LoadDatasets.load_dataset FLAGS self train_filenames
                                 test_filenames in
              let '(train, train_evaluation, test_evaluation) := datasets in
              Ok {| LoadDatasets.params := self; LoadDatasets.train := train;
                    LoadDatasets.train_evaluation := train_evaluation;
                    LoadDatasets.test_evaluation := test_evaluation |}) = Ok d ->
             LoadDatasets.params d = self).
  { intros self. destruct (LoadDatasets.load_dataset _ _ _ _) as [[[tr ev] te]|e];
      cbn [rbind]; [|done]. by intros [= <-]. }
  destruct invert_name as [name|].
  - case_bool_decide as Hs; cbn [negb rbind]; [|done].
    case_bool_decide as Ht; cbn [negb rbind]; [|done].
    cbv zeta. intros Hd. apply Hrest in Hd. rewrite Hd. by repeat split.
  - cbn [rbind]. cbv zeta. intros Hd. apply Hrest in Hd. rewrite Hd. by repeat split.
Qed.

(** The constructor returns exactly when its arguments pass the sanity
    checks and the three pipelines can be built. *)
Lemma Dataset_init_ok_iff (num_classes : Z) (class_labels : list string)
    (num_domains : Z) (train_filenames test_filenames : list string)
    (invert_name : option string) (args : LoadDatasets.DatasetArgs) :
  is_ok (LoadDatasets.Dataset_init FLAGS PKG num_classes class_labels num_domains
           train_filenames test_filenames invert_name args) = true
  <-> Spec.consistent PKG num_classes class_labels invert_name /\
      Spec.pipelines_build FLAGS
        (Spec.params_of FLAGS num_classes class_labels num_domains invert_name args)
        train_filenames test_filenames.
Proof.
  unfold Spec.pipelines_build. rewrite <- !load_tfrecords_builds.
  set (self := Spec.params_of FLAGS num_classes class_labels num_domains invert_name args).
  assert (Hrest :
            is_ok (let? datasets := LoadDatasets.load_dataset FLAGS self train_filenames
                                      test_filenames in
                   let '(train, train_evaluation, test_evaluation) := datasets in
                   Ok {| LoadDatasets.params := self; LoadDatasets.train := train;
                         LoadDatasets.train_evaluation := train_evaluation;
                         LoadDatasets.test_evaluation := test_evaluation |}) = true
            <-> is_ok (LoadDatasets.load_tfrecords FLAGS self train_filenames
                         (LoadDatasets.ds_train_batch self) false false) = true /\
                is_ok (LoadDatasets.load_tfrecords FLAGS self train_filenames
                         (LoadDatasets.ds_eval_batch self) false true) = true /\
                is_ok (LoadDatasets.load_tfrecords FLAGS self test_filenames
                         (LoadDatasets.ds_eval_batch self) false true) = true).
  { unfold LoadDatasets.load_dataset.
    destruct (LoadDatasets.load_tfrecords FLAGS self train_filenames
                (LoadDatasets.ds_train_batch self) false false) as [tr|e];
      cbn [rbind is_ok]; [|by split; [|intros (? & _)]].
    destruct (LoadDatasets.load_tfrecords FLAGS self train_filenames
                (LoadDatasets.ds_eval_batch self) false true) as [ev|e];
      cbn [rbind is_ok]; [|by split; [|intros (_ & ? & _)]].
    destruct (LoadDatasets.load_tfrecords FLAGS self test_filenames
                (LoadDatasets.ds_eval_batch self) false true) as [te|e];
      cbn [rbind is_ok]; [done | by split; [|intros (_ & _ & ?)]]. }
  unfold LoadDatasets.Dataset_init, Spec.consistent.
  destruct (num_classes =? Z.of_nat (length class_labels)) eqn:E; cbn [negb].
  - apply Z.eqb_eq in E. destruct invert_name as [name|].
    + case_bool_decide as Hs; cbn [negb rbind].
      * case_bool_decide as Ht; cbn [negb rbind].
        -- cbv zeta. change (LoadDatasets.Build_DatasetParams _ _ _ _ _ _ _ _ _ _ _)
             with self.
           rewrite Hrest. by intuition.
        -- split; [done | by intros [(_ & _ & ?) _]].
      * split; [done | by intros [(_ & ? & _) _]].
    + cbn [rbind]. cbv zeta.
      change (LoadDatasets.Build_DatasetParams _ _ _ _ _ _ _ _ _ _ _) with self.
      rewrite Hrest. by intuition.
  - apply Z.eqb_neq in E. split; [done | by intros [[? _] _]].
Qed.

(** X8: constructing a [Dataset] succeeds exactly when [num_classes] is
    the number of class labels, a given [invert_name] is a key of both
    inversion maps, and each of its three pipelines can be built (it has no
    files, or the parse function can be traced and [tf.data] accepts every
    stage call); when one of the two sanity checks fails the constructor
    raises [AssertionError], whatever the pipelines. *)
Theorem Dataset_init_checks
    (num_classes : Z) (class_labels : list string) (num_domains : Z)
    (train_filenames test_filenames : list string) (invert_name : option string)
    (args : LoadDatasets.DatasetArgs) :
  (is_ok (LoadDatasets.Dataset_init FLAGS PKG num_classes class_labels num_domains
            train_filenames test_filenames invert_name args) = true
   <-> Spec.consistent PKG num_classes class_labels invert_name /\
       Spec.pipelines_build FLAGS
         (Spec.params_of FLAGS num_classes class_labels num_domains invert_name args)
         train_filenames test_filenames) /\
  (~ Spec.consistent PKG num_classes class_labels invert_name ->
   exists msg,
     LoadDatasets.Dataset_init FLAGS PKG num_classes class_labels num_domains
       train_filenames test_filenames invert_name args = Raise (AssertionError msg)).
Proof.
  split; [apply Dataset_init_ok_iff|].
  unfold LoadDatasets.Dataset_init, Spec.consistent. intros Hbad.
  destruct (num_classes =? Z.of_nat (length class_labels)) eqn:E; cbn [negb];
    [|by eexists].
  apply Z.eqb_eq in E. destruct invert_name as [name|]; [|by destruct Hbad].
  case_bool_decide as Hs; cbn [negb rbind]; [|by eexists].
  case_bool_decide as Ht; cbn [negb rbind]; [|by eexists].
  by destruct Hbad.
Qed.

(** X9: a constructed [Dataset] has a training pipeline and a
    training-evaluation pipeline exactly when it was given training files,
    and a test-evaluation pipeline exactly when it was given test files;
    each pipeline reads exactly the files given. *)
Theorem Dataset_pipelines_read_given_files
    (num_classes : Z) (class_labels : list string) (num_domains : Z)
    (train_filenames test_filenames : list string) (invert_name : option string)
    (args : LoadDatasets.DatasetArgs) (d : LoadDatasets.Dataset)
    (Hinit : LoadDatasets.Dataset_init FLAGS PKG num_classes class_labels num_domains
               train_filenames test_filenames invert_name args = Ok d) :
  (LoadDatasets.train d = None <-> train_filenames = []) /\
  (LoadDatasets.train_evaluation d = None <-> train_filenames = []) /\
  (LoadDatasets.test_evaluation d = None <-> test_filenames = []) /\
  Spec.files_of (LoadDatasets.train d) = train_filenames /\
  Spec.files_of (LoadDatasets.train_evaluation d) = train_filenames /\
  Spec.files_of (LoadDatasets.test_evaluation d) = test_filenames.
Proof.
  destruct (Dataset_init_inv _ _ _ _ _ _ _ _ _ _ Hinit)
    as (_ & _ & _ & Htrain & Heval & Htest).
  apply load_tfrecords_ok in Htrain, Heval, Htest.
  destruct (LoadDatasets.train d) as [p1|], (LoadDatasets.train_evaluation d) as [p2|],
    (LoadDatasets.test_evaluation d) as [p3|]; cbn [Spec.files_of];
    repeat match goal with
    | H : _ <> [] /\ _ |- _ => destruct H as (? & ? & _)
    end; by repeat split.
Qed.

(** X10: in a constructed [Dataset] the training pipeline shuffles without
    a seed and repeats for ever, never truncated, in batches of the
    training batch size; the two evaluation pipelines never repeat, shuffle
    with the evaluation seed, are truncated to [eval_max_examples] when
    that is not 0, and use the evaluation batch size. *)
Theorem Dataset_pipelines_shape
    (num_classes : Z) (class_labels : list string) (num_domains : Z)
    (train_filenames test_filenames : list string) (invert_name : option string)
    (args : LoadDatasets.DatasetArgs) (d : LoadDatasets.Dataset)
    (Hinit : LoadDatasets.Dataset_init FLAGS PKG num_classes class_labels num_domains
               train_filenames test_filenames invert_name args = Ok d) :
  let P := LoadDatasets.params d in
  (forall p, LoadDatasets.train d = Some p ->
     Spec.repeats p = true /\
     Spec.shuffles p = [(LoadDatasets.ds_shuffle_buffer P, None)] /\
     Spec.takes p = [] /\
     Spec.batch_sizes p = [LoadDatasets.ds_train_batch P]) /\
  (forall p,
     LoadDatasets.train_evaluation d = Some p \/ LoadDatasets.test_evaluation d = Some p ->
     Spec.repeats p = false /\
     Spec.shuffles p
     = [(LoadDatasets.ds_shuffle_buffer P, Some (LoadDatasets.ds_eval_shuffle_seed P))] /\
     Spec.takes p
     = (if LoadDatasets.ds_eval_max_examples P =? 0 then []
        else [LoadDatasets.ds_eval_max_examples P]) /\
     Spec.batch_sizes p = [LoadDatasets.ds_eval_batch P]).
Proof.
  intros P. subst P.
  destruct (Dataset_init_inv _ _ _ _ _ _ _ _ _ _ Hinit)
    as (_ & _ & _ & Htrain & Heval & Htest).
  apply load_tfrecords_ok in Htrain, Heval, Htest.
  split.
  - intros p Hp. rewrite Hp in Htrain.
    destruct Htrain as (_ & _ & Hr & Hs & Ht & Hb & _). by repeat split.
  - intros p [Hp|Hp]; [rewrite Hp in Heval; destruct Heval as (_ & _ & Hr & Hs & Ht & Hb & _)
                      | rewrite Hp in Htest; destruct Htest as (_ & _ & Hr & Hs & Ht & Hb & _)];
      cbn [andb negb] in *; (split; [done|]); (split; [done|]); (split; [|done]);
      rewrite Ht;
      by destruct (LoadDatasets.ds_eval_max_examples (LoadDatasets.params d) =? 0).
Qed.

End PipelineFacts.

(** A training batch size of 0 is refused when the training pipeline is
    built, so the constructor raises with a training file at hand and
    returns with no files. *)
Lemma Dataset_init_checks_witness :
  let args :=
    {| LoadDatasets.arg_train_batch := Some 0; LoadDatasets.arg_eval_batch := None;
       LoadDatasets.arg_shuffle_buffer := None; LoadDatasets.arg_prefetch_buffer := None;
       LoadDatasets.arg_eval_shuffle_seed := None;
       LoadDatasets.arg_eval_max_examples := None;
       LoadDatasets.arg_tune_num_parallel_calls := None |} in
  let init train_filenames :=
    @LoadDatasets.Dataset_init _ Example.Z_TfIO default_flags Example.package
      3 Example.har_labels 2 train_filenames [] None args in
  (exists msg, init ["datasets/ucihar_1_train.tfrecord"] = Raise (InvalidArgumentError msg)) /\
  ~ Spec.pipelines_build (IO := Example.Z_TfIO) default_flags
      (Spec.params_of default_flags 3 Example.har_labels 2 None args)
      ["datasets/ucihar_1_train.tfrecord"] [] /\
  is_ok (init []) = true.
Proof.
  intros args init.
  split; [by eexists|]. split.
  - intros Hbuild.
    assert (Hok : is_ok (init ["datasets/ucihar_1_train.tfrecord"]) = true).
    { apply (@Dataset_init_checks _ Example.Z_TfIO default_flags Example.package
               3 Example.har_labels 2 ["datasets/ucihar_1_train.tfrecord"] [] None args).
      split; [by split | exact Hbuild]. }
    discriminate Hok.
  - apply (@Dataset_init_checks _ Example.Z_TfIO default_flags Example.package
             3 Example.har_labels 2 [] [] None args).
    split; [by split|]. repeat split; by left.
Defined.

Lemma Dataset_pipelines_read_given_files_witness :
  exists d,
    @LoadDatasets.Dataset_init _ Example.Z_TfIO default_flags Example.package
      3 Example.har_labels 2 ["datasets/ucihar_1_train.tfrecord"] [] None
      LoadDatasets.no_args = Ok d /\
    LoadDatasets.train d <> None /\
    LoadDatasets.test_evaluation d = None /\
    Spec.files_of (LoadDatasets.train_evaluation d) = ["datasets/ucihar_1_train.tfrecord"].
Proof.
  eexists. split; [reflexivity|].
  match goal with
  | |- LoadDatasets.train ?d <> None /\ _ =>
      destruct (@Dataset_pipelines_read_given_files _ Example.Z_TfIO default_flags
                  Example.package 3 Example.har_labels 2
                  ["datasets/ucihar_1_train.tfrecord"] [] None LoadDatasets.no_args d eq_refl)
        as (Htrain & _ & Htest & _ & Hfiles & _)
  end.
  split; [intros Hnone; by apply Htrain in Hnone|].
  split; [by apply Htest | exact Hfiles].
Defined.

Lemma Dataset_pipelines_shape_witness :
  exists d p,
    @LoadDatasets.Dataset_init _ Example.Z_TfIO default_flags Example.package
      3 Example.har_labels 2 ["datasets/ucihar_1_train.tfrecord"] [] None
      LoadDatasets.no_args = Ok d /\
    LoadDatasets.train d = Some p /\
    Spec.repeats p = true /\
    Spec.shuffles p = [(60000, None)] /\
    Spec.batch_sizes p = [128].
Proof.
  eexists _, _. split; [reflexivity|]. split; [reflexivity|].
  match goal with
  | |- Spec.repeats ?p = true /\ _ =>
      match type of p with
      | _ => idtac
      end;
      destruct (@Dataset_pipelines_shape _ Example.Z_TfIO default_flags
                  Example.package 3 Example.har_labels 2
                  ["datasets/ucihar_1_train.tfrecord"] [] None LoadDatasets.no_args
                  _ eq_refl) as [Htrain _];
      destruct (Htrain p eq_refl) as (Hr & Hs & _ & Hb)
  end.
  exact (conj Hr (conj Hs Hb)).
Defined.

(** ** Loading one dataset *)

Section LoadOneFacts.
Context `{IO : TfIO}.
Context (FLAGS : Flags) (PKG : DatasetsPackage).

(** X11: a loaded dataset takes its classes and labels from the catalog
    entry, its pipelines read exactly the split files that exist (training
    from the train file, joined by the validation file when loading the
    real test set; test evaluation from the test file then, from the
    validation file otherwise), and loading asks the file system about the
    train, valid and test paths, in that order, and nothing else. *)
Theorem load_reads_split_files
    (dataset_name : string) (num_domains : Z) (test : bool)
    (args : LoadDatasets.DatasetArgs) (fs fs' : LoadDatasets.FileSystem)
    (d : LoadDatasets.Dataset)
    (Hload : LoadDatasets.load FLAGS PKG dataset_name num_domains test args fs
             = (Ok d, fs')) :
  let files := Spec.split_files PKG fs dataset_name in
  (exists info,
      datasets_datasets PKG !! dataset_name = Some info /\
      LoadDatasets.num_classes (LoadDatasets.params d) = info_num_classes info /\
      LoadDatasets.class_labels (LoadDatasets.params d) = info_class_labels info /\
      LoadDatasets.invert_name (LoadDatasets.params d)
      = (if info_invertible info then Some dataset_name else None)) /\
  LoadDatasets.num_domains (LoadDatasets.params d) = num_domains /\
  Spec.files_of (LoadDatasets.train d)
  = (if test then files "train" ++ files "valid" else files "train") /\
  Spec.files_of (LoadDatasets.train_evaluation d)
  = (if test then files "train" ++ files "valid" else files "train") /\
  Spec.files_of (LoadDatasets.test_evaluation d)
  = (if test then files "test" else files "valid") /\
  LoadDatasets.probed fs'
  = LoadDatasets.probed fs
    ++ [Spec.split_path PKG dataset_name "train";
        Spec.split_path PKG dataset_name "valid";
        Spec.split_path PKG dataset_name "test"].
Proof.
  intros files.
  destruct (load_inv _ _ _ _ _ _ _ _ _ Hload) as (info & Hinfo & Hinit & Hprobed).
  destruct (Dataset_init_inv _ _ _ _ _ _ _ _ _ _ Hinit)
    as (_ & Hnc & Hcl & Htrain & Heval & Htest).
  destruct (Dataset_init_params _ _ _ _ _ _ _ _ _ _ Hinit) as (_ & Hnd & Hinv & _).
  apply files_of_load_tfrecords in Htrain, Heval, Htest.
  split; [by exists info|]. split; [done|].
  rewrite Htrain, Heval, Htest. by repeat split.
Qed.

(** X12: loading a name that is not in the catalog raises
    [AssertionError] naming it, before the file system is asked
    anything. *)
Theorem load_unknown_dataset
    (dataset_name : string) (num_domains : Z) (test : bool)
    (args : LoadDatasets.DatasetArgs) (fs : LoadDatasets.FileSystem)
    (Hunknown : datasets_datasets PKG !! dataset_name = None) :
  LoadDatasets.load FLAGS PKG dataset_name num_domains test args fs
  = (Raise (AssertionError (dataset_name +:+ " not a supported dataset, only "
                            +:+ datasets_repr PKG)), fs).
Proof.
  unfold LoadDatasets.load. rewrite Hunknown.
  rewrite bool_decide_eq_false_2 by (by intros [? ?]).
  by rewrite bind_assert_false.
Qed.

(** X13: loading succeeds for every catalog entry whose [num_classes] is
    the number of its class labels and which, when invertible, is a key of
    both inversion maps, whichever of its record files exist, provided
    that with the settings in force the pipelines can be built. *)
Theorem load_consistent_entry
    (dataset_name : string) (num_domains : Z) (test : bool)
    (args : LoadDatasets.DatasetArgs) (fs : LoadDatasets.FileSystem)
    (info : DatasetInfo)
    (Hentry : datasets_datasets PKG !! dataset_name = Some info)
    (Hclasses : info_num_classes info = Z.of_nat (length (info_class_labels info)))
    (Hinvertible :
       info_invertible info = true ->
       dataset_name ∈ inversions_map_to_source PKG /\
       dataset_name ∈ inversions_map_to_target PKG)
    (Hbuild :
       forall train_filenames test_filenames,
         Spec.pipelines_build FLAGS
           (Spec.params_of FLAGS (info_num_classes info) (info_class_labels info)
              num_domains (if info_invertible info then Some dataset_name else None) args)
           train_filenames test_filenames) :
  exists d fs', LoadDatasets.load FLAGS PKG dataset_name num_domains test args fs
                = (Ok d, fs').
Proof.
  assert (Hinit : forall tr te,
             exists d, LoadDatasets.Dataset_init FLAGS PKG (info_num_classes info)
                         (info_class_labels info) num_domains tr te
                         (if info_invertible info then Some dataset_name else None) args
                       = Ok d).
  { intros tr te.
    destruct (LoadDatasets.Dataset_init FLAGS PKG (info_num_classes info)
                (info_class_labels info) num_domains tr te
                (if info_invertible info then Some dataset_name else None) args)
      as [d|e] eqn:Hd; [by eexists|].
    assert (Hok : is_ok (LoadDatasets.Dataset_init FLAGS PKG (info_num_classes info)
                           (info_class_labels info) num_domains tr te
                           (if info_invertible info then Some dataset_name else None) args)
                  = true).
    { apply Dataset_init_ok_iff. split; [|apply Hbuild].
      split; [done|]. destruct (info_invertible info); [by apply Hinvertible | done]. }
    by rewrite Hd in Hok. }
  unfold LoadDatasets.load. rewrite Hentry.
  rewrite bool_decide_eq_true_2 by eauto. rewrite bind_assert_true.
  unfold bind at 1. cbn [ret].
  unfold bind at 1. rewrite _path_run.
  unfold bind at 1. rewrite _path_run.
  unfold bind at 1. rewrite _path_run.
  destruct test; cbn [negb]; unfold bind, lift, ret;
    match goal with
    | |- context [LoadDatasets.Dataset_init _ _ _ _ _ ?tr ?te _ _] =>
        destruct (Hinit tr te) as [d Hd]; rewrite Hd
    end; by eauto.
Qed.

End LoadOneFacts.

Lemma load_reads_split_files_witness :
  match @LoadDatasets.load _ Example.Z_TfIO default_flags Example.package
          "ucihar_1" 2 false LoadDatasets.no_args Example.disk with
  | (Ok d, fs') =>
      LoadDatasets.num_domains (LoadDatasets.params d) = 2 /\
      Spec.files_of (LoadDatasets.train d) = ["datasets/ucihar_1_train.tfrecord"] /\
      Spec.files_of (LoadDatasets.test_evaluation d) = []
  | (Raise _, _) => False
  end.
Proof.
  destruct (@LoadDatasets.load _ Example.Z_TfIO default_flags Example.package
              "ucihar_1" 2 false LoadDatasets.no_args Example.disk)
    as [[d|e] fs'] eqn:Hload.
  - destruct (@load_reads_split_files _ Example.Z_TfIO default_flags Example.package
                "ucihar_1" 2 false LoadDatasets.no_args Example.disk fs' d Hload)
      as (_ & Hnd & Htrain & _ & Htest & _).
    exact (conj Hnd (conj Htrain Htest)).
  - assert (Hok : is_ok (fst (@LoadDatasets.load _ Example.Z_TfIO default_flags
                                 Example.package "ucihar_1" 2 false
                                 LoadDatasets.no_args Example.disk)) = true)
      by (vm_compute; reflexivity).
    rewrite Hload in Hok. discriminate Hok.
Defined.

Lemma load_unknown_dataset_witness :
  @LoadDatasets.load _ Example.Z_TfIO default_flags Example.package
    "mnist" 2 false LoadDatasets.no_args Example.disk
  = (Raise (AssertionError "mnist not a supported dataset, only {...}"), Example.disk).
Proof.
  apply (@load_unknown_dataset _ Example.Z_TfIO default_flags Example.package
           "mnist" 2 false LoadDatasets.no_args Example.disk).
  vm_compute. reflexivity.
Defined.

(** With the default flags every pipeline of the sample package can be
    built, whatever the files. *)
Lemma default_pipelines_build (num_classes : Z) (class_labels : list string)
    (num_domains : Z) (invert_name : option string)
    (train_filenames test_filenames : list string) :
  Spec.pipelines_build (IO := Example.Z_TfIO) default_flags
    (Spec.params_of default_flags num_classes class_labels num_domains invert_name
       LoadDatasets.no_args)
    train_filenames test_filenames.
Proof.
  unfold Spec.pipelines_build, Spec.pipeline_builds.
  repeat split; right; (split; [split; left; reflexivity|]);
    cbn; repeat constructor.
Defined.

Lemma load_consistent_entry_witness :
  exists d fs',
    @LoadDatasets.load _ Example.Z_TfIO default_flags Example.package
      "ucihar_3" 2 true LoadDatasets.no_args Example.disk = (Ok d, fs').
Proof.
  apply (@load_consistent_entry _ Example.Z_TfIO default_flags Example.package
           "ucihar_3" 2 true LoadDatasets.no_args Example.disk Example.har_info).
  - vm_compute. reflexivity.
  - reflexivity.
  - discriminate.
  - intros train_filenames test_filenames. apply default_pipelines_build.
Defined.

(** ** Loading the source and target domains *)

Section LoadDomainsFacts.
Context `{IO : TfIO}.
Context (FLAGS : Flags) (PKG : DatasetsPackage).

Lemma for_each_ok_inv {S A B} (f : A -> St S B) (P : A -> B -> Prop) :
  (forall x s y s', f x s = (Ok y, s') -> P x y) ->
  forall xs s ys s', for_each f xs s = (Ok ys, s') -> Forall2 P xs ys.
Proof.
  intros Hf. induction xs as [|x xs IH]; cbn [for_each]; intros s ys s' Hrun.
  - injection Hrun as <- _. constructor.
  - apply bind_ok_inv in Hrun as (y & s1 & Hy & Hrun).
    apply bind_ok_inv in Hrun as (ys' & s2 & Hys & Hrun).
    injection Hrun as <- _. constructor; [by eapply Hf | by eapply IH].
Qed.

Lemma Forall2_left_only {A B} (Q : A -> Prop) (l : list A) (k : list B) :
  Forall2 (fun x _ => Q x) l k -> Forall Q l.
Proof. induction 1; by constructor. Qed.

Lemma assert_ok_inv {S} (cond : bool) (msg : result string) (s s' : S) (u : unit) :
  assert_ cond msg s = (Ok u, s') -> cond = true.
Proof.
  destruct cond; [done|]. unfold assert_. by destruct msg.
Qed.

(** What one successful [load] fixes about its dataset. *)
Lemma load_facts (dataset_name : string) (num_domains : Z) (test : bool)
    (args : LoadDatasets.DatasetArgs) (fs fs' : LoadDatasets.FileSystem)
    (d : LoadDatasets.Dataset) :
  LoadDatasets.load FLAGS PKG dataset_name num_domains test args fs = (Ok d, fs') ->
  LoadDatasets.num_domains (LoadDatasets.params d) = num_domains /\
  exists info,
    datasets_datasets PKG !! dataset_name = Some info /\
    LoadDatasets.num_classes (LoadDatasets.params d) = info_num_classes info /\
    LoadDatasets.class_labels (LoadDatasets.params d) = info_class_labels info.
Proof.
  intros Hload.
  destruct (load_inv _ _ _ _ _ _ _ _ _ Hload) as (info & Hinfo & Hinit & _).
  destruct (Dataset_init_inv _ _ _ _ _ _ _ _ _ _ Hinit) as (_ & Hnc & Hcl & _).
  destruct (Dataset_init_params _ _ _ _ _ _ _ _ _ _ Hinit) as (_ & Hnd & _).
  split; [done|]. by exists info.
Qed.

Lemma assert_ok_state {S} (cond : bool) (msg : result string) (s s' : S) (u : unit) :
  assert_ cond msg s = (Ok u, s') -> s' = s.
Proof.
  destruct cond; [by intros [= _ <-]|]. unfold assert_. by destruct msg.
Qed.

(** A loop that returns and whose body never changes the state leaves the
    state as it was. *)
Lemma for_each_state {S A B} (f : A -> St S B) :
  (forall x s y s', f x s = (Ok y, s') -> s' = s) ->
  forall xs s ys s', for_each f xs s = (Ok ys, s') -> s' = s.
Proof.
  intros Hf. induction xs as [|x xs IH]; cbn [for_each]; intros s ys s' Hrun.
  - by injection Hrun as _ <-.
  - apply bind_ok_inv in Hrun as (y & s1 & Hy & Hrun).
    apply bind_ok_inv in Hrun as (ys' & s2 & Hys & Hrun).
    injection Hrun as _ <-. apply Hf in Hy as ->. by apply IH in Hys.
Qed.

(** A loop of [load]s that returns has loaded the names in order. *)
Lemma for_each_load (num_domains : Z) (test : bool) (args : LoadDatasets.DatasetArgs)
    (names : list string) (fs fs' : LoadDatasets.FileSystem)
    (ds : list LoadDatasets.Dataset) :
  for_each (fun s => LoadDatasets.load FLAGS PKG s num_domains test args) names fs
  = (Ok ds, fs') ->
  Spec.loads_in_order FLAGS PKG num_domains test args names fs ds fs'.
Proof.
  revert fs ds. induction names as [|name names IH]; cbn [for_each]; intros fs ds Hrun.
  - by injection Hrun as <- <-.
  - apply bind_ok_inv in Hrun as (d & fs1 & Hd & Hrun).
    apply bind_ok_inv in Hrun as (ds' & fs2 & Hds & Hrun).
    injection Hrun as <- <-. exists fs1. split; [done|]. by apply IH.
Qed.

(** X14: when [load_da] returns, a target was given; every source and
    the target are valid names; the source datasets are what [load]
    returns for the comma-separated sources, loaded one after the other
    from the file system as it was, and the target dataset is what [load]
    returns for the target after them, leaving the file system as
    returned; every dataset was told the same number of domains, the
    number of sources plus one, and holds the classes of its catalog entry;
    and every source has as many classes as the target. *)
Theorem load_da_result
    (dataset sources : string) (target : option string) (test : bool)
    (args : LoadDatasets.DatasetArgs) (fs fs' : LoadDatasets.FileSystem)
    (source_datasets : list LoadDatasets.Dataset)
    (target_dataset : option LoadDatasets.Dataset)
    (Hrun : LoadDatasets.load_da FLAGS PKG dataset sources target test args fs
            = (Ok (source_datasets, target_dataset), fs')) :
  let source_names :=
    map (fun x => dataset +:+ "_" +:+ x) (LoadDatasets.split ","%char sources) in
  let num_domains := Z.of_nat (length source_names) + 1 in
  exists t td fs1,
    target = Some t /\ target_dataset = Some td /\
    (dataset +:+ "_" +:+ t) ∈ LoadDatasets.names PKG /\
    Forall (fun s => s ∈ LoadDatasets.names PKG) source_names /\
    Spec.loads_in_order FLAGS PKG num_domains test args source_names fs
      source_datasets fs1 /\
    LoadDatasets.load FLAGS PKG (dataset +:+ "_" +:+ t) num_domains test args fs1
    = (Ok td, fs') /\
    Forall2 (fun name d =>
               LoadDatasets.num_domains (LoadDatasets.params d) = num_domains /\
               exists info,
                 datasets_datasets PKG !! name = Some info /\
                 LoadDatasets.num_classes (LoadDatasets.params d) = info_num_classes info /\
                 LoadDatasets.class_labels (LoadDatasets.params d) = info_class_labels info)
      (source_names ++ [dataset +:+ "_" +:+ t]) (source_datasets ++ [td]) /\
    Forall (fun d => LoadDatasets.num_classes (LoadDatasets.params d)
                     = LoadDatasets.num_classes (LoadDatasets.params td))
      source_datasets.
Proof.
  intros source_names num_domains. revert Hrun.
  unfold LoadDatasets.load_da. cbv zeta. fold source_names.
  intros Hrun.
  apply bind_ok_inv in Hrun as (us & s1 & Hsources & Hrun).
  apply bind_ok_inv in Hrun as (u & s2 & Htarget & Hrun).
  pose proof Hsources as Hs1.
  apply for_each_state in Hs1; [|intros x s y s' Ha; by apply assert_ok_state in Ha].
  pose proof (assert_ok_state _ _ _ _ _ Htarget) as Hs2. subst s2 s1.
  apply assert_ok_inv in Htarget.
  destruct target as [t|]; [|done]. cbn [LoadDatasets.in_names] in Htarget.
  apply bool_decide_eq_true in Htarget.
  change (Z.of_nat (length source_names) + 1) with num_domains in Hrun.
  apply bind_ok_inv in Hrun as (srcs & s3 & Hloads & Hrun).
  apply bind_ok_inv in Hrun as (tgt & s4 & Hload_target & Hrun).
  injection Hrun as <- <- <-.
  apply bind_ok_inv in Hload_target as (td & s5 & Hload & Hchecks).
  apply bind_ok_inv in Hchecks as (us' & s6 & Hchecks & Hret).
  injection Hret as <- <-.
  assert (Hsame : s6 = s5).
  { pose proof Hchecks as Hs6.
    apply for_each_state in Hs6; [done|].
    intros [i d] s y s' Hassert. by apply assert_ok_state in Hassert. }
  subst s6.
  exists t, td, s3. split; [done|]. split; [done|]. split; [done|].
  split; [|split; [|split; [|split]]].
  - apply (for_each_ok_inv _ (fun s _ => s ∈ LoadDatasets.names PKG)) in Hsources.
    + by apply Forall2_left_only in Hsources.
    + intros x s y s' Hassert. apply assert_ok_inv in Hassert.
      by apply bool_decide_eq_true in Hassert.
  - by apply for_each_load.
  - done.
  - apply Forall2_app.
    + apply (for_each_ok_inv _ _ (fun x s y s' H => load_facts x _ _ _ s s' y H)) in Hloads.
      exact Hloads.
    + constructor; [|constructor]. exact (load_facts _ _ _ _ _ _ _ Hload).
  - apply (for_each_ok_inv _
             (fun (p : nat * LoadDatasets.Dataset) (_ : unit) =>
                LoadDatasets.num_classes (LoadDatasets.params p.2)
                = LoadDatasets.num_classes (LoadDatasets.params td))) in Hchecks.
    + apply Forall2_left_only in Hchecks.
      apply Forall_lookup. intros i d Hd.
      rewrite Forall_lookup in Hchecks.
      apply (Hchecks i (i, d)). by rewrite list_lookup_imap, Hd.
    + intros [i d] s y s' Hassert. apply assert_ok_inv in Hassert.
      by apply Z.eqb_eq in Hassert.
Qed.

(** X15: with a target given, [load_da] checks every name before it
    loads anything: if the target or any source is not a valid name it
    raises [AssertionError] and the file system has not been asked
    anything. *)
Theorem load_da_checks_names_first
    (dataset sources t : string) (test : bool) (args : LoadDatasets.DatasetArgs)
    (fs : LoadDatasets.FileSystem)
    (Hbad :
       (dataset +:+ "_" +:+ t) ∉ LoadDatasets.names PKG \/
       exists s, s ∈ map (fun x => dataset +:+ "_" +:+ x)
                       (LoadDatasets.split ","%char sources) /\
                 s ∉ LoadDatasets.names PKG) :
  exists msg,
    LoadDatasets.load_da FLAGS PKG dataset sources (Some t) test args fs
    = (Raise (AssertionError msg), fs).
Proof.
  unfold LoadDatasets.load_da. cbv zeta.
  destruct (check_sources_run (LoadDatasets.names PKG)
              (map (fun x => dataset +:+ "_" +:+ x) (LoadDatasets.split ","%char sources))
              fs) as [[us Hus]|(s & Hs & Hnot & Hraise)].
  - rewrite (bind_run_ok _ _ _ _ _ Hus).
    destruct Hbad as [Htarget|(s & Hs & Hnot)].
    + cbn [LoadDatasets.in_names LoadDatasets.str_concat].
      rewrite bool_decide_eq_false_2 by done.
      rewrite bind_assert_false. by eexists.
    + exfalso. apply Hnot.
      apply (for_each_ok_inv _ (fun s _ => s ∈ LoadDatasets.names PKG)) in Hus.
      * apply Forall2_left_only in Hus.
        rewrite Forall_forall in Hus. by apply Hus.
      * intros x s0 y s' Hassert. apply assert_ok_inv in Hassert.
        by apply bool_decide_eq_true in Hassert.
  - rewrite (bind_run_raise _ _ _ _ _ Hraise). by eexists.
Qed.

End LoadDomainsFacts.

Lemma load_da_result_witness :
  match @LoadDatasets.load_da _ Example.Z_TfIO default_flags Example.package
          "ucihar" "1,2" (Some "3") false LoadDatasets.no_args Example.disk with
  | (Ok (source_datasets, target_dataset), fs') =>
      length source_datasets = 2%nat /\
      exists td fs1,
        target_dataset = Some td /\
        @LoadDatasets.load _ Example.Z_TfIO default_flags Example.package
          "ucihar_3" 3 false LoadDatasets.no_args fs1 = (Ok td, fs') /\
        LoadDatasets.num_domains (LoadDatasets.params td) = 3
  | (Raise _, _) => False
  end.
Proof.
  destruct (@LoadDatasets.load_da _ Example.Z_TfIO default_flags Example.package
              "ucihar" "1,2" (Some "3") false LoadDatasets.no_args Example.disk)
    as [[[srcs tgt]|e] fs'] eqn:Hrun.
  - destruct (@load_da_result _ Example.Z_TfIO default_flags Example.package
                "ucihar" "1,2" (Some "3") false LoadDatasets.no_args Example.disk fs'
                srcs tgt Hrun)
      as (t & td & fs1 & Ht & -> & _ & _ & _ & Hload & Hall & _).
    injection Ht as <-.
    pose proof (Forall2_length _ _ _ Hall) as Hlen. rewrite !length_app in Hlen.
    cbn in Hlen. split; [lia|].
    exists td, fs1. split; [reflexivity|]. split; [exact Hload|].
    apply Forall2_app_inv_r in Hall as (names1 & names2 & _ & Hlast & _).
    inversion Hlast as [|? ? ? ? [Hnd _] _]; subst. exact Hnd.
  - assert (Hok : is_ok (fst (@LoadDatasets.load_da _ Example.Z_TfIO default_flags
                                 Example.package "ucihar" "1,2" (Some "3") false
                                 LoadDatasets.no_args Example.disk)) = true)
      by (vm_compute; reflexivity).
    rewrite Hrun in Hok. discriminate Hok.
Defined.

Lemma load_da_checks_names_first_witness :
  exists msg,
    @LoadDatasets.load_da _ Example.Z_TfIO default_flags Example.package
      "ucihar" "1,2" (Some "9") false LoadDatasets.no_args Example.disk
    = (Raise (AssertionError msg), Example.disk).
Proof.
  apply (@load_da_checks_names_first _ Example.Z_TfIO default_flags Example.package
           "ucihar" "1,2" "9" false LoadDatasets.no_args Example.disk).
  left. apply (bool_decide_unpack _). reflexivity.
Defined.

(** ** Label lookups at the edges *)

Section LabelFacts.
Context `{IO : TfIO}.

Lemma list_index_spec (x : string) (l : list string) :
  match LoadDatasets.list_index x l with
  | Some k => l !! k = Some x /\ forall j, (j < k)%nat -> l !! j <> Some x
  | None => x ∉ l
  end.
Proof.
  induction l as [|y l IH]; cbn [LoadDatasets.list_index]; [by apply not_elem_of_nil|].
  destruct (String.eqb y x) eqn:E.
  - apply String.eqb_eq in E as ->. split; [done | lia].
  - apply String.eqb_neq in E.
    destruct (LoadDatasets.list_index x l) as [k|]; cbn.
    + destruct IH as [Hk Hfirst]. split; [done|].
      intros [|j] Hj; cbn; [congruence | apply Hfirst; lia].
    + by apply not_elem_of_cons.
Qed.

(** X16: [label_to_int] returns the first position at which the label
    occurs among the class labels, a valid index, and raises [ValueError]
    exactly when the label does not occur, with the message of
    [list.index]: the [repr] of the label and [is not in list]. *)
Theorem label_to_int_first_position (d : LoadDatasets.Dataset) (label_name : string) :
  let labels := LoadDatasets.class_labels (LoadDatasets.params d) in
  match LoadDatasets.label_to_int d label_name with
  | Ok i =>
      0 <= i < Z.of_nat (length labels) /\
      labels !! Z.to_nat i = Some label_name /\
      forall j, (j < Z.to_nat i)%nat -> labels !! j <> Some label_name
  | Raise e =>
      (label_name ∉ labels) /\
      e = ValueError (LoadDatasets.repr label_name +:+ " is not in list")
  end.
Proof.
  intros labels. unfold LoadDatasets.label_to_int. fold labels.
  pose proof (list_index_spec label_name labels) as Hspec.
  destruct (LoadDatasets.list_index label_name labels) as [k|]; [|done].
  destruct Hspec as [Hk Hfirst]. rewrite Nat2Z.id.
  pose proof (lookup_lt_Some _ _ _ Hk). split; [lia | done].
Qed.

(** X17: [int_to_label] accepts the indices from [-n] up to [n - 1] for
    [n] class labels, a negative index counting from the end; every other
    index raises [IndexError] (so every index when there are no labels):
    [list index out of range] for one that fits 64 bits, and
    [cannot fit 'int' into an index-sized integer] for one that does
    not. *)
Theorem int_to_label_index_range (d : LoadDatasets.Dataset) (label_index : Z) :
  let labels := LoadDatasets.class_labels (LoadDatasets.params d) in
  let n := Z.of_nat (length labels) in
  if (- n <=? label_index) && (label_index <? n) then
    exists label,
      LoadDatasets.int_to_label d label_index = Ok label /\
      labels !! Z.to_nat (label_index mod n) = Some label
  else if fits_int 64 label_index then
    LoadDatasets.int_to_label d label_index
    = Raise (IndexError "list index out of range")
  else
    LoadDatasets.int_to_label d label_index
    = Raise (IndexError "cannot fit 'int' into an index-sized integer").
Proof.
  intros labels n. unfold LoadDatasets.int_to_label, LoadDatasets.list_getitem.
  fold labels. fold n.
  assert (Hfits : fits_int 64 label_index
                  = negb ((label_index <? - 2 ^ 63) || (2 ^ 63 <=? label_index))).
  { unfold fits_int. change (64 - 1) with 63.
    destruct (label_index <? - 2 ^ 63) eqn:E1, (2 ^ 63 <=? label_index) eqn:E2,
      (- 2 ^ 63 <=? label_index) eqn:E3, (label_index <? 2 ^ 63) eqn:E4; cbn; lia. }
  rewrite Hfits.
  destruct (- n <=? label_index) eqn:E1; destruct (label_index <? n) eqn:E2; cbn [andb].
  - assert (Hmod : label_index mod n
                   = if label_index <? 0 then label_index + n else label_index).
    { destruct (label_index <? 0) eqn:E3.
      - symmetry. apply (Z.mod_unique_pos _ _ (-1)); lia.
      - apply Z.mod_small. lia. }
    rewrite Hmod.
    destruct (label_index <? 0) eqn:E3.
    + destruct (0 <=? label_index + n) eqn:E4; [|lia].
      destruct (label_index + n <? n) eqn:E5; [|lia]. cbn [andb].
      destruct (lookup_lt_is_Some_2 labels (Z.to_nat (label_index + n))) as [l Hl];
        [lia|]. rewrite Hl. by exists l.
    + destruct (0 <=? label_index) eqn:E4; [|lia]. rewrite E2. cbn [andb].
      destruct (lookup_lt_is_Some_2 labels (Z.to_nat label_index)) as [l Hl];
        [lia|]. rewrite Hl. by exists l.
  - destruct (label_index <? 0) eqn:E3; [lia|].
    destruct (0 <=? label_index); rewrite ?E2; cbn [andb];
      by destruct ((label_index <? - 2 ^ 63) || (2 ^ 63 <=? label_index)).
  - destruct (label_index <? 0) eqn:E3; [|lia].
    destruct (0 <=? label_index + n) eqn:E4; [lia|]. cbn [andb].
    by destruct ((label_index <? - 2 ^ 63) || (2 ^ 63 <=? label_index)).
  - lia.
Qed.

End LabelFacts.

(** A label with an apostrophe is named between double quotes, and an
    index beyond 64 bits is refused before the list is looked at. *)
Lemma label_to_int_first_position_witness :
  let d : @LoadDatasets.Dataset Example.Z_Float32 :=
    {| LoadDatasets.params :=
         Spec.params_of default_flags 2 ["it's"; "b"] 1 None LoadDatasets.no_args;
       LoadDatasets.train := None; LoadDatasets.train_evaluation := None;
       LoadDatasets.test_evaluation := None |} in
  LoadDatasets.label_to_int d "b" = Ok 1 /\
  LoadDatasets.label_to_int d "don't"
  = Raise (ValueError (LoadDatasets.dquote +:+ "don't" +:+ LoadDatasets.dquote
                       +:+ " is not in list")).
Proof.
  intros d. split; [reflexivity|].
  pose proof (@label_to_int_first_position Example.Z_Float32 d "don't") as Hspec.
  cbv zeta in Hspec.
  destruct (LoadDatasets.label_to_int d "don't") as [i|e]; [|destruct Hspec as [_ ->]].
  - destruct Hspec as (_ & Hi & _).
    destruct (Z.to_nat i) as [|[|[|k]]]; discriminate Hi.
  - reflexivity.
Defined.

Lemma int_to_label_index_range_witness :
  let d : @LoadDatasets.Dataset Example.Z_Float32 :=
    {| LoadDatasets.params :=
         Spec.params_of default_flags 2 ["a"; "b"] 1 None LoadDatasets.no_args;
       LoadDatasets.train := None; LoadDatasets.train_evaluation := None;
       LoadDatasets.test_evaluation := None |} in
  LoadDatasets.int_to_label d (-1) = Ok "b" /\
  LoadDatasets.int_to_label d 2 = Raise (IndexError "list index out of range") /\
  LoadDatasets.int_to_label d (2 ^ 63)
  = Raise (IndexError "cannot fit 'int' into an index-sized integer").
Proof.
  intros d. split; [reflexivity|]. split.
  - exact (@int_to_label_index_range Example.Z_Float32 d 2).
  - exact (@int_to_label_index_range Example.Z_Float32 d (2 ^ 63)).
Defined.

(** ** Trimming at the edges *)

Section TrimEdgeFacts.
Context `{IO : TfIO}.

(** A slice that asks for every row and every column, by their numbers
    or by [-1], is the tensor itself. *)
Lemma tf_slice_whole (x : tensor) (d0 d1 s0 s1 : Z) :
  tensor_wf x -> shape x = [d0; d1] ->
  s0 = d0 \/ s0 = -1 -> s1 = d1 \/ s1 = -1 ->
  tf_slice x (0, 0) (s0, s1) = Ok x.
Proof.
  intros Hwf Hs H0 H1.
  destruct (tensor_wf_rank2 _ _ _ Hwf Hs) as (Hd0 & Hd1 & Hlen).
  assert (E0 : slice_extent d0 0 s0 = Some d0).
  { destruct H0 as [->| ->]; [by apply slice_extent_prefix; lia|].
    by apply slice_extent_all. }
  assert (E1 : slice_extent d1 0 s1 = Some d1).
  { destruct H1 as [->| ->]; [by apply slice_extent_prefix; lia|].
    by apply slice_extent_all. }
  unfold tf_slice. rewrite Hs. cbn [fst snd]. rewrite E0, E1.
  rewrite (flat_map_ext _
             (fun i : nat => take (Z.to_nat d1) (drop (i * Z.to_nat d1) (data x))))
    by (intros i; do 2 f_equal; lia).
  rewrite rows_prefix, take_ge by nia.
  rewrite <- Hs. by destruct x.
Qed.

(** A stage of trimming that is switched on rejects a tensor that is not
    of rank 2. *)
Lemma stage_rejects_rank (x : tensor) (size : Z -> Z -> Z * Z) :
  length (shape x) <> 2%nat ->
  exists msg,
    (let? d0 := shape_at x 0 in
     let? d1 := shape_at x 1 in
     tf_slice x (0, 0) (size d0 d1)) = Raise (InvalidArgumentError msg).
Proof.
  intros Hrank. unfold shape_at, tf_slice.
  destruct (shape x) as [|a [|b [|c sh]]] eqn:E; cbn; try done; by eexists.
Qed.

(** The constant a flag becomes when it fits 64 bits and constants
    wrap. *)
Lemma flag_constant (flag : Z) (limit : option Z) :
  Spec.int32_constants_wrap -> fits_int 64 flag = true ->
  (if flag =? 0 then limit = None
   else exists t, int32_constant flag = Ok t /\ limit = Some t) ->
  limit = if flag =? 0 then None else Some (wrap_int 32 flag).
Proof.
  intros Hwrap Hfits Hlimit. destruct (flag =? 0); [done|].
  destruct Hlimit as (t & Ht & ->). rewrite (Hwrap _ Hfits) in Ht. by injection Ht as <-.
Qed.

(** X18: with both trimming flags 0 a parsed example is returned exactly
    as parsed, whatever the rank of [x]; with a flag that is not 0 an [x]
    that is not of rank 2 makes the traced function raise
    [InvalidArgumentError]. *)
Theorem parse_example_rank
    (FLAGS : Flags) (example_proto : string) (x y : tensor)
    (Hparsed : Spec.parses_to example_proto x y) :
  (trim_time_steps FLAGS = 0 -> feature_subset FLAGS = 0 ->
   exists f, LoadDatasets._parse_example_function FLAGS = Ok f /\
             f example_proto = Ok (x, y)) /\
  (forall f,
      LoadDatasets._parse_example_function FLAGS = Ok f ->
      trim_time_steps FLAGS <> 0 \/ feature_subset FLAGS <> 0 ->
      length (shape x) <> 2%nat ->
      exists msg, f example_proto = Raise (InvalidArgumentError msg)).
Proof.
  split.
  - intros Htrim Hsubset.
    destruct (parse_example_function_traces FLAGS (or_introl Htrim) (or_introl Hsubset))
      as [f Hf].
    exists f. split; [done|].
    destruct (parse_example_function_inv _ _ Hf) as (trim & subset & Ht & Hs & Hrun).
    rewrite Htrim in Ht. rewrite Hsubset in Hs. cbn in Ht, Hs. subst trim subset.
    by rewrite (Hrun _ _ _ Hparsed).
  - intros f Hf Hflag Hrank.
    destruct (parse_example_function_inv _ _ Hf) as (trim & subset & Ht & Hs & Hrun).
    rewrite (Hrun _ _ _ Hparsed).
    destruct (trim_time_steps FLAGS =? 0) eqn:E1.
    + subst trim. cbn [rbind].
      destruct (feature_subset FLAGS =? 0) eqn:E2; [lia|].
      destruct Hs as (u & _ & ->).
      destruct (stage_rejects_rank x (fun d0 d1 => (d0, Z.min d1 u)) Hrank) as [msg Hmsg].
      rewrite Hmsg. by eexists.
    + destruct Ht as (t & _ & ->).
      destruct (stage_rejects_rank x (fun d0 d1 => (Z.min d0 t, d1)) Hrank) as [msg Hmsg].
      rewrite Hmsg. by eexists.
Qed.

Section Wrapping.
Context (Hwrap : Spec.int32_constants_wrap).

(** The traced function when both flags fit 64 bits. *)
Lemma parse_example_wrapped (FLAGS : Flags) (example_proto : string) (x y : tensor) :
  Spec.parses_to example_proto x y ->
  fits_int 64 (trim_time_steps FLAGS) = true ->
  fits_int 64 (feature_subset FLAGS) = true ->
  exists f,
    LoadDatasets._parse_example_function FLAGS = Ok f /\
    f example_proto
    = (let? x1 :=
         if trim_time_steps FLAGS =? 0 then Ok x
         else
           let? d0 := shape_at x 0 in
           let? d1 := shape_at x 1 in
           tf_slice x (0, 0) (Z.min d0 (wrap_int 32 (trim_time_steps FLAGS)), d1) in
       let? x2 :=
         if feature_subset FLAGS =? 0 then Ok x1
         else
           let? d0 := shape_at x1 0 in
           let? d1 := shape_at x1 1 in
           tf_slice x1 (0, 0) (d0, Z.min d1 (wrap_int 32 (feature_subset FLAGS))) in
       Ok (x2, y)).
Proof.
  intros Hparsed Hfit_trim Hfit_subset.
  destruct (parse_example_function_traces FLAGS) as [f Hf].
  { right. by rewrite (Hwrap _ Hfit_trim). }
  { right. by rewrite (Hwrap _ Hfit_subset). }
  exists f. split; [done|].
  destruct (parse_example_function_inv _ _ Hf) as (trim & subset & Ht & Hs & Hrun).
  rewrite (Hrun _ _ _ Hparsed).
  rewrite (flag_constant _ _ Hwrap Hfit_trim Ht).
  rewrite (flag_constant _ _ Hwrap Hfit_subset Hs).
  by destruct (trim_time_steps FLAGS =? 0), (feature_subset FLAGS =? 0).
Qed.

(** X19: trimming limits that the example already meets change nothing:
    when each flag is 0 or, as an int32, at least the size of its
    dimension, the traced function returns the parsed [x] itself. *)
Theorem parse_example_within_limits
    (FLAGS : Flags) (example_proto : string) (x y : tensor) (time_steps features : Z)
    (Hparsed : Spec.parses_to example_proto x y)
    (Hwf : tensor_wf x) (Hshape : shape x = [time_steps; features])
    (Hfit_trim : fits_int 64 (trim_time_steps FLAGS) = true)
    (Hfit_subset : fits_int 64 (feature_subset FLAGS) = true)
    (Htrim : trim_time_steps FLAGS = 0 \/
             time_steps <= wrap_int 32 (trim_time_steps FLAGS))
    (Hsubset : feature_subset FLAGS = 0 \/
               features <= wrap_int 32 (feature_subset FLAGS)) :
  exists f,
    LoadDatasets._parse_example_function FLAGS = Ok f /\
    f example_proto = Ok (x, y).
Proof.
  destruct (parse_example_wrapped FLAGS _ _ _ Hparsed Hfit_trim Hfit_subset)
    as (f & Hf & Hrun).
  exists f. split; [done|]. rewrite Hrun.
  destruct (shape_at_rank2 _ _ _ Hshape) as [Ha Hb].
  assert (Hstage1 :
            (if trim_time_steps FLAGS =? 0 then Ok x
             else
               let? d0 := shape_at x 0 in
               let? d1 := shape_at x 1 in
               tf_slice x (0, 0) (Z.min d0 (wrap_int 32 (trim_time_steps FLAGS)), d1))
            = Ok x).
  { destruct (trim_time_steps FLAGS =? 0) eqn:E; [done|].
    rewrite Ha, Hb. cbn [rbind].
    apply (tf_slice_whole x time_steps features); [done | done | left; lia | by left]. }
  rewrite Hstage1. cbn [rbind].
  destruct (feature_subset FLAGS =? 0) eqn:E; cbn [rbind]; [done|].
  rewrite Ha, Hb. cbn [rbind].
  rewrite (tf_slice_whole x time_steps features); [done | done | done | by left | left; lia].
Qed.

(** X20: a [trim_time_steps] that is negative as an int32 never trims:
    when it is [-1] the traced function acts on a rank-2 example exactly
    like the one traced with the flag at 0, and when it is below [-1] the
    traced function raises [InvalidArgumentError]. *)
Theorem parse_example_negative_trim
    (FLAGS FLAGS0 : Flags) (example_proto : string) (x y : tensor)
    (time_steps features : Z)
    (Hparsed : Spec.parses_to example_proto x y)
    (Hwf : tensor_wf x) (Hshape : shape x = [time_steps; features])
    (Hfit_trim : fits_int 64 (trim_time_steps FLAGS) = true)
    (Hfit_subset : fits_int 64 (feature_subset FLAGS) = true)
    (Hnegative : wrap_int 32 (trim_time_steps FLAGS) < 0)
    (Hzero : trim_time_steps FLAGS0 = 0)
    (Hsame : feature_subset FLAGS0 = feature_subset FLAGS) :
  exists f f0,
    LoadDatasets._parse_example_function FLAGS = Ok f /\
    LoadDatasets._parse_example_function FLAGS0 = Ok f0 /\
    if wrap_int 32 (trim_time_steps FLAGS) =? -1 then
      f example_proto = f0 example_proto
    else
      exists msg, f example_proto = Raise (InvalidArgumentError msg).
Proof.
  assert (Hfit0 : fits_int 64 (trim_time_steps FLAGS0) = true) by (by rewrite Hzero).
  assert (Hfit0' : fits_int 64 (feature_subset FLAGS0) = true) by (by rewrite Hsame).
  destruct (parse_example_wrapped FLAGS _ _ _ Hparsed Hfit_trim Hfit_subset)
    as (f & Hf & Hrun).
  destruct (parse_example_wrapped FLAGS0 _ _ _ Hparsed Hfit0 Hfit0')
    as (f0 & Hf0 & Hrun0).
  exists f, f0. split; [done|]. split; [done|].
  rewrite Hrun, Hrun0.
  destruct (tensor_wf_rank2 _ _ _ Hwf Hshape) as (Hts & Hfe & _).
  destruct (shape_at_rank2 _ _ _ Hshape) as [Ha Hb].
  rewrite Hzero, Hsame. cbn [Z.eqb rbind].
  destruct (trim_time_steps FLAGS =? 0) eqn:E0.
  { apply Z.eqb_eq in E0. rewrite E0 in Hnegative. by vm_compute in Hnegative. }
  rewrite Ha, Hb. cbn [rbind].
  destruct (wrap_int 32 (trim_time_steps FLAGS) =? -1) eqn:E.
  - apply Z.eqb_eq in E.
    rewrite (tf_slice_whole x time_steps features); [| done | done | right; lia | by left].
    cbn [rbind]. destruct (feature_subset FLAGS =? 0); [done|].
    by rewrite Ha, Hb.
  - unfold tf_slice. rewrite Hshape. cbn [fst snd].
    assert (Hnone : slice_extent time_steps 0
                      (Z.min time_steps (wrap_int 32 (trim_time_steps FLAGS))) = None).
    { unfold slice_extent. rewrite Z.min_r by lia. rewrite E. cbn.
      by destruct (0 <=? wrap_int 32 (trim_time_steps FLAGS)) eqn:E1; [lia|]. }
    rewrite Hnone. cbn [rbind]. by eexists.
Qed.

(** X21: for a parsed example [x] of shape [[time_steps, features]] and
    flags that fit 64 bits and are not negative as int32 values, the traced
    function returns [x] cut to the leading [min time_steps t] time steps,
    [t] the int32 value of a [trim_time_steps] that is not 0, and to the
    leading [min features u] features, [u] the int32 value of a
    [feature_subset] that is not 0, every kept entry in its place; a flag
    of 0 leaves its dimension alone; the label [y] is returned as
    parsed. *)
Theorem parse_example_trims
    (FLAGS : Flags) (example_proto : string) (x y : tensor) (time_steps features : Z)
    (Hparsed : Spec.parses_to example_proto x y)
    (Hwf : tensor_wf x) (Hshape : shape x = [time_steps; features])
    (Hfit_trim : fits_int 64 (trim_time_steps FLAGS) = true)
    (Hfit_subset : fits_int 64 (feature_subset FLAGS) = true)
    (Htrim : 0 <= wrap_int 32 (trim_time_steps FLAGS))
    (Hsubset : 0 <= wrap_int 32 (feature_subset FLAGS)) :
  exists f x',
    LoadDatasets._parse_example_function FLAGS = Ok f /\
    f example_proto = Ok (x', y) /\
    shape x' = [Spec.trimmed time_steps (trim_time_steps FLAGS);
                Spec.trimmed features (feature_subset FLAGS)] /\
    (forall i j,
        0 <= i < Spec.trimmed time_steps (trim_time_steps FLAGS) ->
        0 <= j < Spec.trimmed features (feature_subset FLAGS) ->
        get2 x' i j = get2 x i j) /\
    (trim_time_steps FLAGS = 0 -> feature_subset FLAGS = 0 -> x' = x).
Proof.
  destruct (parse_example_wrapped FLAGS _ _ _ Hparsed Hfit_trim Hfit_subset)
    as (f & Hf & Hrun).
  destruct (tensor_wf_rank2 _ _ _ Hwf Hshape) as (Hts & Hfe & _).
  assert (Hstage1 : exists x1,
             (if trim_time_steps FLAGS =? 0 then Ok x
              else
                let? d0 := shape_at x 0 in
                let? d1 := shape_at x 1 in
                tf_slice x (0, 0) (Z.min d0 (wrap_int 32 (trim_time_steps FLAGS)), d1))
             = Ok x1 /\
             shape x1 = [Spec.trimmed time_steps (trim_time_steps FLAGS); features] /\
             tensor_wf x1 /\
             (forall i j, 0 <= i < Spec.trimmed time_steps (trim_time_steps FLAGS) ->
                          0 <= j < features -> get2 x1 i j = get2 x i j) /\
             (trim_time_steps FLAGS = 0 -> x1 = x)).
  { unfold Spec.trimmed. destruct (trim_time_steps FLAGS =? 0) eqn:E.
    - exists x. split; [done|]. split; [done|]. split; [done|]. by split.
    - destruct (trim_time_stage x time_steps features _ Hwf Hshape Htrim)
        as (x1 & H1 & Hs1 & Hwf1 & Hget1).
      exists x1. split; [done|]. split; [done|]. split; [done|].
      split; [done | lia]. }
  destruct Hstage1 as (x1 & Hstage1 & Hs1 & Hwf1 & Hget1 & Hsame1).
  assert (Hstage2 : exists x2,
             (if feature_subset FLAGS =? 0 then Ok x1
              else
                let? d0 := shape_at x1 0 in
                let? d1 := shape_at x1 1 in
                tf_slice x1 (0, 0) (d0, Z.min d1 (wrap_int 32 (feature_subset FLAGS))))
             = Ok x2 /\
             shape x2 = [Spec.trimmed time_steps (trim_time_steps FLAGS);
                         Spec.trimmed features (feature_subset FLAGS)] /\
             (forall i j, 0 <= i < Spec.trimmed time_steps (trim_time_steps FLAGS) ->
                          0 <= j < Spec.trimmed features (feature_subset FLAGS) ->
                          get2 x2 i j = get2 x1 i j) /\
             (feature_subset FLAGS = 0 -> x2 = x1)).
  { unfold Spec.trimmed at 2 4. destruct (feature_subset FLAGS =? 0) eqn:E.
    - exists x1. split; [done|]. split; [done|]. by split.
    - destruct (trim_feature_stage x1 _ features _ Hwf1 Hs1 Hsubset)
        as (x2 & H2 & Hs2 & Hwf2 & Hget2).
      exists x2. split; [done|]. split; [done|]. split; [done | lia]. }
  destruct Hstage2 as (x2 & Hstage2 & Hs2 & Hget2 & Hsame2).
  exists f, x2. split; [done|]. split; [|split; [done|split]].
  - rewrite Hrun, Hstage1. cbn [rbind]. by rewrite Hstage2.
  - intros i j Hi Hj. rewrite Hget2 by done. apply Hget1; [done|].
    unfold Spec.trimmed in Hj. destruct (feature_subset FLAGS =? 0); lia.
  - intros Ht Hf0. rewrite (Hsame2 Hf0). by apply Hsame1.
Qed.

End Wrapping.
End TrimEdgeFacts.

(** The sample framework wraps constants as assumed. *)
Lemma sample_constants_wrap : Spec.int32_constants_wrap (IO := Example.Z_TfIO).
Proof.
  intros v Hv. cbn [int32_constant Example.Z_TfIO]. by rewrite Hv.
Defined.

(** The sample record holds a [[3, 2]] example and its one-hot label, the
    vector record a vector of three. *)
Lemma sample_record_parses :
  Spec.parses_to (IO := Example.Z_TfIO) "32123456;13100"
    (@Tensor Example.Z_Float32 [3; 2] [1; 2; 3; 4; 5; 6])
    (@Tensor Example.Z_Float32 [1; 3] [1; 0; 0]).
Proof.
  exists (<["x" := "32123456"]> (<["y" := "13100"]> ∅)), "32123456", "13100".
  repeat split; reflexivity.
Defined.

Lemma vector_record_parses :
  Spec.parses_to (IO := Example.Z_TfIO) "v3123;13100"
    (@Tensor Example.Z_Float32 [3] [1; 2; 3])
    (@Tensor Example.Z_Float32 [1; 3] [1; 0; 0]).
Proof.
  exists (<["x" := "v3123"]> (<["y" := "13100"]> ∅)), "v3123", "13100".
  repeat split; reflexivity.
Defined.

Lemma sample_example_wf :
  tensor_wf (@Tensor Example.Z_Float32 [3; 2] [1; 2; 3; 4; 5; 6]).
Proof. split; [repeat constructor; lia | reflexivity]. Defined.

Lemma parse_example_rank_witness :
  (exists f,
      @LoadDatasets._parse_example_function _ Example.Z_TfIO default_flags = Ok f /\
      f "v3123;13100"
      = Ok (@Tensor Example.Z_Float32 [3] [1; 2; 3],
            @Tensor Example.Z_Float32 [1; 3] [1; 0; 0])) /\
  (exists f msg,
      @LoadDatasets._parse_example_function _ Example.Z_TfIO (Example.trimming_flags 2 0)
      = Ok f /\
      f "v3123;13100" = Raise (InvalidArgumentError msg)).
Proof.
  split.
  - destruct (@parse_example_rank _ Example.Z_TfIO default_flags "v3123;13100"
                _ _ vector_record_parses) as [Hplain _].
    exact (Hplain eq_refl eq_refl).
  - destruct (@parse_example_rank _ Example.Z_TfIO (Example.trimming_flags 2 0)
                "v3123;13100" _ _ vector_record_parses) as [_ Hrank].
    eexists. 
    destruct (Hrank _ eq_refl) as [msg Hmsg]; [left; discriminate | discriminate |].
    exists msg. split; [reflexivity | exact Hmsg].
Defined.

Lemma parse_example_within_limits_witness :
  exists f,
    @LoadDatasets._parse_example_function _ Example.Z_TfIO
      (Example.trimming_flags 5 4294967298) = Ok f /\
    f "32123456;13100"
    = Ok (@Tensor Example.Z_Float32 [3; 2] [1; 2; 3; 4; 5; 6],
          @Tensor Example.Z_Float32 [1; 3] [1; 0; 0]).
Proof.
  apply (@parse_example_within_limits _ Example.Z_TfIO sample_constants_wrap
           (Example.trimming_flags 5 4294967298)
           "32123456;13100" _ _ 3 2 sample_record_parses sample_example_wf eq_refl
           eq_refl eq_refl).
  - right. vm_compute. discriminate.
  - right. vm_compute. discriminate.
Defined.

Lemma parse_example_negative_trim_witness :
  exists f f0,
    @LoadDatasets._parse_example_function _ Example.Z_TfIO
      (Example.trimming_flags 4294967295 1) = Ok f /\
    @LoadDatasets._parse_example_function _ Example.Z_TfIO
      (Example.trimming_flags 0 1) = Ok f0 /\
    f "32123456;13100" = f0 "32123456;13100".
Proof.
  apply (@parse_example_negative_trim _ Example.Z_TfIO sample_constants_wrap
           (Example.trimming_flags 4294967295 1) (Example.trimming_flags 0 1)
           "32123456;13100" _ _ 3 2 sample_record_parses sample_example_wf eq_refl
           eq_refl eq_refl).
  - vm_compute. reflexivity.
  - reflexivity.
  - reflexivity.
Defined.

Lemma parse_example_trims_witness :
  let FLAGS := Example.trimming_flags 2 4294967297 in
  let x := @Tensor Example.Z_Float32 [3; 2] [1; 2; 3; 4; 5; 6] in
  let y := @Tensor Example.Z_Float32 [1; 3] [1; 0; 0] in
  exists f x',
    @LoadDatasets._parse_example_function _ Example.Z_TfIO FLAGS = Ok f /\
    f "32123456;13100" = Ok (x', y) /\
    shape x' = [2; 1] /\
    get2 x' 1 0 = Some 3.
Proof.
  intros FLAGS x y.
  assert (Htrim : 0 <= wrap_int 32 (trim_time_steps FLAGS)) by (vm_compute; discriminate).
  assert (Hsubset : 0 <= wrap_int 32 (feature_subset FLAGS)) by (vm_compute; discriminate).
  destruct (@parse_example_trims _ Example.Z_TfIO sample_constants_wrap FLAGS
              "32123456;13100" x y 3 2 sample_record_parses sample_example_wf eq_refl
              eq_refl eq_refl Htrim Hsubset)
    as (f & x' & Hf & Hrun & Hshape & Hget & _).
  exists f, x'. split; [exact Hf|]. split; [exact Hrun|]. split; [exact Hshape|].
  rewrite (Hget 1 0); [reflexivity | vm_compute; split; congruence
                       | vm_compute; split; congruence].
Defined.
